(* ===== verification/_CoqProject ===== *)
-Q . S2P
Prelude.v
PyStr.v
Vocabulary.v
BoxDeriver.v
LabelWriter.v
FileSystem.v
ImageExtraction.v
Labeling.v
LettersPass.v
Validator.v
Splitter.v
SplitRun.v
SplitExamples.v
Realtime.v
RealtimeLoop.v
CombinedData.v
Pipeline.v
