(* ===== verification/Prelude.v ===== *)
(** * A verification development for the ASL hand-sign dataset pipeline

    The repository (src/) is a set of batch Python scripts that prepare a
    YOLO hand-sign dataset.  Two variants live side by side:
    - [src/asl+sign digits detection/project_code/], the "combined"
      variant (digits 0-9, letters A-Z, del, nothing, space: 39 classes,
      which the spec calls the 36-class variant);
    - [src/asl_detection/project_code/], the "letters" variant (A-Z).

    The scripts and how they interact (all through the file system):
    - [image_extraction.py] writes resized images into
      [data/yolo_images/<class>/];
    - [bounding_box_generation.py] runs the MediaPipe hand detector on every
      image of a known class folder, derives a box from the 21 landmarks and
      writes one YOLO label line to [<stem>.txt] beside the image; the
      letters variant first previews up to ten boxes and asks on standard
      input whether to go on;
    - [bounding_box_generation_validation.py] reports, per folder, how many
      images have a label file;
    - [dataset_splitting.py] shuffles the complete image/label pairs of each
      class, splits them 80/20 and copies them into
      [data/yolo_dataset/{images,labels}/{train,val}/];
    - [realtime_detection.py] draws the boxes of a trained detector on
      webcam frames (outside the data pipeline);
    - [image_processing/combined_data.py] copies both raw datasets into
      [data/combined_data/images], which no other script reads.

    Library layout (one file per component, in dependency order):
    - [Prelude]: this header; Python's exceptions [py_exc] and fallible
      results [res] with stdpp's monad notation ([x ← c; k]); Python's
      [for] loop over a list in [res] ([py_for]) with its invariant,
      totality and fold lemmas; the [while] loop with fuel ([py_while])
      with its monotonicity in the fuel and its agreement with the step
      relation of the body; two-argument [min]/[max] and [int()] on
      floats; the [cvproj] hint databases and the [qdiv] tactic.
    - [PyStr]: the string functions the scripts call ([str.lower],
      [str.endswith] with a tuple, [str.strip], [os.path.splitext] as
      CPython writes it) and the formatting [f"{n}"] and [f"{x:.6f}"].
    - [Vocabulary]: the class vocabularies (modules [Combined] and
      [Letters]) and [class_map = {name: idx for idx, name in enumerate(...)}].
    - [BoxDeriver]: the box computation of both variants (min/max over the
      landmarks' pixel coordinates; the letters variant's sequential padding
      and clamping; the combined variant's [int()] truncation; YOLO
      normalisation).
    - [LabelWriter]: the label line and the label file name, with a reader
      of label lines for the round trip.
    - [FileSystem]: the directory tree (a [gmap] from names to files or
      folders, a folder a [gmap] from file names to contents) and the
      external collaborators as type classes with their laws: [DirLister]
      ([os.listdir]: any permutation of the entries), [ImageCodec]
      ([cv2.imread], [image.shape]), [HandLandmarker] (MediaPipe: every
      detected hand has 21 landmarks).
    - [Labeling]: the labeling pass of the combined variant
      ([label_image], [label_folder], [label_class_folder], [label_pass]),
      with the label writes shared with the letters variant.
    - [LettersPass]: the letters variant's pass with its preview, its
      question on standard input and its generation loop.
    - [Validator]: the report of [bounding_box_generation_validation.py].
    - [Splitter]: [dataset_splitting.py] per class folder ([Shuffler] is
      [random.shuffle] with its state threaded); [SplitRun]: the whole run;
      [SplitExamples]: concrete trees, witnesses and counterexamples.
    - [ImageExtraction]: [image_extraction.py]: the digit loop (label by
      [np.argmax], per-label counters, names [f"{label}{k}.jpg"]) with the
      encoding of a numpy row as the [ImageEncoder] interface, and the
      alphabet copy that skips existing files ([PilConverter] is PIL's
      open/convert/resize), in both variants.
    - [Realtime]: [realtime_detection.py]: the webcam loop as a function
      of the camera's ticks (is it open, the frame read, the key pressed),
      the YOLO model as the [Detector] interface, the boxes and labels drawn
      on each frame, and the quit test [waitKey(1) & 0xFF == ord("q")];
      [RealtimeLoop]: the same [while] loop over an unbounded camera (a
      function from the turn number to its tick), executable with
      [py_while] and fuel, and relational as a step relation with its
      exits.
    - [CombinedData]: [image_processing/combined_data.py]: the copy of the
      alphabet folders and of the digit arrays into one output folder
      ([np.load] and [cv2.cvtColor] are the [NpyLoader] and [CvConverter]
      interfaces), with its specification as a merge of trees.
    - [Pipeline]: the scripts of the combined variant as functions of the
      project's store (folders as trees, loaded files, the split dataset,
      each at the path the script computes with [os.path.join] from its own
      folder; modules [image_extraction], [bounding_box_generation],
      [bounding_box_generation_validation], [dataset_splitting]) and the
      pipeline of the spec's data flow: extraction, labeling, validation,
      splitting.

    What the theorems show, by group:
    - boxes: for a hand inside the image the letters variant's box is in
      [0, 1] and contains every landmark, the combined variant's box is in
      [0, 1] and may miss one pixel; the derivation raises exactly on an
      empty hand; degenerate boxes are emitted: zero area, and negative
      width (height) exactly when the padded hand lies wholly left or
      right of (above or below) the image;
    - labels: the line reads back to its values within half a unit of the
      sixth decimal; a label file is never an image; on the spec's example
      the code writes other values than the spec; every file the combined
      labeling pass writes is the label of one of its folder's images and
      parses as a YOLO line of the folder's class, an index below 39;
    - labeling: the combined pass always completes, is characterised
      entry by entry, leaves images and unknown folders alone and is
      idempotent when stems are unique; whatever the stems, a label file
      holds the line of the last image of its stem in listing order; the letters pass's preview count,
      what a [yes] writes, that the previewed files are never labeled and
      that an exhausted standard input raises [EOFError];
    - validator: the counts, [labeled <= total], [missing = total - labeled],
      one sorted line per folder (unknown folders included), independence
      from the listing order;
    - splitter: the partition and its sizes, disjointness under unique
      stems, agreement with the validator's count, that the run never
      raises, copies bytes unchanged, and (refinement of the spec's
      contract) puts every complete pair in exactly one split on a
      well-formed tree; and what happens on trees that are not; its
      [os.makedirs] loop raises exactly when a regular file sits at an
      output folder or above one;
    - image extraction: every digit image is saved under a name no other
      image of the run takes, when the labels are digits and no file is in
      the way; the alphabet copy keeps every file already there and is
      idempotent; the one-pass [np.argmax] is the reference "first index
      of the maximum";
    - real time: the quit test is exactly [k mod 256 = 113]; the loop
      shows every frame up to the first quitting key and no further, and
      raises [KeyError] when the model's names lack a reported class; on
      an unbounded camera the executable loop and the step relation agree,
      every reachable state has shown exactly the frames of its turns, the
      loop ends by turn [n + 1] when turn [n] stops it, and it ends at all
      exactly when some turn stops it;
    - combined data: the run is a merge that does not depend on the
      listing order when no file is in the way (and does when one is);
      each digit image gets a name of its own; one image that does not
      convert aborts the run; on the layout [image_extraction.py] reads,
      no digit image is copied, and the label array [Y.npy] is copied as
      images;
    - pipeline: the scripts hand each other the same folder, and a digit
      image of [X.npy] on which the detector finds a hand comes out of the
      four scripts in exactly one split, bytes unchanged, with a label line
      of its digit's class (folder [str(d)] is class [d] of the combined
      vocabulary).

    Numbers.  Python floats are exact rationals [Q]; image dimensions are
    [positive], so no division by zero arises.  IEEE rounding is not
    modelled; the literals 0.1, 0.2 and 0.8 are 1/10, 2/10 and 4/5 (for
    0.8 this gives the same [int(n * 0.8)] for every [n] below [2^49]).
    [int()] is truncation toward zero ([py_int]); [:.6f] rounds the exact
    value half to even.  Every [for] loop is a structural recursion over
    the list it walks (no fuel is needed); the preview's [break] after ten
    boxes is a test at the head of each iteration, as in the code.  The one
    [while] loop, of [realtime_detection.py], may run forever: it is run
    with a fuel bound ([py_while], [None] when the fuel runs out), and the
    theorems say which bound suffices (one more than the first stopping
    turn) and that more fuel never changes the result.

    What is not modelled: the libraries the scripts only call (OpenCV,
    MediaPipe, PIL, numpy, ultralytics, tqdm): pixel data (images are
    opaque values of the [ImageCodec] interface), the detector's internals
    (and the tracking that [static_image_mode=False] enables), model
    inference (the [Detector] interface); console output (print, tqdm),
    windows and pixel drawing (a drawing is its list of rectangles and
    texts) and file metadata; file names are ASCII strings.  The file
    system is case sensitive: [os.path.exists] and [shutil.copy2] find a
    file under exactly its name (as on Linux; on the case-insensitive
    default file system of macOS, [B.jpg] would also find [B.JPG]).  A script that
    raises returns no state, so the writes it made before the exception
    are not tracked.  The webcam is either a finite list of ticks
    ([Realtime]) or a function of the turn number ([RealtimeLoop]). *)

From Stdlib Require Export QArith Qround Qminmax Qabs Lqa ZArith.
From stdpp Require Export base list gmap strings.

Declare Scope py_scope.
Delimit Scope py_scope with py.

Create HintDb cvproj.
Create Rewrite HintDb cvproj_rw.

(** ** Python exceptions and fallible results *)

(** The exceptions the modelled scripts can raise and do not catch. *)
Inductive py_exc :=
  | ValueError          (** [min]/[max] of an empty sequence *)
  | KeyError            (** a dictionary lookup of a missing key *)
  | EOFError            (** [input()] at end of input *)
  | FileNotFoundError   (** [shutil.copy2] of a missing file *)
  | FileExistsError     (** [os.makedirs] over a regular file *)
  | IndexError          (** a list index out of range *)
  | IsADirectoryError   (** [open()] of a folder, as in [np.load] *)
  | NotADirectoryError  (** [os.mkdir] below a regular file *)
  | CvError.            (** [cv2.error], raised by an OpenCV call *)

#[export] Instance py_exc_eq_dec : EqDecision py_exc.
Proof. solve_decision. Defined.

(** A computation that either returns a value or raises. *)
Inductive res (A : Type) : Type :=
  | Ok (a : A)
  | Raise (e : py_exc).
Arguments Ok {A} a.
Arguments Raise {A} e.

#[export] Instance res_eq_dec {A} `{EqDecision A} : EqDecision (res A).
Proof. solve_decision. Defined.

#[export] Instance res_ret : MRet res := λ A a, Ok a.
#[export] Instance res_bind : MBind res :=
  λ A B f m, match m with Ok a => f a | Raise e => Raise e end.

Notation "'raise' e" := (Raise e) (at level 10) : py_scope.

Lemma res_bind_Ok {A B} (f : A → res B) (a : A) : (Ok a ≫= f) = f a.
Proof. reflexivity. Qed.

Lemma res_bind_Raise {A B} (f : A → res B) e : (Raise e ≫= f) = Raise e.
Proof. reflexivity. Qed.

Lemma res_bind_Ok_inv {A B} (f : A → res B) m b :
  (m ≫= f) = Ok b → ∃ a, m = Ok a ∧ f a = Ok b.
Proof. destruct m; simpl; [eauto | discriminate]. Qed.

#[export] Hint Rewrite @res_bind_Ok @res_bind_Raise : cvproj_rw.

(** ** Python's [for] loop over a list, in the result monad *)

(** [for x in xs: body] where the loop state is threaded explicitly and an
    exception leaves the loop. *)
Fixpoint py_for {S A} (body : S → A → res S) (xs : list A) (s : S) : res S :=
  match xs with
  | [] => Ok s
  | x :: rest => s' ← body s x; py_for body rest s'
  end.

Section py_for_facts.
Context {S A : Type} (body : S → A → res S).

Lemma py_for_app xs ys s :
  py_for body (xs ++ ys) s = (s' ← py_for body xs s; py_for body ys s').
Proof.
  revert s; induction xs as [|x xs IH]; intros s; simpl; [done|].
  destruct (body s x); simpl; [apply IH | done].
Qed.

(** The loop-invariant principle: an invariant that every iteration
    preserves holds at the end of the loop. *)
Lemma py_for_invariant (P : S → Prop) xs s s' :
  (∀ t x t', x ∈ xs → P t → body t x = Ok t' → P t') →
  P s → py_for body xs s = Ok s' → P s'.
Proof.
  revert s; induction xs as [|x xs IH]; intros s Hstep Hs Hrun; simpl in Hrun.
  - by simplify_eq.
  - destruct (body s x) as [t|e] eqn:Hb; simpl in Hrun; [|discriminate].
    apply (IH t); [intros; eapply Hstep; eauto; set_solver | | done].
    eapply Hstep; eauto; set_solver.
Qed.

(** Two bodies that agree give the same loop. *)
Lemma py_for_ext (body' : S → A → res S) xs s :
  (∀ t x, body t x = body' t x) → py_for body xs s = py_for body' xs s.
Proof.
  intros Heq. revert s; induction xs as [|x xs IH]; intros s; simpl; [done|].
  rewrite Heq. destruct (body' s x); simpl; [apply IH | done].
Qed.

(** A loop whose body never raises runs to completion. *)
Lemma py_for_total xs s :
  (∀ t x, x ∈ xs → ∃ t', body t x = Ok t') →
  ∃ s', py_for body xs s = Ok s'.
Proof.
  revert s; induction xs as [|x xs IH]; intros s Hb; simpl; [eauto|].
  destruct (Hb s x) as [t Ht]; [set_solver|]. rewrite Ht; simpl.
  apply IH. intros; apply Hb; set_solver.
Qed.
(** A loop whose body leaves the state as it is leaves it as it is. *)
Lemma py_for_fixed xs s :
  (∀ x, x ∈ xs → body s x = Ok s) → py_for body xs s = Ok s.
Proof.
  induction xs as [|x xs IH]; intros Hb; simpl; [done|].
  rewrite Hb by set_solver. apply IH. intros; apply Hb; set_solver.
Qed.

(** A loop whose iterations return or raise [e] returns or raises [e]. *)
Lemma py_for_ok_or_raise e xs s :
  (∀ t x, x ∈ xs → body t x = Raise e ∨ ∃ t', body t x = Ok t') →
  py_for body xs s = Raise e ∨ ∃ s', py_for body xs s = Ok s'.
Proof.
  revert s; induction xs as [|x xs IH]; intros s Hb; simpl; [eauto|].
  destruct (Hb s x) as [->|[t ->]]; [set_solver|by left|]; simpl.
  apply IH. intros; apply Hb; set_solver.
Qed.

(** A loop raises [e] when one of its iterations raises [e] whatever the
    state, and every other iteration returns or raises [e]. *)
Lemma py_for_raise e xs s :
  (∀ t x, x ∈ xs → body t x = Raise e ∨ ∃ t', body t x = Ok t') →
  (∃ x, x ∈ xs ∧ ∀ t, body t x = Raise e) →
  py_for body xs s = Raise e.
Proof.
  revert s; induction xs as [|x xs IH]; intros s Hb [y [Hy Hr]];
    [by apply not_elem_of_nil in Hy|]; simpl.
  apply elem_of_cons in Hy as [->|Hy]; [by rewrite Hr|].
  destruct (Hb s x) as [->|[t ->]]; [set_solver|done|]; simpl.
  apply IH; [intros; apply Hb; set_solver | eauto].
Qed.
End py_for_facts.

(** A loop over [xs] whose body for [x] is an inner loop over [g x] is
    one loop over the concatenation. *)
Lemma py_for_flat_map {S A B} (body : S → A → res S) (inner : S → B → res S) (g : A → list B) xs s :
  (∀ t x, x ∈ xs → body t x = py_for inner (g x) t) →
  py_for body xs s = py_for inner (flat_map g xs) s.
Proof.
  revert s; induction xs as [|x xs IH]; intros s Hb; simpl; [done|].
  rewrite Hb, py_for_app by set_solver. destruct (py_for inner (g x) s); simpl; [|done].
  apply IH. intros; apply Hb; set_solver.
Qed.

(** A loop over [xs] is the loop over [map g xs] with a body that reads
    only [g x]. *)
Lemma py_for_map {S A B} (body : S → A → res S) (body' : S → B → res S) (g : A → B) xs s :
  (∀ t x, x ∈ xs → body t x = body' t (g x)) →
  py_for body xs s = py_for body' (map g xs) s.
Proof.
  revert s; induction xs as [|x xs IH]; intros s Hb; simpl; [done|].
  rewrite Hb by set_solver. destruct (body' s (g x)); simpl; [|done].
  apply IH. intros; apply Hb; set_solver.
Qed.

(** A loop whose body always returns is a left fold. *)
Lemma py_for_pure {S A} (step : S → A → S) xs s :
  py_for (λ t x, Ok (step t x)) xs s = Ok (foldl step s xs).
Proof. revert s; induction xs as [|x xs IH]; intros s; simpl; [done|]. apply IH. Qed.

(** ** Python's [while] loop, with fuel *)

(** [while cond: body] as the body's choice between the next state
    ([inl]) and the loop's result ([inr]), the shape of [ITree.iter];
    [None] when the fuel runs out before the loop ends. *)
Fixpoint py_while {St R} (fuel : nat) (body : St → res (St + R)) (s : St) : option (res R) :=
  match fuel with
  | O => None
  | S fuel' =>
      match body s with
      | Raise e => Some (Raise e)
      | Ok (inr r) => Some (Ok r)
      | Ok (inl s') => py_while fuel' body s'
      end
  end.

Section py_while_facts.
Context {St R : Type} (body : St → res (St + R)).

(** One more turn of the loop, and the way the loop ends. *)
Definition while_step (s s' : St) : Prop := body s = Ok (inl s').
Definition while_exit (s : St) (r : res R) : Prop :=
  match body s with
  | Ok (inr r') => r = Ok r'
  | Raise e => r = Raise e
  | Ok (inl _) => False
  end.

(** Fuel that suffices suffices with more: the result does not depend on
    the bound. *)
Lemma py_while_mono fuel fuel' s r :
  fuel ≤ fuel' → py_while fuel body s = Some r → py_while fuel' body s = Some r.
Proof.
  revert fuel' s. induction fuel as [|fuel IH]; intros fuel' s Hle Hrun; [done|].
  destruct fuel' as [|fuel']; [lia|]. simpl in *.
  destruct (body s) as [[s'|r']|e]; [|done|done]. apply IH; [lia|done].
Qed.

(** The executable loop agrees with the relational one: it returns [r]
    exactly when a chain of steps reaches a state that exits with [r]. *)
Lemma py_while_sound fuel s r :
  py_while fuel body s = Some r → ∃ s', rtc while_step s s' ∧ while_exit s' r.
Proof.
  revert s. induction fuel as [|fuel IH]; intros s Hrun; [done|]. simpl in Hrun.
  unfold while_exit. destruct (body s) as [[s'|r']|e] eqn:Hb.
  - destruct (IH s' Hrun) as (s'' & Hsteps & Hexit). exists s''. split; [|done].
    eapply rtc_l; [exact Hb | exact Hsteps].
  - exists s. split; [apply rtc_refl|]. rewrite Hb. by injection Hrun as <-.
  - exists s. split; [apply rtc_refl|]. rewrite Hb. by injection Hrun as <-.
Qed.

Lemma py_while_complete s s' r :
  rtc while_step s s' → while_exit s' r → ∃ fuel, py_while fuel body s = Some r.
Proof.
  induction 1 as [s|s s1 s' Hstep _ IH]; intros Hexit.
  - exists 1. unfold while_exit in Hexit. simpl.
    destruct (body s) as [[]|]; subst; done.
  - destruct (IH Hexit) as [fuel Hrun]. exists (S fuel). simpl.
    unfold while_step in Hstep. by rewrite Hstep.
Qed.

(** A loop whose every reachable state steps on never ends. *)
Lemma py_while_diverges s :
  (∀ s', rtc while_step s s' → ∃ s'', while_step s' s'') →
  ∀ fuel, py_while fuel body s = None.
Proof.
  intros Hstep fuel. revert s Hstep. induction fuel as [|fuel IH]; intros s Hstep; [done|].
  simpl. destruct (Hstep s (rtc_refl _ _)) as [s' Hs']. unfold while_step in Hs'.
  rewrite Hs'. apply IH. intros s'' Hr. apply Hstep. by eapply rtc_l.
Qed.
End py_while_facts.

(** ** Floats as rationals: comparisons and two-argument min/max *)

Open Scope Q_scope.

(** The strict comparison [a < b] of Python floats, as a boolean. *)
Definition Qltb (a b : Q) : bool := negb (Qle_bool b a).

Lemma Qltb_spec a b : Qltb a b = true ↔ a < b.
Proof.
  unfold Qltb. rewrite negb_true_iff.
  split; intros H.
  - apply Qnot_le_lt. intros Hle. apply Qle_bool_iff in Hle. congruence.
  - destruct (Qle_bool b a) eqn:E; [|done]. apply Qle_bool_iff in E. lra.
Qed.

Lemma Qltb_false a b : Qltb a b = false ↔ b <= a.
Proof.
  unfold Qltb. rewrite negb_false_iff. apply Qle_bool_iff.
Qed.

(** [max(a, b)]: Python keeps the first argument unless the second is
    strictly greater. *)
Definition py_max2 (a b : Q) : Q := if Qltb a b then b else a.

(** [min(a, b)]: Python keeps the first argument unless the second is
    strictly smaller. *)
Definition py_min2 (a b : Q) : Q := if Qltb b a then b else a.

Lemma py_max2_spec a b : a <= py_max2 a b ∧ b <= py_max2 a b ∧
  (py_max2 a b == a ∨ py_max2 a b == b).
Proof.
  unfold py_max2. destruct (Qltb a b) eqn:E;
    [apply Qltb_spec in E | apply Qltb_false in E]; split_and!; try lra.
Qed.

Lemma py_min2_spec a b : py_min2 a b <= a ∧ py_min2 a b <= b ∧
  (py_min2 a b == a ∨ py_min2 a b == b).
Proof.
  unfold py_min2. destruct (Qltb b a) eqn:E;
    [apply Qltb_spec in E | apply Qltb_false in E]; split_and!; try lra.
Qed.

(** Python's [int()] applied to a float: truncation toward zero. *)
Definition py_int (q : Q) : Z :=
  if Qle_bool 0 q then Qfloor q else (- Qfloor (- q))%Z.

Lemma py_int_nonneg q : 0 <= q →
  0 <= inject_Z (py_int q) ∧ inject_Z (py_int q) <= q ∧ q < inject_Z (py_int q) + 1.
Proof.
  intros Hq. unfold py_int.
  destruct (Qle_bool 0 q) eqn:E; [|apply not_true_iff_false in E;
    exfalso; apply E, Qle_bool_iff; done].
  pose proof (Qfloor_le q). pose proof (Qlt_floor q).
  assert (0 <= Qfloor q)%Z as Hz
    by (change 0%Z with (Qfloor 0); by apply Qfloor_resp_le).
  rewrite inject_Z_plus in *. change (inject_Z 1) with 1 in *.
  split_and!; try lra.
  change 0 with (inject_Z 0). by rewrite <- Zle_Qle.
Qed.

Lemma py_int_mono a b : 0 <= a → a <= b → (py_int a <= py_int b)%Z.
Proof.
  intros Ha Hab. unfold py_int.
  destruct (Qle_bool 0 a) eqn:Ea; [|apply not_true_iff_false in Ea;
    exfalso; apply Ea, Qle_bool_iff; done].
  destruct (Qle_bool 0 b) eqn:Eb; [|apply not_true_iff_false in Eb;
    exfalso; apply Eb, Qle_bool_iff; lra].
  by apply Qfloor_resp_le.
Qed.

(** ** Division helpers *)

(** A quotient by a positive denominator lies in [0, 1] when the
    numerator lies in [0, d]. *)
Lemma Qdiv_unit (a d : Q) : 0 < d → 0 <= a → a <= d → 0 <= a / d ∧ a / d <= 1.
Proof.
  intros Hd Ha Hb. split.
  - apply Qle_shift_div_l; [done|]. lra.
  - apply Qle_shift_div_r; [done|]. lra.
Qed.

Lemma Qdiv_neg_iff (a d : Q) : 0 < d → a / d < 0 ↔ a < 0.
Proof.
  intros Hd. split; intros Ha.
  - apply Qnot_le_lt. intros Hle. apply (Qlt_not_le _ _ Ha).
    apply Qle_shift_div_l; [done|]. lra.
  - apply Qlt_shift_div_r; [done|]. lra.
Qed.

Lemma Qdiv_mul_cancel (a d : Q) : 0 < d → a / d * d == a.
Proof.
  intros Hd. rewrite Qmult_comm. apply Qmult_div_r. intros E. rewrite E in Hd.
  apply (Qlt_irrefl 0); done.
Qed.

(** A positive integer (an image dimension) as a float. *)
Definition Qpos (p : positive) : Q := inject_Z (Zpos p).

Lemma Qpos_pos (p : positive) : 0 < Qpos p.
Proof. unfold Qpos, Qlt; simpl; lia. Qed.

#[export] Hint Resolve Qpos_pos : cvproj.

(** [qdiv] turns divisions by numeric constants into products by their
    inverses, which [lra] understands. *)
Ltac qdiv :=
  repeat match goal with
  | |- context [?a / (Qmake ?n ?d)] =>
      let c := eval vm_compute in (Qinv (Qmake n d)) in
      change (a / Qmake n d) with (a * c)
  | H : context [?a / (Qmake ?n ?d)] |- _ =>
      let c := eval vm_compute in (Qinv (Qmake n d)) in
      change (a / Qmake n d) with (a * c) in H
  end.
