(* ===== verification/PyStr.v ===== *)
(** * Python string functions used by the scripts

    File names are Rocq strings of ASCII characters.  This file models
    [str.lower] (ASCII letters), [str.endswith] with a suffix or a tuple of
    suffixes, the image-extension test
    [f.lower().endswith(('.jpg', '.jpeg', '.png'))] shared by all scripts,
    and [os.path.splitext] as CPython's [genericpath._splitext] computes it
    (including its loop that skips leading dots).  The fixed-point number
    formatting is in the second half of the file. *)

From S2P Require Import Prelude.
From Stdlib Require Import Ascii String DecimalString DecimalN.
#[local] Abbreviation length := List.length.

Local Open Scope list_scope.
Local Open Scope string_scope.

(** ** Strings as lists of characters *)

Lemma las_app (a b : string) :
  list_ascii_of_string (a ++ b) = (list_ascii_of_string a ++ list_ascii_of_string b)%list.
Proof. induction a as [|c a IH]; simpl; [done|]. by rewrite IH. Qed.

Lemma las_inj (a b : string) :
  list_ascii_of_string a = list_ascii_of_string b → a = b.
Proof.
  intros H. rewrite <- (string_of_list_ascii_of_string a),
    <- (string_of_list_ascii_of_string b). by rewrite H.
Qed.

Lemma sla_app (a b : list ascii) :
  string_of_list_ascii (a ++ b)%list = string_of_list_ascii a ++ string_of_list_ascii b.
Proof. induction a as [|c a IH]; simpl; [done|]. by rewrite IH. Qed.

Lemma string_app_nil_r (s : string) : s ++ "" = s.
Proof. induction s as [|c s IH]; [done|]. change (String c (s ++ "") = String c s). by rewrite IH. Qed.

Lemma las_length (s : string) : length (list_ascii_of_string s) = String.length s.
Proof. induction s; simpl; auto. Qed.

#[export] Hint Rewrite las_app sla_app string_of_list_ascii_of_string
  list_ascii_of_string_of_list_ascii : cvproj_rw.

Lemma string_app_assoc (a b c : string) : a ++ b ++ c = (a ++ b) ++ c.
Proof. apply las_inj. by rewrite !las_app, app_assoc. Qed.

(** ** [str.lower] *)

(** Lower-casing of one character: ['A'..'Z'] map to ['a'..'z']. *)
Definition ascii_lower (c : ascii) : ascii :=
  let n := nat_of_ascii c in
  if (65 <=? n)%nat && (n <=? 90)%nat then ascii_of_nat (n + 32) else c.

Definition py_lower (s : string) : string :=
  string_of_list_ascii (map ascii_lower (list_ascii_of_string s)).

Lemma py_lower_app a b : py_lower (a ++ b) = py_lower a ++ py_lower b.
Proof. unfold py_lower. by rewrite las_app, map_app, sla_app. Qed.

(** ** [str.endswith] *)

(** [s.endswith(suffix)]: the last [len(suffix)] characters of [s] are
    [suffix]. *)
Definition py_endswith (s suffix : string) : bool :=
  let l := list_ascii_of_string s in
  let m := list_ascii_of_string suffix in
  (length m <=? length l)%nat && bool_decide (drop (length l - length m) l = m).

(** [s.endswith((s1, s2, ...))]: one of the suffixes matches. *)
Definition py_endswith_any (s : string) (suffixes : list string) : bool :=
  existsb (py_endswith s) suffixes.

Lemma py_endswith_spec s suffix :
  py_endswith s suffix = true ↔ ∃ x, s = x ++ suffix.
Proof.
  unfold py_endswith. rewrite andb_true_iff, Nat.leb_le, bool_decide_eq_true.
  split.
  - intros [Hlen Hdrop].
    set (l := list_ascii_of_string s) in *.
    set (k := (length l - length (list_ascii_of_string suffix))%nat) in *.
    exists (string_of_list_ascii (take k l)).
    apply las_inj. rewrite las_app, list_ascii_of_string_of_list_ascii, <- Hdrop.
    by rewrite take_drop.
  - intros [x ->]. rewrite las_app, length_app. split; [lia|].
    rewrite Nat.add_sub. apply drop_app_length.
Qed.

Lemma py_endswith_app x suffix : py_endswith (x ++ suffix) suffix = true.
Proof. apply py_endswith_spec. eauto. Qed.

(** Two strings ending in suffixes of the same length end in the same
    suffix. *)
Lemma app_same_length_suffix (x y a b : string) :
  x ++ a = y ++ b → String.length a = String.length b → a = b.
Proof.
  intros H Hl. apply (f_equal list_ascii_of_string) in H.
  rewrite !las_app in H. apply las_inj.
  apply app_inj_2 in H as [_ H]; [done | by rewrite !las_length].
Qed.

(** ** [str.strip] *)

(** [c.isspace()] for an ASCII character: tab, line feed, vertical tab,
    form feed, carriage return, the four separators [\x1c]-[\x1f] and
    space. *)
Definition is_py_space (c : ascii) : bool :=
  let n := nat_of_ascii c in ((9 <=? n) && (n <=? 13) || (28 <=? n) && (n <=? 32))%nat.

Fixpoint lstrip_list (l : list ascii) : list ascii :=
  match l with
  | c :: l' => if is_py_space c then lstrip_list l' else l
  | [] => []
  end.

(** [s.strip()]: leading and trailing white space removed. *)
Definition py_strip (s : string) : string :=
  string_of_list_ascii (rev (lstrip_list (rev (lstrip_list (list_ascii_of_string s))))).

(** ** The image-extension test *)

(** [('.jpg', '.jpeg', '.png')], the tuple of image extensions of
    [bounding_box_generation.py], [..._validation.py] and
    [dataset_splitting.py]. *)
Definition image_exts : list string := [".jpg"; ".jpeg"; ".png"].

(** [file_name.lower().endswith(image_exts)]. *)
Definition is_image_name (f : string) : bool :=
  py_endswith_any (py_lower f) image_exts.

(** If [x ++ t] ends with [e], one of [e] and [t] is a suffix of the
    other. *)
Lemma py_endswith_app_cases x t e :
  py_endswith (x ++ t) e = true → py_endswith e t = true ∨ py_endswith t e = true.
Proof.
  rewrite !py_endswith_spec. intros [y Hy].
  apply (f_equal list_ascii_of_string) in Hy. rewrite !las_app in Hy.
  apply app_eq_app in Hy as [k [[_ Hk] | [_ Hk]]].
  - left. exists (string_of_list_ascii k). apply las_inj. by rewrite las_app,
      list_ascii_of_string_of_list_ascii, Hk.
  - right. exists (string_of_list_ascii k). apply las_inj. by rewrite las_app,
      list_ascii_of_string_of_list_ascii, Hk.
Qed.

(** A file name ending in [suffix] is not an image when neither [suffix] nor
    any image extension is a suffix of the other. *)
Lemma not_image_suffix x suffix :
  py_lower suffix = suffix →
  Forall (λ e, py_endswith e suffix = false ∧ py_endswith suffix e = false) image_exts →
  is_image_name (x ++ suffix) = false.
Proof.
  intros Hl Hall. unfold is_image_name, py_endswith_any. rewrite py_lower_app, Hl.
  apply not_true_iff_false. rewrite existsb_exists. intros [e [He Hend]].
  rewrite Forall_forall in Hall. apply list_elem_of_In in He.
  destruct (Hall e He) as [H1 H2].
  destruct (py_endswith_app_cases _ _ _ Hend); congruence.
Qed.

(** A name that ends in [.txt] is never taken for an image. *)
Lemma txt_not_image stem : is_image_name (stem ++ ".txt") = false.
Proof. apply not_image_suffix; [done|]. repeat constructor. Qed.

(** Appending the same suffix is injective. *)
Lemma string_app_inv_r (a b s : string) : a ++ s = b ++ s → a = b.
Proof.
  intros H. apply (f_equal list_ascii_of_string) in H. rewrite !las_app in H.
  apply las_inj, (app_inv_tail _ _ _ H).
Qed.

Lemma image_exts_lower e : e ∈ image_exts → py_lower e = e.
Proof.
  intros He. unfold image_exts in He.
  repeat (apply elem_of_cons in He as [->|He]; [reflexivity|]).
  by apply not_elem_of_nil in He.
Qed.

(** A name made of any stem and an image extension is taken for an
    image. *)
Lemma image_name_app b e : e ∈ image_exts → is_image_name (b ++ e) = true.
Proof.
  intros He. unfold is_image_name, py_endswith_any.
  rewrite py_lower_app, (image_exts_lower e He). apply existsb_exists.
  exists e. split; [apply list_elem_of_In; exact He | apply py_endswith_app].
Qed.

(** No image extension is a proper suffix of another, so a name splits in
    at most one way into a stem and an image extension. *)
Lemma image_ext_app_inj b1 b2 e1 e2 :
  e1 ∈ image_exts → e2 ∈ image_exts → b1 ++ e1 = b2 ++ e2 → b1 = b2 ∧ e1 = e2.
Proof.
  intros H1 H2 Heq. unfold image_exts in H1, H2.
  assert (Hend : py_endswith (b1 ++ e1) e2 = true) by (rewrite Heq; apply py_endswith_app).
  apply py_endswith_app_cases in Hend.
  assert (e1 = e2) as <-.
  { repeat (apply elem_of_cons in H1 as [->|H1]);
      [..|by apply not_elem_of_nil in H1];
    repeat (apply elem_of_cons in H2 as [->|H2]);
      try (by apply not_elem_of_nil in H2); try done;
      vm_compute in Hend; destruct Hend; discriminate. }
  split; [|done]. by apply string_app_inv_r in Heq.
Qed.

(** ** [os.path.splitext] *)

(** [p.rfind(c)]: the index of the last occurrence of [c], or [-1]. *)
Fixpoint rfind_go (c : ascii) (l : list ascii) (i acc : Z) : Z :=
  match l with
  | [] => acc
  | a :: l' => rfind_go c l' (i + 1) (if ascii_dec a c then i else acc)
  end.

Definition rfind (c : ascii) (l : list ascii) : Z := rfind_go c l 0 (-1).

(** The loop of [_splitext]:
<<
    while filenameIndex < dotIndex:
        if p[filenameIndex:filenameIndex+1] != extsep:
            return p[:dotIndex], p[dotIndex:]
        filenameIndex += 1
>>
    [n] is the number of iterations left, [dotIndex - filenameIndex]; the
    result says whether the loop returned early. *)
Fixpoint skip_dots (l : list ascii) (i n : nat) : bool :=
  match n with
  | O => false
  | S n' =>
      match l !! i with
      | Some c => if ascii_dec c "." then skip_dots l (S i) n' else true
      | None => skip_dots l (S i) n'
      end
  end.

(** [os.path.splitext(p)] for POSIX paths: [(root, ext)]. *)
Definition splitext (p : string) : string * string :=
  let l := list_ascii_of_string p in
  let sepIndex := rfind "/" l in
  let dotIndex := rfind "." l in
  if (sepIndex <? dotIndex)%Z then
    let fi := Z.to_nat (sepIndex + 1) in
    let di := Z.to_nat dotIndex in
    if skip_dots l fi (di - fi)
    then (string_of_list_ascii (take di l), string_of_list_ascii (drop di l))
    else (p, "")
  else (p, "").

(** [os.path.splitext(f)[0]], the stem of a file name. *)
Definition stem (f : string) : string := fst (splitext f).

(** The two parts of [splitext] put back together give the path. *)
Lemma splitext_app p : (splitext p).1 ++ (splitext p).2 = p.
Proof.
  unfold splitext. destruct (_ <? _)%Z; [destruct skip_dots|]; simpl;
    rewrite ?string_app_nil_r; try done.
  apply las_inj. by rewrite las_app, !list_ascii_of_string_of_list_ascii, take_drop.
Qed.

(** ** Number formatting: [f"{n}"] and [f"{x:.6f}"] *)

(** [str(n)] of a non-negative Python int: its decimal digits. *)
Definition fmt_N (n : N) : string := NilEmpty.string_of_uint (N.to_uint n).

(** Rounding to the nearest integer, ties to even, as the correctly rounded
    float formatting of CPython does. *)
Definition round_half_even (q : Q) : Z :=
  let f := Qfloor q in
  let r := q - inject_Z f in
  if Qltb r (1#2) then f
  else if Qltb (1#2) r then (f + 1)%Z
  else if Z.even f then f else (f + 1)%Z.

(** The character of a decimal digit. *)
Definition digit_char (d : N) : ascii := ascii_of_N (48 + d).

(** Exactly [k] decimal digits of [n] (the last [k], with leading zeros). *)
Fixpoint fixed_digits (k : nat) (n : N) : string :=
  match k with
  | O => ""
  | S k' => fixed_digits k' (n / 10) ++ String (digit_char (n mod 10)) ""
  end.

(** [f"{x:.6f}"]: an optional sign, the integer part, a point and six
    decimals of [|x|] rounded half to even.  A negative value that rounds to
    zero keeps its sign (Python prints [-0.000000]). *)
Definition fmt_fixed6 (q : Q) : string :=
  let n := Z.to_N (round_half_even (Qabs q * 1000000)) in
  (if Qltb q 0 then "-" else "") ++ fmt_N (n / 1000000) ++ "."
    ++ fixed_digits 6 (n mod 1000000).

Lemma Qltb_comp a a' b b' : a == a' → b == b' → Qltb a b = Qltb a' b'.
Proof.
  intros Ha Hb. destruct (Qltb a b) eqn:E, (Qltb a' b') eqn:E'; try done.
  - apply Qltb_spec in E. apply Qltb_false in E'. lra.
  - apply Qltb_false in E. apply Qltb_spec in E'. lra.
Qed.

#[export] Instance round_half_even_proper : Proper (Qeq ==> eq) round_half_even.
Proof.
  intros a b Hab. unfold round_half_even. rewrite (Qfloor_comp a b Hab).
  assert (Hr : a - inject_Z (Qfloor b) == b - inject_Z (Qfloor b)) by (by rewrite Hab).
  rewrite (Qltb_comp _ _ (1#2) (1#2) Hr (Qeq_refl _)).
  by rewrite (Qltb_comp (1#2) (1#2) _ _ (Qeq_refl _) Hr).
Qed.

(** Formatting only depends on the value of the rational. *)
#[export] Instance fmt_fixed6_proper : Proper (Qeq ==> eq) fmt_fixed6.
Proof.
  intros a b Hab. unfold fmt_fixed6.
  rewrite (Qltb_comp a b 0 0 Hab); [|reflexivity].
  by rewrite Hab.
Qed.

(** The rounded integer is within one half of the value. *)
Lemma round_half_even_bound q :
  Qabs (inject_Z (round_half_even q) - q) <= 1#2.
Proof.
  unfold round_half_even.
  pose proof (Qfloor_le q). pose proof (Qlt_floor q).
  rewrite inject_Z_plus in *. change (inject_Z 1) with 1 in *.
  apply Qabs_Qle_condition.
  destruct (Qltb _ (1#2)) eqn:E1; [apply Qltb_spec in E1|apply Qltb_false in E1].
  { split; lra. }
  destruct (Qltb (1#2) _) eqn:E2; [apply Qltb_spec in E2|apply Qltb_false in E2];
    [|destruct (Z.even _)];
    rewrite ?inject_Z_plus; change (inject_Z 1) with 1; split; lra.
Qed.
