(* ===== verification/Vocabulary.v ===== *)
(** * Class vocabularies and the class-index dictionary

    Both variants of [bounding_box_generation.py] build an ordered list of
    class names and a dictionary from name to index with
    [{name: idx for idx, name in enumerate(class_names)}].  Module
    [Combined] models the 36-class list (digits, letters, del/nothing/space)
    and module [Letters] the 26-class list.  The main fact is that the
    dictionary maps each name to its position in the list, and only the
    names of the list. *)

From S2P Require Import Prelude PyStr.
From Stdlib Require Import Ascii String.

Local Open Scope string_scope.

(** [{name: idx for idx, name in enumerate(names)}]: later entries
    overwrite earlier ones with the same key, as in a Python dict
    comprehension. *)
Definition enumerate_dict (names : list string) : gmap string nat :=
  foldl (λ m '(i, n), <[n := i]> m) ∅ (zip (seq 0 (List.length names)) names).

(** [list(string.ascii_uppercase)]. *)
Definition letter_labels : list string :=
  map (λ c, String c "") (list_ascii_of_string "ABCDEFGHIJKLMNOPQRSTUVWXYZ").

Section enumerate_dict_facts.
Implicit Types (names : list string) (m : gmap string nat).

Lemma foldl_insert_lookup (ps : list (nat * string)) m n :
  foldl (λ m '(i, n), <[n := i]> m) m ps !! n =
  match last (filter (λ p, p.2 = n) ps) with
  | Some (i, _) => Some i
  | None => m !! n
  end.
Proof.
  revert m; induction ps as [|[i k] ps IH] using rev_ind; intros m; simpl; [done|].
  rewrite foldl_app, filter_app. simpl.
  destruct (decide (k = n)) as [->|Hne].
  - rewrite lookup_insert_eq, filter_cons_True by done.
    by rewrite last_app.
  - rewrite lookup_insert_ne, filter_cons_False by done.
    by rewrite app_nil_r, IH.
Qed.

Lemma filter_zip_seq_NoDup names start n :
  NoDup names →
  (∀ i, names !! i = Some n →
    filter (λ p, p.2 = n) (zip (seq start (List.length names)) names) = [(start + i, n)]%nat) ∧
  (n ∉ names →
    filter (λ p, p.2 = n) (zip (seq start (List.length names)) names) = []).
Proof.
  revert start; induction names as [|k names IH]; intros start Hnd; simpl.
  - split; [intros i Hi; by rewrite lookup_nil in Hi | done].
  - apply NoDup_cons in Hnd as [Hk Hnd].
    destruct (IH (S start) Hnd) as [IH1 IH2].
    split.
    + intros [|i] Hi; simpl in Hi.
      * simplify_eq. rewrite filter_cons_True by done.
        rewrite IH2 by done. by rewrite Nat.add_0_r.
      * rewrite filter_cons_False.
        { rewrite (IH1 i Hi). do 2 f_equal. lia. }
        simpl. intros ->. apply Hk. by eapply list_elem_of_lookup_2.
    + intros Hn. rewrite filter_cons_False by set_solver.
      apply IH2. set_solver.
Qed.

(** For a list without duplicates, the dictionary maps each name to its
    position and has no other keys. *)
Lemma enumerate_dict_lookup names n i :
  NoDup names → enumerate_dict names !! n = Some i ↔ names !! i = Some n.
Proof.
  intros Hnd. unfold enumerate_dict. rewrite foldl_insert_lookup.
  destruct (filter_zip_seq_NoDup names 0 n Hnd) as [H1 H2].
  split.
  - destruct (decide (n ∈ names)) as [Hin|Hout].
    + apply list_elem_of_lookup in Hin as [j Hj].
      rewrite (H1 j Hj). simpl. intros; by simplify_eq.
    + rewrite (H2 Hout). simpl. by rewrite lookup_empty.
  - intros Hi. rewrite (H1 i Hi). done.
Qed.

Lemma enumerate_dict_None names n :
  n ∉ names → enumerate_dict names !! n = None.
Proof.
  intros Hn. unfold enumerate_dict. rewrite foldl_insert_lookup.
  destruct (last _) as [[i k]|] eqn:E; [|by rewrite lookup_empty].
  apply last_Some_elem_of, list_elem_of_filter in E as [Hk Hin]. simpl in Hk; subst.
  apply elem_of_zip_r in Hin. done.
Qed.
End enumerate_dict_facts.

(** The 36-class vocabulary of [src/asl+sign digits detection/project_code/
    bounding_box_generation.py]. *)
Module Combined.
(** [[str(i) for i in range(10)]]. *)
Definition digit_labels : list string := map (λ i, fmt_N (N.of_nat i)) (seq 0 10).
Definition extra_labels : list string := ["del"; "nothing"; "space"].
Definition class_names : list string := digit_labels ++ letter_labels ++ extra_labels.
Definition class_map : gmap string nat := enumerate_dict class_names.
End Combined.

(** The 26-class vocabulary of [src/asl_detection/project_code/
    bounding_box_generation.py]. *)
Module Letters.
Definition class_names : list string := letter_labels.
Definition class_map : gmap string nat := enumerate_dict class_names.
End Letters.

Lemma Combined_class_names_NoDup : NoDup Combined.class_names.
Proof. apply (bool_decide_unpack _). vm_compute. reflexivity. Qed.

Lemma Letters_class_names_NoDup : NoDup Letters.class_names.
Proof. apply (bool_decide_unpack _). vm_compute. reflexivity. Qed.

Lemma Combined_class_names_length : List.length Combined.class_names = 39%nat.
Proof. reflexivity. Qed.

(** C8: the class index of a folder name in the combined script is the
    name's position in [class_names] (digits 0-9, letters A-Z, then del,
    nothing, space), and the dictionary has no other keys. *)
Theorem combined_class_map_index n i :
  Combined.class_map !! n = Some i ↔ Combined.class_names !! i = Some n.
Proof. apply enumerate_dict_lookup, Combined_class_names_NoDup. Qed.

Lemma letters_class_map_index n i :
  Letters.class_map !! n = Some i ↔ Letters.class_names !! i = Some n.
Proof. apply enumerate_dict_lookup, Letters_class_names_NoDup. Qed.

(** The two vocabularies index every letter differently: the combined map
    puts it ten places after the letters-only map, so label files of the two
    variants cannot be mixed. *)
Theorem letter_index_shift l :
  l ∈ letter_labels →
  Combined.class_map !! l = (λ i, i + 10)%nat <$> Letters.class_map !! l.
Proof.
  intros Hl. apply list_elem_of_lookup in Hl as [i Hi].
  assert (Letters.class_map !! l = Some i) as -> by by apply letters_class_map_index.
  simpl. apply combined_class_map_index. unfold Combined.class_names.
  rewrite lookup_app_r by (unfold Combined.digit_labels; simpl; lia).
  replace (i + 10 - _)%nat with i by (unfold Combined.digit_labels; simpl; lia).
  rewrite lookup_app_l; [done|]. by eapply lookup_lt_Some.
Qed.

Lemma letter_index_shift_witness :
  Combined.class_map !! "A" = (λ i, i + 10)%nat <$> Letters.class_map !! "A".
Proof. apply letter_index_shift. unfold letter_labels. simpl. set_solver. Defined.
