(* ===== verification/BoxDeriver.v ===== *)
(** * Box Deriver: from hand landmarks to a normalised YOLO box

    The box computation of [bounding_box_generation.py], in its two
    variants:
    - [derive_box_padded]: letters variant ([src/asl_detection/...],
      lines 126-154): min/max of the landmark pixel coordinates, horizontal
      padding 0.2 and vertical padding 0.1 applied {e sequentially} (the
      update of [x_max] reads the already padded [x_min]), clamping to the
      image, normalisation;
    - [derive_box_trunc]: combined variant ([src/asl+sign digits detection/
      ...], lines 58-69): min/max truncated with [int()], no padding, no
      clamping, normalisation.
    A landmark is MediaPipe's normalised [(x, y)]; a hand is the list
    [results.multi_hand_landmarks[0].landmark].  [min]/[max] of an empty
    list raise [ValueError], which the model keeps as [Raise ValueError].
    Image sizes are the [positive] [w] and [h] of [image.shape]. *)

From S2P Require Import Prelude.
From Stdlib Require Import Qfield.

Local Open Scope Q_scope.

(** ** Data *)

(** A MediaPipe landmark; only [x] and [y] are read by the scripts. *)
Record landmark := mk_landmark { lm_x : Q; lm_y : Q }.

(** The landmarks of one detected hand. *)
Definition hand := list landmark.

(** A box in pixel corners, the script's [x_min, y_min, x_max, y_max]. *)
Record extent := mk_extent { x_min : Q; y_min : Q; x_max : Q; y_max : Q }.

(** A YOLO box: normalised centre and size. *)
Record yolo_box := mk_yolo { x_center : Q; y_center : Q; box_w : Q; box_h : Q }.

(** ** Python's [min] and [max] over a list *)

(** [min(xs)]: the first element unless a later one is strictly smaller;
    [ValueError] on an empty list. *)
Definition py_min_list (xs : list Q) : res Q :=
  match xs with
  | [] => Raise ValueError
  | x :: rest => Ok (foldl (λ cur it, if Qltb it cur then it else cur) x rest)
  end.

(** [max(xs)]: the first element unless a later one is strictly greater. *)
Definition py_max_list (xs : list Q) : res Q :=
  match xs with
  | [] => Raise ValueError
  | x :: rest => Ok (foldl (λ cur it, if Qltb cur it then it else cur) x rest)
  end.

(** ** The two derivations *)

(** Lines 60-67 (letters) and 58-64 (combined):
<<
    x_coords = [lm.x * w for lm in results.multi_hand_landmarks[0].landmark]
    y_coords = [lm.y * h for lm in results.multi_hand_landmarks[0].landmark]
    x_min = min(x_coords); y_min = min(y_coords)
    x_max = max(x_coords); y_max = max(y_coords)
>> *)
Definition raw_extent (w h : positive) (hd : hand) : res extent :=
  let xs := map (λ lm, lm_x lm * Qpos w) hd in
  let ys := map (λ lm, lm_y lm * Qpos h) hd in
  xmin ← py_min_list xs;
  ymin ← py_min_list ys;
  xmax ← py_max_list xs;
  ymax ← py_max_list ys;
  mret (mk_extent xmin ymin xmax ymax).

(** [width_padding = 0.2] and [padding = 0.1]. *)
Definition width_padding : Q := 2 # 10.
Definition padding : Q := 1 # 10.

(** Lines 139-142 of the letters variant; each statement reads the value
    the previous one wrote:
<<
    x_min -= (x_max - x_min) * width_padding
    x_max += (x_max - x_min) * width_padding
    y_min -= (y_max - y_min) * padding
    y_max += (y_max - y_min) * padding
>> *)
Definition pad_extent (e : extent) : extent :=
  let xmin := x_min e - (x_max e - x_min e) * width_padding in
  let xmax := x_max e + (x_max e - xmin) * width_padding in
  let ymin := y_min e - (y_max e - y_min e) * padding in
  let ymax := y_max e + (y_max e - ymin) * padding in
  mk_extent xmin ymin xmax ymax.

(** Lines 145-148:
<<
    x_min = max(0, x_min); y_min = max(0, y_min)
    x_max = min(w, x_max); y_max = min(h, y_max)
>> *)
Definition clamp_extent (w h : positive) (e : extent) : extent :=
  mk_extent (py_max2 0 (x_min e)) (py_max2 0 (y_min e))
            (py_min2 (Qpos w) (x_max e)) (py_min2 (Qpos h) (y_max e)).

(** Lines 61-64 of the combined variant: [int(min(...))], [int(max(...))]. *)
Definition trunc_extent (e : extent) : extent :=
  mk_extent (inject_Z (py_int (x_min e))) (inject_Z (py_int (y_min e)))
            (inject_Z (py_int (x_max e))) (inject_Z (py_int (y_max e))).

(** Lines 151-154 (letters) and 67-70 (combined):
<<
    box_w = (x_max - x_min) / w
    box_h = (y_max - y_min) / h
    x_center = (x_min + (x_max - x_min) / 2) / w
    y_center = (y_min + (y_max - y_min) / 2) / h
>> *)
Definition to_yolo (w h : positive) (e : extent) : yolo_box :=
  mk_yolo ((x_min e + (x_max e - x_min e) / 2) / Qpos w)
          ((y_min e + (y_max e - y_min e) / 2) / Qpos h)
          ((x_max e - x_min e) / Qpos w)
          ((y_max e - y_min e) / Qpos h).

(** The letters variant's box (lines 126-154). *)
Definition derive_box_padded (w h : positive) (hd : hand) : res yolo_box :=
  e ← raw_extent w h hd;
  mret (to_yolo w h (clamp_extent w h (pad_extent e))).

(** The combined variant's box (lines 58-70). *)
Definition derive_box_trunc (w h : positive) (hd : hand) : res yolo_box :=
  e ← raw_extent w h hd;
  mret (to_yolo w h (trunc_extent e)).

(** ** Specification-level notions *)

(** A landmark inside the image: MediaPipe's coordinates in [0, 1].  The
    detector does not guarantee it (landmarks of a hand cut by the border
    fall outside), so theorems take it as a hypothesis. *)
Definition lm_in_image (lm : landmark) : Prop :=
  0 <= lm_x lm <= 1 ∧ 0 <= lm_y lm <= 1.

(** The corners a YOLO box stands for, in pixels. *)
Definition yolo_corners (w h : positive) (b : yolo_box) : extent :=
  mk_extent ((x_center b - box_w b / 2) * Qpos w) ((y_center b - box_h b / 2) * Qpos h)
            ((x_center b + box_w b / 2) * Qpos w) ((y_center b + box_h b / 2) * Qpos h).

(** Equality of extents up to the value of the rationals. *)
Definition extent_eq (a b : extent) : Prop :=
  x_min a == x_min b ∧ y_min a == y_min b ∧ x_max a == x_max b ∧ y_max a == y_max b.

(** A well-formed extent inside a [W × H] image. *)
Definition extent_wf (W H : Q) (e : extent) : Prop :=
  0 <= x_min e <= x_max e ∧ x_max e <= W ∧ 0 <= y_min e <= y_max e ∧ y_max e <= H.

(** A YOLO box whose four fields are in [0, 1]. *)
Definition yolo_in_unit (b : yolo_box) : Prop :=
  0 <= x_center b <= 1 ∧ 0 <= y_center b <= 1 ∧ 0 <= box_w b <= 1 ∧ 0 <= box_h b <= 1.

(** A pixel point inside an extent. *)
Definition in_extent (e : extent) (px py : Q) : Prop :=
  x_min e <= px <= x_max e ∧ y_min e <= py <= y_max e.

(** An extent [a] lies inside an extent [b]. *)
Definition extent_sub (a b : extent) : Prop :=
  x_min b <= x_min a ∧ x_max a <= x_max b ∧ y_min b <= y_min a ∧ y_max a <= y_max b.

(** A concrete hand inside the image, used by the witnesses. *)
Definition sample_hand : hand :=
  [mk_landmark (1#4) (1#8); mk_landmark (1#2) (3#8); mk_landmark (3#10) (9#10)].

(** [in_image_concrete] proves [Forall lm_in_image] of a concrete hand by
    evaluation. *)
Ltac in_image_concrete :=
  repeat constructor; vm_compute; discriminate.

(** ** Lemmas on [min] and [max] *)

Section min_max.
Implicit Types (xs : list Q) (x m : Q).

Lemma foldl_min_spec x xs :
  let r := foldl (λ cur it, if Qltb it cur then it else cur) x xs in
  r ∈ x :: xs ∧ Forall (λ y, r <= y) (x :: xs).
Proof.
  revert x; induction xs as [|y xs IH]; intros x; simpl.
  - split; [set_solver | repeat constructor; lra].
  - destruct (Qltb y x) eqn:E; [apply Qltb_spec in E | apply Qltb_false in E].
    + destruct (IH y) as [Hin Hall]. split; [set_solver|].
      rewrite Forall_cons. split; [|done]. apply Forall_cons in Hall. lra.
    + destruct (IH x) as [Hin Hall]. split; [set_solver|].
      apply Forall_cons in Hall as [Hx Hxs].
      constructor; [done|]. constructor; [lra|done].
Qed.

Lemma foldl_max_spec x xs :
  let r := foldl (λ cur it, if Qltb cur it then it else cur) x xs in
  r ∈ x :: xs ∧ Forall (λ y, y <= r) (x :: xs).
Proof.
  revert x; induction xs as [|y xs IH]; intros x; simpl.
  - split; [set_solver | repeat constructor; lra].
  - destruct (Qltb x y) eqn:E; [apply Qltb_spec in E | apply Qltb_false in E].
    + destruct (IH y) as [Hin Hall]. split; [set_solver|].
      rewrite Forall_cons. split; [|done]. apply Forall_cons in Hall. lra.
    + destruct (IH x) as [Hin Hall]. split; [set_solver|].
      apply Forall_cons in Hall as [Hx Hxs].
      constructor; [done|]. constructor; [lra|done].
Qed.

(** [min(xs)] is an element of [xs] below every element. *)
Lemma py_min_list_spec xs m :
  py_min_list xs = Ok m → m ∈ xs ∧ Forall (λ y, m <= y) xs.
Proof. destruct xs; simpl; intros H; [discriminate|]. injection H as <-. apply foldl_min_spec. Qed.

Lemma py_max_list_spec xs m :
  py_max_list xs = Ok m → m ∈ xs ∧ Forall (λ y, y <= m) xs.
Proof. destruct xs; simpl; intros H; [discriminate|]. injection H as <-. apply foldl_max_spec. Qed.

(** A bound shared by all elements holds of the minimum (or maximum). *)
Lemma py_extreme_in_range (P : Q → Prop) xs m :
  Forall P xs → m ∈ xs → P m.
Proof. rewrite Forall_forall. auto. Qed.
End min_max.

(** ** The raw extent *)

Lemma raw_extent_empty w h : raw_extent w h [] = Raise ValueError.
Proof. reflexivity. Qed.

Lemma raw_extent_ok w h hd : hd ≠ [] → ∃ e, raw_extent w h hd = Ok e.
Proof. destruct hd; [done|]. intros _. simpl. eauto. Qed.

(** Each landmark lies in the raw extent, and each side of the extent is
    the coordinate of some landmark. *)
Lemma raw_extent_spec w h hd e :
  raw_extent w h hd = Ok e →
  (∀ lm, lm ∈ hd → in_extent e (lm_x lm * Qpos w) (lm_y lm * Qpos h)) ∧
  (∀ P : Q → Prop, Forall (λ lm, P (lm_x lm * Qpos w)) hd → P (x_min e) ∧ P (x_max e)) ∧
  (∀ P : Q → Prop, Forall (λ lm, P (lm_y lm * Qpos h)) hd → P (y_min e) ∧ P (y_max e)).
Proof.
  unfold raw_extent. intros H.
  apply res_bind_Ok_inv in H as (xmin & E1 & H).
  apply res_bind_Ok_inv in H as (ymin & E2 & H).
  apply res_bind_Ok_inv in H as (xmax & E3 & H).
  apply res_bind_Ok_inv in H as (ymax & E4 & H).
  injection H as <-. simpl.
  apply py_min_list_spec in E1 as [I1 F1]. apply py_min_list_spec in E2 as [I2 F2].
  apply py_max_list_spec in E3 as [I3 F3]. apply py_max_list_spec in E4 as [I4 F4].
  rewrite Forall_map in F1, F2, F3, F4. rewrite Forall_forall in F1, F2, F3, F4.
  split_and!.
  - intros lm Hlm. unfold in_extent; simpl. split_and!; auto.
  - intros P HP. apply (Forall_map _ P) in HP. rewrite Forall_forall in HP. auto.
  - intros P HP. apply (Forall_map _ P) in HP. rewrite Forall_forall in HP. auto.
Qed.

(** A hand inside the image has a well-formed raw extent. *)
Lemma raw_extent_wf w h hd e :
  Forall lm_in_image hd → raw_extent w h hd = Ok e → extent_wf (Qpos w) (Qpos h) e.
Proof.
  intros Hin He. destruct hd as [|lm0 hd0]; [discriminate He|].
  apply raw_extent_spec in He as (Hall & Hx & Hy).
  pose proof (Qpos_pos w) as Hw. pose proof (Qpos_pos h) as Hh.
  destruct (Hx (λ v, 0 <= v <= Qpos w)) as [[? ?] [? ?]].
  { eapply Forall_impl; [done|]. intros lm [[? ?] _]. split; nra. }
  destruct (Hy (λ v, 0 <= v <= Qpos h)) as [[? ?] [? ?]].
  { eapply Forall_impl; [done|]. intros lm [_ [? ?]]. split; nra. }
  destruct (Hall lm0) as [[? ?] [? ?]]; [set_solver|].
  unfold extent_wf. split_and!; lra.
Qed.

(** ** Padding, clamping, normalisation *)

Lemma extent_eq_sym a b : extent_eq a b → extent_eq b a.
Proof. unfold extent_eq. intros (?&?&?&?). split_and!; by symmetry. Qed.

(** Membership in an extent only depends on the values of its sides. *)
Lemma in_extent_eq a b px py : extent_eq a b → in_extent a px py → in_extent b px py.
Proof. unfold extent_eq, in_extent. intros (?&?&?&?) (?&?). split; lra. Qed.

(** Padding, in closed form: because [x_max] is padded after [x_min] has
    moved, the right side moves by 0.24 of the width and the left by 0.2;
    the bottom moves by 0.11 of the height and the top by 0.1. *)
Lemma pad_extent_closed e :
  extent_eq (pad_extent e)
    (mk_extent (x_min e - (x_max e - x_min e) * (1#5))
               (y_min e - (y_max e - y_min e) * (1#10))
               (x_max e + (x_max e - x_min e) * (6#25))
               (y_max e + (y_max e - y_min e) * (11#100))).
Proof.
  unfold pad_extent, extent_eq, width_padding, padding; simpl. split_and!; ring.
Qed.

(** Padding then clamping a well-formed extent gives a well-formed extent
    that contains it. *)
Lemma clamp_pad_wf w h e :
  extent_wf (Qpos w) (Qpos h) e →
  extent_wf (Qpos w) (Qpos h) (clamp_extent w h (pad_extent e)) ∧
  extent_sub e (clamp_extent w h (pad_extent e)).
Proof.
  intros Hwf. pose proof (pad_extent_closed e) as P.
  destruct (pad_extent e) as [a b c d]. destruct P as (P1 & P2 & P3 & P4).
  unfold extent_wf, extent_sub, clamp_extent in *; simpl in *.
  pose proof (py_max2_spec 0 a) as (A1 & A2 & A3).
  pose proof (py_max2_spec 0 b) as (B1 & B2 & B3).
  pose proof (py_min2_spec (Qpos w) c) as (C1 & C2 & C3).
  pose proof (py_min2_spec (Qpos h) d) as (D1 & D2 & D3).
  destruct A3, B3, C3, D3; split_and!; lra.
Qed.

(** A well-formed extent normalises to a box with fields in [0, 1]. *)
Lemma to_yolo_in_unit w h e :
  extent_wf (Qpos w) (Qpos h) e → yolo_in_unit (to_yolo w h e).
Proof.
  unfold extent_wf, yolo_in_unit, to_yolo; simpl. intros Hwf.
  pose proof (Qpos_pos w). pose proof (Qpos_pos h). qdiv.
  split_and!; apply Qdiv_unit; lra.
Qed.

(** Decoding the YOLO fields gives back the corners they were computed
    from. *)
Lemma yolo_corners_to_yolo w h e :
  extent_eq (yolo_corners w h (to_yolo w h e)) e.
Proof.
  pose proof (Qpos_pos w) as Hw. pose proof (Qpos_pos h) as Hh.
  assert (¬ Qpos w == 0) by (intros E; rewrite E in Hw; discriminate).
  assert (¬ Qpos h == 0) by (intros E; rewrite E in Hh; discriminate).
  unfold yolo_corners, to_yolo, extent_eq; simpl. split_and!; field; done.
Qed.

(** ** The derivations: results, bounds, containment, errors *)

Lemma derive_box_padded_raw w h hd b :
  derive_box_padded w h hd = Ok b →
  ∃ e, raw_extent w h hd = Ok e ∧ b = to_yolo w h (clamp_extent w h (pad_extent e)).
Proof.
  unfold derive_box_padded. intros H. apply res_bind_Ok_inv in H as (e & He & Hb).
  injection Hb as <-. eauto.
Qed.

Lemma derive_box_padded_ok w h hd : hd ≠ [] → ∃ b, derive_box_padded w h hd = Ok b.
Proof.
  intros Hne. destruct (raw_extent_ok w h hd Hne) as [e He].
  unfold derive_box_padded. rewrite He. eauto.
Qed.

(** C1: for a detected hand whose landmarks lie in the image, the letters
    variant returns a box (no exception) and all four YOLO fields are in
    [0, 1]. *)
Theorem derive_box_padded_in_unit w h hd :
  hd ≠ [] → Forall lm_in_image hd →
  ∃ b, derive_box_padded w h hd = Ok b ∧ yolo_in_unit b.
Proof.
  intros Hne Hin. destruct (raw_extent_ok w h hd Hne) as [e He].
  exists (to_yolo w h (clamp_extent w h (pad_extent e))).
  unfold derive_box_padded. rewrite He. split; [done|].
  apply to_yolo_in_unit, clamp_pad_wf. by eapply raw_extent_wf.
Qed.

Lemma derive_box_padded_in_unit_witness :
  ∃ b, derive_box_padded 416 416 sample_hand = Ok b ∧ yolo_in_unit b.
Proof. apply derive_box_padded_in_unit; [discriminate | in_image_concrete]. Defined.

(** C7: the padded and clamped box contains every landmark of the hand
    (in pixels), when the landmarks lie in the image: the hand is "fully
    captured", as the comment of line 69 intends. *)
Theorem derive_box_padded_contains w h hd b :
  Forall lm_in_image hd → derive_box_padded w h hd = Ok b →
  ∀ lm, lm ∈ hd → in_extent (yolo_corners w h b) (lm_x lm * Qpos w) (lm_y lm * Qpos h).
Proof.
  intros Hin Hb lm Hlm. apply derive_box_padded_raw in Hb as (e & He & ->).
  eapply in_extent_eq; [apply extent_eq_sym, yolo_corners_to_yolo|].
  pose proof (raw_extent_wf w h hd e Hin He) as Hwf.
  destruct (clamp_pad_wf w h e Hwf) as [_ (S1 & S2 & S3 & S4)].
  apply raw_extent_spec in He as [Hall _]. destruct (Hall lm Hlm) as [[? ?] [? ?]].
  unfold in_extent. split; split; lra.
Qed.

Lemma derive_box_padded_contains_witness :
  ∃ b, derive_box_padded 416 416 sample_hand = Ok b ∧
       in_extent (yolo_corners 416 416 b) ((3#10) * Qpos 416) ((9#10) * Qpos 416).
Proof.
  eexists; split; [reflexivity|].
  apply (derive_box_padded_contains 416 416 sample_hand _ ltac:(in_image_concrete)
           eq_refl (mk_landmark (3#10) (9#10))).
  unfold sample_hand. set_solver.
Defined.

(** C25: the derivation raises [ValueError] exactly when the hand has no
    landmark ([min([])]). *)
Theorem derive_box_padded_error w h hd :
  derive_box_padded w h hd = Raise ValueError ↔ hd = [].
Proof.
  split; [|by intros ->].
  intros H. destruct hd as [|lm hd]; [done|]. exfalso.
  destruct (raw_extent_ok w (h) (lm :: hd)) as [e He]; [done|].
  unfold derive_box_padded in H. rewrite He in H. discriminate.
Qed.

(** Truncating the sides of a well-formed extent keeps it well formed. *)
Lemma trunc_wf W H e : extent_wf W H e → extent_wf W H (trunc_extent e).
Proof.
  unfold extent_wf, trunc_extent; simpl. intros ([? ?] & ? & [? ?] & ?).
  destruct (py_int_nonneg (x_min e)) as (? & ? & ?); [lra|].
  destruct (py_int_nonneg (x_max e)) as (? & ? & ?); [lra|].
  destruct (py_int_nonneg (y_min e)) as (? & ? & ?); [lra|].
  destruct (py_int_nonneg (y_max e)) as (? & ? & ?); [lra|].
  pose proof (py_int_mono (x_min e) (x_max e) ltac:(lra) ltac:(lra)) as MX.
  pose proof (py_int_mono (y_min e) (y_max e) ltac:(lra) ltac:(lra)) as MY.
  rewrite Zle_Qle in MX, MY. split_and!; lra.
Qed.

(** The combined variant raises only on a hand without landmarks. *)
Lemma derive_box_trunc_ok w h hd : hd ≠ [] → ∃ b, derive_box_trunc w h hd = Ok b.
Proof.
  intros Hne. destruct (raw_extent_ok w h hd Hne) as [e He].
  unfold derive_box_trunc. rewrite He. eauto.
Qed.

(** C9: the combined variant also returns a box with fields in [0, 1] for
    a hand inside the image. *)
Theorem derive_box_trunc_in_unit w h hd :
  hd ≠ [] → Forall lm_in_image hd →
  ∃ b, derive_box_trunc w h hd = Ok b ∧ yolo_in_unit b.
Proof.
  intros Hne Hin. destruct (raw_extent_ok w h hd Hne) as [e He].
  exists (to_yolo w h (trunc_extent e)). unfold derive_box_trunc. rewrite He.
  split; [done|]. apply to_yolo_in_unit, trunc_wf. by eapply raw_extent_wf.
Qed.

Lemma derive_box_trunc_in_unit_witness :
  ∃ b, derive_box_trunc 416 416 sample_hand = Ok b ∧ yolo_in_unit b.
Proof. apply derive_box_trunc_in_unit; [discriminate | in_image_concrete]. Defined.

(** C27: the combined variant's box may miss up to one pixel of the hand:
    every landmark lies at or right of (below) the box's left (top) side
    and strictly less than one pixel beyond its right (bottom) side. *)
Theorem derive_box_trunc_one_pixel w h hd b :
  Forall lm_in_image hd → derive_box_trunc w h hd = Ok b →
  ∀ lm, lm ∈ hd →
    let c := yolo_corners w h b in
    x_min c <= lm_x lm * Qpos w < x_max c + 1 ∧ y_min c <= lm_y lm * Qpos h < y_max c + 1.
Proof.
  intros Hin Hb lm Hlm. unfold derive_box_trunc in Hb.
  apply res_bind_Ok_inv in Hb as (e & He & Hb). injection Hb as <-.
  pose proof (raw_extent_wf w h hd e Hin He) as ([? ?] & ? & [? ?] & ?).
  destruct (yolo_corners_to_yolo w h (trunc_extent e)) as (C1 & C2 & C3 & C4).
  apply raw_extent_spec in He as [Hall _]. destruct (Hall lm Hlm) as [[? ?] [? ?]].
  simpl. unfold trunc_extent in *; simpl in *.
  destruct (py_int_nonneg (x_min e)) as (? & ? & ?); [lra|].
  destruct (py_int_nonneg (x_max e)) as (? & ? & ?); [lra|].
  destruct (py_int_nonneg (y_min e)) as (? & ? & ?); [lra|].
  destruct (py_int_nonneg (y_max e)) as (? & ? & ?); [lra|].
  split; split; lra.
Qed.

Lemma derive_box_trunc_one_pixel_witness :
  ∃ b, derive_box_trunc 416 416 sample_hand = Ok b ∧
    let c := yolo_corners 416 416 b in
    x_min c <= (3#10) * Qpos 416 < x_max c + 1 ∧ y_min c <= (9#10) * Qpos 416 < y_max c + 1.
Proof.
  eexists; split; [reflexivity|].
  apply (derive_box_trunc_one_pixel 416 416 sample_hand _ ltac:(in_image_concrete)
           eq_refl (mk_landmark (3#10) (9#10))).
  unfold sample_hand. set_solver.
Defined.

(** ** Degenerate boxes *)

(** The letters variant emits boxes of negative width: a landmark
    right of the image (MediaPipe reports such landmarks for a hand cut by
    the border) is clamped so that [x_max < x_min], and no check rejects
    the box. *)
Theorem derive_box_padded_negative_width :
  ∃ b, derive_box_padded 100 100 [mk_landmark (3#2) (1#2)] = Ok b ∧ box_w b < 0.
Proof. eexists. split; [reflexivity|]. vm_compute. reflexivity. Qed.

(** A hand whose landmarks share one point yields a box of zero width
    and height, which is emitted although the spec's data model requires
    width and height greater than zero. *)
Theorem derive_box_padded_zero_area :
  ∃ b, derive_box_padded 416 416 [mk_landmark (1#2) (1#2); mk_landmark (1#2) (1#2)] = Ok b ∧
       box_w b == 0 ∧ box_h b == 0.
Proof. eexists. split; [reflexivity|]. split; vm_compute; reflexivity. Qed.

(** The raw extent of a hand is ordered on both axes. *)
Lemma raw_extent_ordered w h hd e :
  raw_extent w h hd = Ok e → x_min e <= x_max e ∧ y_min e <= y_max e.
Proof.
  intros He. destruct hd as [|lm0 hd0]; [discriminate He|].
  apply raw_extent_spec in He as (Hall & _).
  destruct (Hall lm0) as [[? ?] [? ?]]; [set_solver|]. split; lra.
Qed.

(** One axis of the clamp: [min(W, hi) - max(0, lo)] is negative exactly
    when the ordered interval [lo, hi] lies wholly outside [0, W]. *)
Lemma clamp_side_neg_iff (W lo hi : Q) :
  0 < W → lo <= hi → py_min2 W hi - py_max2 0 lo < 0 ↔ W < lo ∨ hi < 0.
Proof.
  intros HW Hlh.
  pose proof (py_max2_spec 0 lo) as (A1 & A2 & A3).
  pose proof (py_min2_spec W hi) as (C1 & C2 & C3).
  destruct (Qlt_le_dec W lo); [split; [by left | intros _; lra]|].
  destruct (Qlt_le_dec hi 0); [split; [by right | intros _; lra]|].
  split; [|intros [|]; lra]. intros Hc. exfalso. destruct A3, C3; lra.
Qed.

(** C33: the letters variant's box has negative width exactly when the
    padded hand lies wholly left or right of the image, and negative
    height exactly when it lies wholly above or below it: the clamp of
    lines 145-148 then moves [x_max] below [x_min] (or [y_max] below
    [y_min]) and nothing rejects the box. *)
Theorem derive_box_padded_negative_size w h hd e b :
  raw_extent w h hd = Ok e → derive_box_padded w h hd = Ok b →
  (box_w b < 0 ↔ Qpos w < x_min (pad_extent e) ∨ x_max (pad_extent e) < 0) ∧
  (box_h b < 0 ↔ Qpos h < y_min (pad_extent e) ∨ y_max (pad_extent e) < 0).
Proof.
  intros He Hb. apply derive_box_padded_raw in Hb as (e' & He' & ->).
  rewrite He in He'. injection He' as <-.
  destruct (raw_extent_ordered _ _ _ _ He) as [Hx Hy].
  pose proof (pad_extent_closed e) as (P1 & P2 & P3 & P4).
  destruct (pad_extent e) as [a c a' c']; simpl in *.
  unfold to_yolo, clamp_extent; simpl.
  rewrite !Qdiv_neg_iff by apply Qpos_pos.
  split; apply clamp_side_neg_iff; auto with cvproj; lra.
Qed.

(** The hand of [derive_box_padded_negative_width], right of a 100x100
    image, gets a box of negative width. *)
Lemma derive_box_padded_negative_size_witness :
  raw_extent 100 100 [mk_landmark (3#2) (1#2)] = Ok (mk_extent (300#2) (100#2) (300#2) (100#2)) ∧
  ∃ b, derive_box_padded 100 100 [mk_landmark (3#2) (1#2)] = Ok b ∧ box_w b < 0.
Proof.
  split; [reflexivity|]. eexists. split; [reflexivity|].
  apply (derive_box_padded_negative_size 100 100 [mk_landmark (3#2) (1#2)]
           (mk_extent (300#2) (100#2) (300#2) (100#2))); [reflexivity..|].
  left. vm_compute. reflexivity.
Defined.
