(* ===== verification/LabelWriter.v ===== *)
(** * Label Writer: the YOLO label line and the label file name

    [bounding_box_generation.py] writes, for each image with a detected
    hand, the line
    [f"{class_id} {x_center:.6f} {y_center:.6f} {box_w:.6f} {box_h:.6f}"]
    ([yolo_line]) to the file [os.path.splitext(image_file)[0] + ".txt"]
    ([label_file_name]) in the class folder.  This file models both, checks
    the spec's worked example against the code, and proves that the label
    format can be read back ([parse_label_line], the reader a training
    loader applies): the class index exactly, each coordinate to within
    half a unit of the sixth decimal. *)

From S2P Require Import Prelude PyStr BoxDeriver.
From Stdlib Require Import Ascii String DecimalString DecimalN.

Local Open Scope string_scope.

(** ** The line and the file name *)

(** Line 72 (combined) / 156 (letters):
    [f"{class_id} {x_center:.6f} {y_center:.6f} {box_w:.6f} {box_h:.6f}"]. *)
Definition yolo_line (class_id : nat) (b : yolo_box) : string :=
  fmt_N (N.of_nat class_id) ++ " " ++ fmt_fixed6 (x_center b) ++ " "
    ++ fmt_fixed6 (y_center b) ++ " " ++ fmt_fixed6 (box_w b) ++ " "
    ++ fmt_fixed6 (box_h b).

(** Line 75 (combined) / 159 (letters):
    [txt_filename = os.path.splitext(image_file)[0] + ".txt"]. *)
Definition label_file_name (image_file : string) : string := stem image_file ++ ".txt".

(** ** The spec's worked example *)

(** The hand of the spec's padding example: keypoints spanning pixel
    x in [100, 200] and y in [50, 150] of a 400 × 400 image. *)
Definition spec_example_hand : hand :=
  [mk_landmark (1#4) (1#8); mk_landmark (1#2) (3#8)].

(** On the spec's padding example the letters variant writes
    [0 0.380000 0.251250 0.360000 0.302500], not the
    [0.375 0.25 0.35 0.275] the spec computes.  The code pads [x_max] with
    the already padded [x_min] (x in [80, 224] instead of [80, 220]), and
    the vertical padding of 0.1 moves [y_min] by 10 pixels, not 5
    (y in [40, 161] instead of [45, 155]). *)
Theorem spec_padding_example_line :
  (b ← derive_box_padded 400 400 spec_example_hand; mret (yolo_line 0 b))
    = Ok "0 0.380000 0.251250 0.360000 0.302500".
Proof. vm_compute. reflexivity. Qed.

(** The label file of any image is not itself an image file, so
    labeling never overwrites an image and the next scan does not take a
    label for an image. *)
Theorem label_file_not_image f : is_image_name (label_file_name f) = false.
Proof. apply txt_not_image. Qed.

(** ** Reading a label line back *)

Definition is_digit (c : ascii) : bool :=
  (48 <=? N_of_ascii c)%N && (N_of_ascii c <=? 57)%N.

Definition digit_val (c : ascii) : N := (N_of_ascii c - 48)%N.

(** The value of a string of decimal digits, appended to [acc]. *)
Fixpoint parse_digits_go (acc : N) (s : string) : option N :=
  match s with
  | EmptyString => Some acc
  | String c r => if is_digit c then parse_digits_go (acc * 10 + digit_val c)%N r else None
  end.

(** [s.split(sep)] for a one-character separator. *)
Fixpoint split_on (sep : ascii) (s : string) : list string :=
  match s with
  | EmptyString => [""]
  | String c r =>
      if ascii_dec c sep then "" :: split_on sep r
      else match split_on sep r with
           | [] => [String c ""]
           | x :: xs => String c x :: xs
           end
  end.

(** A decimal with an optional minus sign, an integer part and exactly six
    decimals, as [:.6f] writes it. *)
Definition parse_fixed6 (s : string) : option Q :=
  let '(neg, body) :=
    match s with
    | String c r => if ascii_dec c "-" then (true, r) else (false, s)
    | EmptyString => (false, s)
    end in
  match split_on "." body with
  | [ip; fp] =>
      if (String.length fp =? 6)%nat then
        i ← NilEmpty.uint_of_string ip;
        f ← parse_digits_go 0 fp;
        let n := Z.of_N (N.of_uint i * 1000000 + f) in
        Some (inject_Z (if neg then (- n)%Z else n) / 1000000)
      else None
  | _ => None
  end.

(** The five space-separated fields of a label line. *)
Definition parse_label_line (s : string) : option (N * Q * Q * Q * Q) :=
  match split_on " " s with
  | [c; a; b; d; e] =>
      i ← NilEmpty.uint_of_string c;
      x ← parse_fixed6 a; y ← parse_fixed6 b; w ← parse_fixed6 d; h ← parse_fixed6 e;
      Some (N.of_uint i, x, y, w, h)
  | _ => None
  end.

(** *** Characters of the formatted numbers *)

Definition all_digits (s : string) : Prop :=
  Forall (λ c, is_digit c = true) (list_ascii_of_string s).

Lemma all_digits_app a b : all_digits a → all_digits b → all_digits (a ++ b).
Proof. unfold all_digits. rewrite las_app, Forall_app. done. Qed.

Lemma fmt_N_digits n : all_digits (fmt_N n).
Proof.
  unfold fmt_N, all_digits. generalize (N.to_uint n) as d.
  induction d; simpl; constructor; auto.
Qed.

Lemma digit_char_spec d : (d < 10)%N → is_digit (digit_char d) = true ∧ digit_val (digit_char d) = d.
Proof.
  intros Hd. unfold is_digit, digit_val, digit_char.
  rewrite N_ascii_embedding by lia. split; [apply andb_true_iff; split; apply N.leb_le|]; lia.
Qed.

Lemma fixed_digits_digits k n : all_digits (fixed_digits k n).
Proof.
  revert n; induction k as [|k IH]; intros n; simpl; [constructor|].
  apply all_digits_app; [apply IH|]. unfold all_digits; simpl.
  constructor; [|constructor]. apply digit_char_spec, N.mod_lt. lia.
Qed.

Lemma fixed_digits_length k n : String.length (fixed_digits k n) = k.
Proof.
  revert n; induction k as [|k IH]; intros n; simpl; [done|].
  rewrite <- las_length, las_app, length_app, las_length, IH. simpl. lia.
Qed.

(** A digit is neither a separator nor a sign. *)
Lemma digit_not_sep c : is_digit c = true → c ≠ " "%char ∧ c ≠ "."%char ∧ c ≠ "-"%char.
Proof. intros Hd. split_and!; intros ->; discriminate Hd. Qed.

(** *** Splitting *)

Lemma string_cons_app (c : ascii) s : String c "" ++ s = String c s.
Proof. reflexivity. Qed.

Lemma split_on_no_sep sep s :
  Forall (λ c, c ≠ sep) (list_ascii_of_string s) → split_on sep s = [s].
Proof.
  induction s as [|c s IH]; simpl; [done|]. intros Hf. apply Forall_cons in Hf as [Hc Hf].
  destruct (ascii_dec c sep); [done|]. by rewrite IH.
Qed.

Lemma split_on_app sep a b :
  Forall (λ c, c ≠ sep) (list_ascii_of_string a) →
  split_on sep (a ++ String sep b) = a :: split_on sep b.
Proof.
  induction a as [|c a IH]; intros Hf.
  - simpl. by destruct (ascii_dec sep sep).
  - apply Forall_cons in Hf as [Hc Hf].
    change (split_on sep (String c (a ++ String sep b)) = String c a :: split_on sep b).
    simpl. destruct (ascii_dec c sep); [done|]. by rewrite IH.
Qed.

Lemma digits_no_sep s sep :
  all_digits s → sep ∈ [" "; "."; "-"]%char → Forall (λ c, c ≠ sep) (list_ascii_of_string s).
Proof.
  intros Hd Hsep. eapply Forall_impl; [exact Hd|]. intros c Hc ->.
  apply digit_not_sep in Hc. set_solver.
Qed.

(** *** Parsing the formatted numbers *)

Lemma parse_digits_go_app acc a b :
  parse_digits_go acc (a ++ b) = (acc' ← parse_digits_go acc a; parse_digits_go acc' b).
Proof.
  revert acc; induction a as [|c a IH]; intros acc; [done|].
  change (parse_digits_go acc (String c (a ++ b)) =
    (acc' ← parse_digits_go acc (String c a); parse_digits_go acc' b)). simpl.
  destruct (is_digit c); [apply IH | done].
Qed.

(** The [k] digits written by [fixed_digits] read back as [n mod 10^k]. *)
Lemma parse_fixed_digits k n acc :
  parse_digits_go acc (fixed_digits k n) = Some (acc * 10 ^ N.of_nat k + n mod 10 ^ N.of_nat k)%N.
Proof.
  revert n acc; induction k as [|k IH]; intros n acc; simpl.
  - f_equal. rewrite N.mod_1_r. lia.
  - rewrite parse_digits_go_app, IH. simpl.
    destruct (digit_char_spec (n mod 10)) as [-> ->]; [apply N.mod_lt; lia|].
    f_equal. rewrite Nat2N.inj_succ, N.pow_succ_r', N.Div0.mod_mul_r. ring.
Qed.

(** The body of a formatted number does not start with a minus sign. *)
Lemma fmt_body_no_sign k m c r :
  fmt_N k ++ "." ++ fixed_digits 6 m = String c r → c ≠ "-"%char.
Proof.
  pose proof (fmt_N_digits k) as Hd.
  destruct (fmt_N k) as [|c' r'] eqn:E.
  - intros H. cbn [String.append] in H. injection H as <- _. done.
  - intros H. cbn [String.append] in H. injection H as <- _. unfold all_digits in Hd. simpl in Hd.
    apply Forall_cons in Hd as [Hc _]. by apply digit_not_sep in Hc as (_ & _ & ?).
Qed.

(** [parse_fixed6] reads [f"{q:.6f}"] back as the signed rounded value. *)
Lemma parse_fixed6_fmt q :
  let n := Z.to_N (round_half_even (Qabs q * 1000000)) in
  parse_fixed6 (fmt_fixed6 q) =
    Some (inject_Z (if Qltb q 0 then (- Z.of_N n)%Z else Z.of_N n) / 1000000).
Proof.
  intros n. unfold fmt_fixed6. fold n.
  set (body := fmt_N (n / 1000000) ++ "." ++ fixed_digits 6 (n mod 1000000)).
  assert (Hsplit : split_on "." body = [fmt_N (n / 1000000); fixed_digits 6 (n mod 1000000)]).
  { unfold body. change ("." ++ ?x) with (String "." x).
    rewrite split_on_app, split_on_no_sep; [done| |];
      apply digits_no_sep; auto using fmt_N_digits, fixed_digits_digits; set_solver. }
  assert (Hnum : (N.of_uint (N.to_uint (n / 1000000)) * 1000000
                  + (0 * 10 ^ N.of_nat 6 + n mod 1000000 mod 10 ^ N.of_nat 6) = n)%N).
  { rewrite DecimalN.Unsigned.of_to. change (10 ^ N.of_nat 6)%N with 1000000%N.
    rewrite N.Div0.mod_mod. pose proof (N.div_mod' n 1000000). lia. }
  assert (Hparse : ∀ neg : bool,
    match split_on "." body with
    | [ip; fp] =>
        if (String.length fp =? 6)%nat then
          i ← NilEmpty.uint_of_string ip; f ← parse_digits_go 0 fp;
          Some (inject_Z (if neg then (- Z.of_N (N.of_uint i * 1000000 + f))%Z
                          else Z.of_N (N.of_uint i * 1000000 + f)) / 1000000)
        else None
    | _ => None
    end = Some (inject_Z (if neg then (- Z.of_N n)%Z else Z.of_N n) / 1000000)).
  { intros neg. rewrite Hsplit, fixed_digits_length, parse_fixed_digits.
    unfold fmt_N. rewrite NilEmpty.usu. simpl. by rewrite Hnum. }
  unfold parse_fixed6. destruct (Qltb q 0).
  - change ("-" ++ body) with (String "-" body). simpl. exact (Hparse true).
  - change ("" ++ body) with body.
    assert (Hc : ∀ c r, body = String c r → c ≠ "-"%char)
      by (intros c r E; exact (fmt_body_no_sign _ _ _ _ E)).
    destruct body as [|c r] eqn:Eb; [discriminate Hsplit|].
    specialize (Hc c r eq_refl).
    destruct (ascii_dec c "-"); [done|]. exact (Hparse false).
Qed.

(** The value read back from [f"{q:.6f}"] is within half a millionth of
    [q]. *)
Lemma fmt_fixed6_accuracy q :
  ∃ r, parse_fixed6 (fmt_fixed6 q) = Some r ∧ Qabs (r - q) <= 1 # 2000000.
Proof.
  rewrite parse_fixed6_fmt. eexists; split; [reflexivity|].
  pose proof (round_half_even_bound (Qabs q * 1000000)) as Hb.
  set (R := round_half_even (Qabs q * 1000000)) in *.
  pose proof (Qabs_nonneg q) as Hq.
  apply Qabs_Qle_condition in Hb as [Hb1 Hb2].
  assert (HR : (0 <= R)%Z).
  { destruct (Z.le_gt_cases 0 R) as [|Hlt]; [done|]. exfalso.
    assert (inject_Z R <= -1) by (change (-1) with (inject_Z (-1)); rewrite <- Zle_Qle; lia).
    lra. }
  rewrite Z2N.id by done. apply Qabs_Qle_condition. qdiv.
  destruct (Qltb q 0) eqn:E; [apply Qltb_spec in E | apply Qltb_false in E].
  - rewrite inject_Z_opp. rewrite Qabs_neg in Hb1, Hb2 by lra. split; lra.
  - rewrite Qabs_pos in Hb1, Hb2 by lra. split; lra.
Qed.

Lemma fmt_fixed6_no_space q : Forall (λ c, c ≠ " "%char) (list_ascii_of_string (fmt_fixed6 q)).
Proof.
  unfold fmt_fixed6. rewrite !las_app, !Forall_app. split_and!.
  - destruct (Qltb q 0); repeat constructor; discriminate.
  - apply digits_no_sep; [apply fmt_N_digits | set_solver].
  - repeat constructor; discriminate.
  - apply digits_no_sep; [apply fixed_digits_digits | set_solver].
Qed.

(** A label line parses back to its values. *)
Lemma yolo_line_parse (class_id : nat) (b : yolo_box) :
  ∃ x y w h,
    parse_label_line (yolo_line class_id b) = Some (N.of_nat class_id, x, y, w, h) ∧
    Qabs (x - x_center b) <= 1 # 2000000 ∧ Qabs (y - y_center b) <= 1 # 2000000 ∧
    Qabs (w - box_w b) <= 1 # 2000000 ∧ Qabs (h - box_h b) <= 1 # 2000000.
Proof.
  destruct (fmt_fixed6_accuracy (x_center b)) as (x & Hx & Ax).
  destruct (fmt_fixed6_accuracy (y_center b)) as (y & Hy & Ay).
  destruct (fmt_fixed6_accuracy (box_w b)) as (w & Hw & Aw).
  destruct (fmt_fixed6_accuracy (box_h b)) as (h & Hh & Ah).
  exists x, y, w, h. split_and!; try done.
  unfold parse_label_line, yolo_line. rewrite !(string_cons_app " "%char).
  rewrite !split_on_app, split_on_no_sep;
    try apply fmt_fixed6_no_space; [|apply digits_no_sep; [apply fmt_N_digits|set_solver]].
  unfold fmt_N at 1. rewrite NilEmpty.usu. simpl.
  by rewrite Hx, Hy, Hw, Hh, DecimalN.Unsigned.of_to.
Qed.

(** C3: a label line reads back: its class index exactly, and each of
    the four coordinates to within half a unit of the sixth decimal. *)
Theorem yolo_line_roundtrip (class_id : nat) (b : yolo_box) :
  ∃ x y w h,
    parse_label_line (yolo_line class_id b) = Some (N.of_nat class_id, x, y, w, h) ∧
    Qabs (x - x_center b) <= 1 # 2000000 ∧ Qabs (y - y_center b) <= 1 # 2000000 ∧
    Qabs (w - box_w b) <= 1 # 2000000 ∧ Qabs (h - box_h b) <= 1 # 2000000.
Proof. apply yolo_line_parse. Qed.
