(* ===== verification/FileSystem.v ===== *)
(** * The file system the scripts walk, and the external collaborators

    The scripts read and write a two-level tree:
    [data/yolo_images/<class_folder>/<file>].  A folder is a [gmap] from
    file names to contents; the tree is a [gmap] from entry names to
    [node]s, a file or a folder.  Nested folders inside a class folder are
    not modelled (the scripts never descend into them).

    The collaborators the scripts call are type classes, so that the
    theorems hold for every lawful implementation:
    - [DirLister]: [os.listdir], which returns the entry names in an
      unspecified order (any permutation of the entries);
    - [ImageCodec]: [cv2.imread] on a file's bytes ([None] when the file
      cannot be decoded) and [image.shape];
    - [HandLandmarker]: MediaPipe's [hands.process(image_rgb)]
      ([results.multi_hand_landmarks]: absent, or a list of hands of 21
      landmarks each). *)

From S2P Require Import Prelude BoxDeriver.

(** ** The tree *)

(** An entry of a directory: a regular file with its contents, or a
    folder of files. *)
Inductive node :=
  | NFile (contents : string)
  | NDir (files : gmap string string).

(** [os.path.isdir(os.path.join(root, name))]. *)
Definition is_dir (root : gmap string node) (name : string) : bool :=
  match root !! name with Some (NDir _) => true | _ => false end.

(** [os.path.exists(os.path.join(folder, name))] for a file name, on a
    case-sensitive file system: the name must match exactly. *)
Definition file_exists (folder : gmap string string) (name : string) : bool :=
  bool_decide (is_Some (folder !! name)).

(** ** Collaborator interfaces *)

(** [os.listdir]: every entry exactly once, in some order. *)
Class DirLister := {
  listdir_folder : gmap string string → list string;
  listdir_tree : gmap string node → list string;
  listdir_folder_perm f : listdir_folder f ≡ₚ (map_to_list f).*1;
  listdir_tree_perm t : listdir_tree t ≡ₚ (map_to_list t).*1
}.

(** [cv2.imread] and [image.shape]: [(h, w)], both positive. *)
Class ImageCodec (img : Type) := {
  imread : string → option img;
  image_shape : img → positive * positive
}.

(** MediaPipe Hands: [None] when no hand is found, otherwise the detected
    hands, each with its 21 landmarks. *)
Class HandLandmarker (img : Type) := {
  hands_process : img → option (list hand);
  hands_21 im hs : hands_process im = Some hs → Forall (λ hd, length hd = 21%nat) hs
}.

(** ** Listing facts *)

Section listing.
Context `{DirLister}.

Lemma listdir_folder_elem (f : gmap string string) n :
  n ∈ listdir_folder f ↔ is_Some (f !! n).
Proof.
  rewrite (listdir_folder_perm f), list_elem_of_fmap. split.
  - intros [[k v] [-> Hin]]. apply elem_of_map_to_list in Hin. simpl. eauto.
  - intros [v Hv]. exists (n, v). split; [done|]. by apply elem_of_map_to_list.
Qed.

Lemma listdir_folder_NoDup (f : gmap string string) : NoDup (listdir_folder f).
Proof. rewrite (listdir_folder_perm f). apply NoDup_fst_map_to_list. Qed.

Lemma listdir_tree_elem (t : gmap string node) n :
  n ∈ listdir_tree t ↔ is_Some (t !! n).
Proof.
  rewrite (listdir_tree_perm t), list_elem_of_fmap. split.
  - intros [[k v] [-> Hin]]. apply elem_of_map_to_list in Hin. simpl. eauto.
  - intros [v Hv]. exists (n, v). split; [done|]. by apply elem_of_map_to_list.
Qed.

Lemma listdir_tree_NoDup (t : gmap string node) : NoDup (listdir_tree t).
Proof. rewrite (listdir_tree_perm t). apply NoDup_fst_map_to_list. Qed.
End listing.

(** The listing in the map's own order, one lawful [os.listdir]. *)
Definition map_order_lister : DirLister.
Proof.
  refine {| listdir_folder f := (map_to_list f).*1; listdir_tree t := (map_to_list t).*1 |};
    intros; reflexivity.
Defined.

(** The listing in the reverse order, another lawful [os.listdir]. *)
Definition reverse_order_lister : DirLister.
Proof.
  refine {| listdir_folder f := reverse (map_to_list f).*1;
            listdir_tree t := reverse (map_to_list t).*1 |};
    intros; apply reverse_Permutation.
Defined.
