(* ===== verification/ImageExtraction.v ===== *)
(** * Image extraction

    [src/asl+sign digits detection/project_code/image_extraction.py]:
    - lines 26-43: the sign-language digits, given as two arrays [X]
      (images) and [Y] (one-hot label rows), are saved one by one into
      [data/yolo_images/<label>/] as [f"{label}{counters[label]}.jpg"],
      with a counter per digit;
    - lines 49-69: every image of every folder of the ASL alphabet dataset
      is converted and saved under the same name into
      [data/yolo_images/<folder>/], unless that file already exists; a
      conversion that raises is reported and skipped.
    [src/asl_detection/project_code/image_extraction.py], lines 20-40, is
    the same copy as lines 49-69.

    - [np.load] is not modelled: [X] is a list of opaque images and [Y] a
      list of rows of floats; [np.argmax] is [py_argmax] (the first index
      of the maximum; [ValueError] on an empty row);
    - the PIL pipelines are interfaces: [ImageEncoder] gives the bytes
      [Image.fromarray(...).convert("RGB").resize(IMG_SIZE).save] writes for
      a digit image, [PilConverter] the bytes of a converted alphabet image
      or [None] when PIL raises;
    - [os.makedirs(path, exist_ok=True)] is [makedirs_exist_ok]; it raises
      [FileExistsError] over a regular file.

    The theorems: the digit loop saves every image under a name no other
    image of the run gets, so none is overwritten; the alphabet copy never
    changes a file that exists, converts every other image, and a second
    run changes nothing. *)

From S2P Require Import Prelude PyStr FileSystem.
From Stdlib Require Import Ascii String DecimalString DecimalN.

Local Open Scope string_scope.

(** ** Collaborators *)

(** The bytes saved for a digit image (lines 40-43). *)
Class ImageEncoder (A : Type) := {
  save_jpeg : A → string
}.

(** [Image.open(src).convert("RGB").resize(IMG_SIZE)] and its [save]
    (lines 65-67): the bytes written, or [None] when it raises. *)
Class PilConverter := {
  pil_convert : string → option string
}.

(** ** Helpers *)

(** [np.argmax(row)] on a row that starts with [best] at [best_i]: the
    first index of the maximum. *)
Fixpoint argmax_go (row : list Q) (i best_i : nat) (best : Q) : nat :=
  match row with
  | [] => best_i
  | x :: row' => if Qltb best x then argmax_go row' (S i) i x else argmax_go row' (S i) best_i best
  end.

Definition py_argmax (row : list Q) : res nat :=
  match row with
  | [] => Raise ValueError
  | x :: row' => Ok (argmax_go row' 1 0 x)
  end.

(** [lst[i]]. *)
Definition py_index {A} (l : list A) (i : nat) : res A :=
  match l !! i with Some x => Ok x | None => Raise IndexError end.

(** [os.makedirs(os.path.join(root, name), exist_ok=True)]. *)
Definition makedirs_exist_ok (root : gmap string node) (name : string) : res (gmap string node) :=
  match root !! name with
  | Some (NDir _) => Ok root
  | Some (NFile _) => Raise FileExistsError
  | None => Ok (<[name := NDir ∅]> root)
  end.

(** Writing the file [name] with [contents] into the folder [dir] of
    [root]. *)
Definition save_file (root : gmap string node) (dir name contents : string)
    : res (gmap string node) :=
  match root !! dir with
  | Some (NDir folder) => Ok (<[dir := NDir (<[name := contents]> folder)]> root)
  | _ => Raise FileNotFoundError
  end.

(** [str(i)] for a digit label. *)
Definition str_nat (i : nat) : string := fmt_N (N.of_nat i).

(** Line 37: [f"{label}{counters[label]}.jpg"]. *)
Definition digit_file_name (label count : nat) : string := str_nat label ++ str_nat count ++ ".jpg".

(** ** The digits: lines 26-43 *)

Section digits.
Context {A : Type} `{ImageEncoder A}.

(** Lines 27-28. *)
Definition make_digit_dirs (root : gmap string node) : res (gmap string node) :=
  py_for makedirs_exist_ok (map str_nat (seq 0 10)) root.

(** Line 30: [counters = {i: 0 for i in range(10)}]. *)
Definition counters0 : gmap nat nat := list_to_map (map (λ i, (i, 0%nat)) (seq 0 10)).

(** Lines 34-43 for one [idx]. *)
Definition save_digit (X : list A) (Y : list (list Q)) (st : gmap string node * gmap nat nat)
    (idx : nat) : res (gmap string node * gmap nat nat) :=
  let '(root, counters) := st in
  row ← py_index Y idx;
  label ← py_argmax row;
  let folder_path := str_nat label in
  count ← (match counters !! label with Some c => Ok c | None => Raise KeyError end);
  let counters := <[label := S count]> counters in
  let filename := digit_file_name label (S count) in
  img ← py_index X idx;
  root ← save_file root folder_path filename (save_jpeg img);
  Ok (root, counters).

(** Lines 26-43. *)
Definition extract_digits (X : list A) (Y : list (list Q)) (root : gmap string node)
    : res (gmap string node) :=
  root ← make_digit_dirs root;
  st ← py_for (save_digit X Y) (seq 0 (List.length X)) (root, counters0);
  Ok st.1.
End digits.

(** ** The alphabet: lines 49-69 *)

(** The extensions of line 57, in the order written there. *)
Definition asl_exts : list string := [".png"; ".jpg"; ".jpeg"].

Section alphabet.
Context `{DirLister} `{PilConverter}.

(** Lines 60-69 for one [file_name] of [src_folder], saved into the
    folder [folder_name] of [root]. *)
Definition copy_asl_file (src_folder : gmap string string) (folder_name : string)
    (root : gmap string node) (file_name : string) : res (gmap string node) :=
  match root !! folder_name with
  | Some (NDir dst) =>
      if file_exists dst file_name then Ok root
      else
        match src_folder !! file_name ≫= pil_convert with
        | Some contents => save_file root folder_name file_name contents
        | None => Ok root
        end
  | _ => Raise FileNotFoundError
  end.

(** Line 57: the image files of a source folder. *)
Definition asl_image_files (src_folder : gmap string string) : list string :=
  filter (λ f, py_endswith_any (py_lower f) asl_exts = true) (listdir_folder src_folder).

(** Lines 52-69 for one [folder_name]. *)
Definition copy_asl_folder (src : gmap string node) (root : gmap string node) (folder_name : string)
    : res (gmap string node) :=
  match src !! folder_name with
  | Some (NDir src_folder) =>
      root ← makedirs_exist_ok root folder_name;
      py_for (copy_asl_file src_folder folder_name) (asl_image_files src_folder) root
  | _ => Ok root
  end.

(** Lines 50-69. *)
Definition extract_asl (src : gmap string node) (root : gmap string node) : res (gmap string node) :=
  let asl_subfolders := filter (λ f, is_dir src f = true) (listdir_tree src) in
  py_for (copy_asl_folder src) asl_subfolders root.
End alphabet.

(** ** Specification-level notions *)

(** The label of the row [Y[j]]: [int(np.argmax(Y[j]))]. *)
Definition row_label (Y : list (list Q)) (j : nat) : res nat :=
  row ← py_index Y j; py_argmax row.

(** The number of rows before [i] with label [d]. *)
Definition label_count (Y : list (list Q)) (d i : nat) : nat :=
  List.length (filter (λ j, row_label Y j = Ok d) (seq 0 i)).

(** The counter the image [j] of label [d] is saved with: one more than
    the number of earlier images of the same label. *)
Definition rank (Y : list (list Q)) (d j : nat) : nat := S (label_count Y d j).

(** Every row the loop reads has a label among the ten digits. *)
Definition digit_rows_ok (n : nat) (Y : list (list Q)) : Prop :=
  ∀ j, (j < n)%nat → ∃ d, row_label Y j = Ok d ∧ (d < 10)%nat.

(** No regular file of [data/yolo_images] is named after a digit. *)
Definition digit_dirs_free (root : gmap string node) : Prop :=
  ∀ d c, (d < 10)%nat → root !! str_nat d ≠ Some (NFile c).

(** ** File names *)

Lemma str_nat_inj a b : str_nat a = str_nat b → a = b.
Proof.
  unfold str_nat, fmt_N. intros Hab. apply (f_equal NilEmpty.uint_of_string) in Hab.
  rewrite !NilEmpty.usu in Hab. injection Hab as Hab. apply Nat2N.inj.
  rewrite <- (DecimalN.Unsigned.of_to (N.of_nat a)), <- (DecimalN.Unsigned.of_to (N.of_nat b)).
  by rewrite Hab.
Qed.

Lemma str_nat_digit d : (d < 10)%nat → ∃ c, str_nat d = String c EmptyString.
Proof. intros Hd. do 10 (destruct d as [|d]; [eexists; reflexivity|]). lia. Qed.

(** Two digit images get the same file name only with the same label and
    the same counter: the name starts with the one-character label. *)
Lemma digit_file_name_inj d1 c1 d2 c2 :
  (d1 < 10)%nat → (d2 < 10)%nat → digit_file_name d1 c1 = digit_file_name d2 c2 →
  d1 = d2 ∧ c1 = c2.
Proof.
  intros H1 H2. unfold digit_file_name.
  destruct (str_nat_digit d1 H1) as [a1 E1], (str_nat_digit d2 H2) as [a2 E2].
  rewrite E1, E2. intros Heq. injection Heq as Ha Ht.
  split.
  - apply str_nat_inj. by rewrite E1, E2, Ha.
  - apply str_nat_inj, (string_app_inv_r _ _ ".jpg"), Ht.
Qed.

(** ** Counting *)

Lemma label_count_S Y d i :
  label_count Y d (S i) = (label_count Y d i + if decide (row_label Y i = Ok d) then 1 else 0)%nat.
Proof.
  unfold label_count. rewrite seq_S, filter_app, length_app. f_equal.
  rewrite filter_cons, filter_nil. simpl (0 + i)%nat. by case_decide.
Qed.

(** An earlier image of the same label is counted before a later one. *)
Lemma label_count_lt Y d j i :
  (j < i)%nat → row_label Y j = Ok d → (S (label_count Y d j) ≤ label_count Y d i)%nat.
Proof.
  intros Hji Hj. induction i as [|i IH]; [lia|]. rewrite label_count_S.
  destruct (decide (j = i)) as [->|Hne].
  - rewrite decide_True by done. lia.
  - assert (j < i)%nat by lia. specialize (IH H). case_decide; lia.
Qed.

(** The images of one label get distinct counters. *)
Lemma rank_inj Y d j1 j2 :
  row_label Y j1 = Ok d → row_label Y j2 = Ok d → rank Y d j1 = rank Y d j2 → j1 = j2.
Proof.
  unfold rank. intros H1 H2 Heq.
  destruct (Nat.lt_total j1 j2) as [Hlt|[?|Hlt]]; [|done|].
  - pose proof (label_count_lt Y d _ _ Hlt H1). lia.
  - pose proof (label_count_lt Y d _ _ Hlt H2). lia.
Qed.

(** ** The digit folders: lines 27-28 *)

Lemma py_for_makedirs ns root :
  (∀ n c, n ∈ ns → root !! n ≠ Some (NFile c)) →
  ∃ root', py_for makedirs_exist_ok ns root = Ok root' ∧
    (∀ n, n ∈ ns → ∃ folder, root' !! n = Some (NDir folder)) ∧
    (∀ n, n ∉ ns → root' !! n = root !! n).
Proof.
  revert root; induction ns as [|n ns IH]; intros root Hfree.
  { exists root. split_and!; [done| |done]. intros n Hn. by apply not_elem_of_nil in Hn. }
  assert (Hstep : ∃ r, makedirs_exist_ok root n = Ok r ∧ (∃ f, r !! n = Some (NDir f)) ∧
                       ∀ m, m ≠ n → r !! m = root !! m).
  { unfold makedirs_exist_ok. destruct (root !! n) as [[c|f]|] eqn:E.
    - exfalso. apply (Hfree n c); [left|done].
    - exists root. eauto.
    - eexists; split_and!; [done| |].
      + rewrite lookup_insert_eq. eauto.
      + intros m Hm. by rewrite lookup_insert_ne. }
  destruct Hstep as (r & Hr & Hrn & Hro). cbn [py_for]. rewrite Hr, res_bind_Ok.
  destruct (IH r) as (root' & Hrun & Hin & Hout).
  { intros m c Hm. destruct (decide (m = n)) as [->|Hne].
    - destruct Hrn as [f ->]. done.
    - rewrite Hro by done. apply Hfree. by right. }
  exists root'. split_and!; [done| |].
  - intros m [->|Hm]%elem_of_cons; [|by apply Hin].
    destruct (decide (n ∈ ns)) as [Hm|Hm]; [by apply Hin|]. by rewrite Hout.
  - intros m Hm. apply not_elem_of_cons in Hm as [Hne Hm]. rewrite Hout by done. by apply Hro.
Qed.

Lemma str_nat_seq d : d ∈ map str_nat (seq 0 10) ↔ ∃ i, (i < 10)%nat ∧ d = str_nat i.
Proof.
  rewrite list_elem_of_fmap. setoid_rewrite elem_of_seq. naive_solver lia.
Qed.

Lemma counters0_lookup d : (d < 10)%nat → counters0 !! d = Some 0%nat.
Proof. intros Hd. do 10 (destruct d as [|d]; [reflexivity|]). lia. Qed.

(** ** The digit loop: lines 33-43 *)

Section digit_loop.
Context {A : Type} `{ImageEncoder A} (X : list A) (Y : list (list Q)).

(** What holds after the first [i] images: each counter counts the images
    of its label so far, and every image so far is in its folder under the
    name of its label and counter. *)
Definition digits_inv (i : nat) (st : gmap string node * gmap nat nat) : Prop :=
  ∀ d, (d < 10)%nat →
    st.2 !! d = Some (label_count Y d i) ∧
    ∃ folder, st.1 !! str_nat d = Some (NDir folder) ∧
      ∀ j x, (j < i)%nat → row_label Y j = Ok d → X !! j = Some x →
        folder !! digit_file_name d (rank Y d j) = Some (save_jpeg x).

Lemma save_digit_step i st :
  digit_rows_ok (List.length X) Y → (i < List.length X)%nat → digits_inv i st →
  ∃ st', save_digit X Y st i = Ok st' ∧ digits_inv (S i) st'.
Proof.
  destruct st as [root counters]. intros Hok Hi Hinv.
  destruct (Hok i Hi) as (l & Hl & Hl10).
  pose proof Hl as Hl'. unfold row_label in Hl'.
  apply res_bind_Ok_inv in Hl' as (row & Hrow & Harg).
  destruct (Hinv l Hl10) as [Hc (folder & Hf & Hfiles)]. simpl in Hc, Hf.
  destruct (lookup_lt_is_Some_2 X i Hi) as [x Hx].
  unfold save_digit. rewrite Hrow, res_bind_Ok, Harg, res_bind_Ok, Hc, res_bind_Ok.
  unfold py_index at 1. rewrite Hx, res_bind_Ok. unfold save_file. rewrite Hf, res_bind_Ok.
  eexists; split; [reflexivity|]. intros d Hd. simpl. rewrite label_count_S.
  destruct (decide (d = l)) as [->|Hne].
  - rewrite decide_True, lookup_insert_eq by done. split; [f_equal; lia|].
    rewrite lookup_insert_eq. eexists; split; [done|].
    intros j x' Hj Hlj Hxj. destruct (decide (j = i)) as [->|Hji].
    + rewrite Hx in Hxj. injection Hxj as <-. unfold rank. by rewrite lookup_insert_eq.
    + rewrite lookup_insert_ne; [apply Hfiles; [lia|done|done]|].
      intros Heq. apply digit_file_name_inj in Heq as [_ Heq]; [|done|done].
      unfold rank in Heq. pose proof (label_count_lt Y l j i ltac:(lia) Hlj). lia.
  - rewrite decide_False by congruence. rewrite lookup_insert_ne by congruence.
    destruct (Hinv d Hd) as [Hcd (folder' & Hf' & Hfiles')]. simpl in Hcd, Hf'.
    split; [rewrite Hcd; f_equal; lia|].
    rewrite lookup_insert_ne by (intros ?%str_nat_inj; congruence).
    exists folder'. split; [done|]. intros j x' Hj Hlj Hxj. apply Hfiles'; [|done|done].
    destruct (decide (j = i)) as [->|]; [congruence|lia].
Qed.

Lemma digit_loop_prefix root1 i :
  digit_rows_ok (List.length X) Y → (i ≤ List.length X)%nat → digits_inv 0 (root1, counters0) →
  ∃ st, py_for (save_digit X Y) (seq 0 i) (root1, counters0) = Ok st ∧ digits_inv i st.
Proof.
  intros Hok. induction i as [|i IH]; intros Hi Hinit; [by eexists|].
  destruct IH as (st & Hrun & Hinv); [lia|done|].
  destruct (save_digit_step i st Hok ltac:(lia) Hinv) as (st' & Hstep & Hinv').
  exists st'. rewrite seq_S, py_for_app, Hrun, res_bind_Ok. simpl. by rewrite Hstep.
Qed.
End digit_loop.

(** Where the digit loop saves each image. *)
Lemma extract_digits_result {A : Type} `{ImageEncoder A} (X : list A) Y root :
  digit_rows_ok (List.length X) Y → digit_dirs_free root →
  ∃ root', extract_digits X Y root = Ok root' ∧
    ∀ j x d, X !! j = Some x → row_label Y j = Ok d →
      ∃ folder, root' !! str_nat d = Some (NDir folder) ∧
        folder !! digit_file_name d (rank Y d j) = Some (save_jpeg x).
Proof.
  intros Hok Hfree.
  destruct (py_for_makedirs (map str_nat (seq 0 10)) root) as (root1 & Hmk & Hin & _).
  { intros n c (i & Hi & ->)%str_nat_seq. by apply Hfree. }
  assert (Hinit : digits_inv X Y 0 (root1, counters0)).
  { intros d Hd. split; [by apply counters0_lookup|].
    destruct (Hin (str_nat d)) as [f Hf]; [apply str_nat_seq; eauto|].
    exists f. split; [done|]. intros; lia. }
  destruct (digit_loop_prefix X Y root1 (List.length X) Hok (le_n _) Hinit) as (st & Hrun & Hinv).
  exists st.1. split.
  - unfold extract_digits, make_digit_dirs. by rewrite Hmk, res_bind_Ok, Hrun.
  - intros j x d Hx Hd. apply lookup_lt_Some in Hx as Hj.
    destruct (Hok j Hj) as (d' & Hd' & Hd10). rewrite Hd in Hd'. injection Hd' as <-.
    destruct (Hinv d Hd10) as [_ (folder & Hf & Hfiles)]. eauto.
Qed.

(** C19: when every row of [Y] the loop reads has a digit label and no
    regular file of the output is named after a digit, the digit part of
    the script completes and every image [X[j]] is in the folder of its
    label under [f"{label}{k}.jpg"], [k] the number of images of that label
    up to [j]: no image overwrites another. *)
Theorem extract_digits_saves_all {A : Type} `{ImageEncoder A} (X : list A) Y root :
  digit_rows_ok (List.length X) Y → digit_dirs_free root →
  ∃ root', extract_digits X Y root = Ok root' ∧
    ∀ j x d, X !! j = Some x → row_label Y j = Ok d →
      ∃ folder, root' !! str_nat d = Some (NDir folder) ∧
        folder !! digit_file_name d (rank Y d j) = Some (save_jpeg x).
Proof. apply extract_digits_result. Qed.

(** No two digit images of a run get the same file name, even in
    different folders (the name starts with the one-character label), so
    gathering all classes in one folder, as the splitter does, loses none
    of them. *)
Theorem digit_names_unique Y j1 j2 d1 d2 :
  row_label Y j1 = Ok d1 → row_label Y j2 = Ok d2 → (d1 < 10)%nat → (d2 < 10)%nat →
  digit_file_name d1 (rank Y d1 j1) = digit_file_name d2 (rank Y d2 j2) → j1 = j2.
Proof.
  intros H1 H2 Hd1 Hd2 Heq. apply digit_file_name_inj in Heq as [<- Heq]; [|done|done].
  by apply (rank_inj Y d1).
Qed.

(** ** The alphabet copy: lines 49-69 *)

(** The letters variant's [image_extraction.py], lines 20-40, is the same
    loop over the same kind of tree. *)
Definition extract_asl_letters `{DirLister} `{PilConverter} (src root : gmap string node)
    : res (gmap string node) :=
  extract_asl src root.

(** [root'] keeps every folder of [root] and every file in it. *)
Definition tree_incl (root root' : gmap string node) : Prop :=
  ∀ d dst, root !! d = Some (NDir dst) →
    ∃ dst', root' !! d = Some (NDir dst') ∧ dst ⊆ dst'.

Lemma tree_incl_refl root : tree_incl root root.
Proof. intros d dst Hd. eauto. Qed.

Lemma tree_incl_trans r1 r2 r3 : tree_incl r1 r2 → tree_incl r2 r3 → tree_incl r1 r3.
Proof.
  intros H12 H23 d dst Hd. destruct (H12 d dst Hd) as (dst2 & Hd2 & Hs2).
  destruct (H23 d dst2 Hd2) as (dst3 & Hd3 & Hs3). exists dst3. split; [done|].
  by transitivity dst2.
Qed.

Lemma makedirs_incl root name root' :
  makedirs_exist_ok root name = Ok root' → tree_incl root root' ∧ ∃ dst, root' !! name = Some (NDir dst).
Proof.
  unfold makedirs_exist_ok. destruct (root !! name) as [[c|f]|] eqn:E; intros Hr; simplify_eq.
  - split; [apply tree_incl_refl | eauto].
  - split; [|rewrite lookup_insert_eq; eauto].
    intros d dst Hd. rewrite lookup_insert_ne by congruence. eauto.
Qed.

Section asl_facts.
Context `{DirLister} `{PilConverter}.

(** One file: the copy adds the converted file when it is not there yet. *)
Lemma copy_asl_file_cases src_folder d root f root' :
  copy_asl_file src_folder d root f = Ok root' →
  ∃ dst, root !! d = Some (NDir dst) ∧
    (root' = root ∨ file_exists dst f = false ∧
       ∃ c, src_folder !! f ≫= pil_convert = Some c ∧ root' = <[d := NDir (<[f := c]> dst)]> root).
Proof.
  unfold copy_asl_file. destruct (root !! d) as [[c|dst]|] eqn:E; try discriminate.
  intros Hr. exists dst. split; [done|].
  destruct (file_exists dst f) eqn:Ef; [injection Hr; auto|].
  destruct (src_folder !! f ≫= pil_convert) as [c|] eqn:Ec; [|injection Hr; auto].
  unfold save_file in Hr. rewrite E in Hr. injection Hr as <-. right. eauto.
Qed.

Lemma copy_asl_file_incl src_folder d root f root' :
  copy_asl_file src_folder d root f = Ok root' → tree_incl root root'.
Proof.
  intros (dst & Hd & [->|(Hnew & c & _ & ->)])%copy_asl_file_cases; [apply tree_incl_refl|].
  intros d' dst' Hd'. destruct (decide (d' = d)) as [->|Hne].
  - rewrite Hd in Hd'. injection Hd' as <-. rewrite lookup_insert_eq.
    eexists; split; [done|]. apply insert_subseteq. unfold file_exists in Hnew.
    apply bool_decide_eq_false in Hnew. by apply eq_None_not_Some.
  - rewrite lookup_insert_ne by done. eauto.
Qed.

Lemma py_for_incl {B} (body : gmap string node → B → res (gmap string node)) xs root root' :
  (∀ r x r', body r x = Ok r' → tree_incl r r') →
  py_for body xs root = Ok root' → tree_incl root root'.
Proof.
  intros Hb. apply (py_for_invariant body (tree_incl root)); [|apply tree_incl_refl].
  intros t x t' _ Ht Hstep. eapply tree_incl_trans; [done|]. by eapply Hb.
Qed.

Lemma copy_asl_folder_incl src root d root' :
  copy_asl_folder src root d = Ok root' → tree_incl root root'.
Proof.
  unfold copy_asl_folder. destruct (src !! d) as [[c|sf]|]; try (intros [= <-]; apply tree_incl_refl).
  intros (r & Hmk & Hrun)%res_bind_Ok_inv. apply makedirs_incl in Hmk as [Hi _].
  eapply tree_incl_trans; [done|]. eapply py_for_incl; [|done]. apply copy_asl_file_incl.
Qed.

(** The alphabet copy never changes or removes a file that exists:
    every folder of the output keeps all its files with their contents. *)
Theorem extract_asl_keeps_files src root root' :
  extract_asl src root = Ok root' →
  ∀ d dst f c, root !! d = Some (NDir dst) → dst !! f = Some c →
    ∃ dst', root' !! d = Some (NDir dst') ∧ dst' !! f = Some c.
Proof.
  intros Hrun d dst f c Hd Hf.
  destruct (py_for_incl _ _ _ _ (copy_asl_folder_incl src) Hrun d dst Hd) as (dst' & Hd' & Hs).
  exists dst'. split; [done|]. by eapply lookup_weaken.
Qed.

(** ** Idempotence of the alphabet copy *)

(** The image [f] of [src_folder] needs no more work in the folder [d]: it
    is there, or its conversion raises. *)
Definition asl_file_done (src_folder : gmap string string) (d f : string)
    (root : gmap string node) : Prop :=
  ∃ dst, root !! d = Some (NDir dst) ∧
    (file_exists dst f = true ∨ src_folder !! f ≫= pil_convert = None).

Lemma asl_file_done_mono src_folder d f r r' :
  tree_incl r r' → asl_file_done src_folder d f r → asl_file_done src_folder d f r'.
Proof.
  intros Hi (dst & Hd & Hf). destruct (Hi d dst Hd) as (dst' & Hd' & Hs).
  exists dst'. split; [done|]. destruct Hf as [Hf|Hf]; [left|by right].
  unfold file_exists in *. apply bool_decide_eq_true in Hf as [c Hc].
  apply bool_decide_eq_true. exists c. by eapply lookup_weaken.
Qed.

Lemma copy_asl_file_done src_folder d root f root' :
  copy_asl_file src_folder d root f = Ok root' → asl_file_done src_folder d f root'.
Proof.
  unfold copy_asl_file. destruct (root !! d) as [[c|dst]|] eqn:E; try discriminate.
  destruct (file_exists dst f) eqn:Ef; [intros [= <-]; exists dst; auto|].
  destruct (src_folder !! f ≫= pil_convert) as [c|] eqn:Ec; [|intros [= <-]; exists dst; auto].
  unfold save_file. rewrite E. intros [= <-]. exists (<[f := c]> dst).
  rewrite lookup_insert_eq. split; [done|]. left. apply bool_decide_eq_true.
  rewrite lookup_insert_eq. eauto.
Qed.

Lemma copy_asl_files_done src_folder d fs root root' :
  py_for (copy_asl_file src_folder d) fs root = Ok root' →
  ∀ f, f ∈ fs → asl_file_done src_folder d f root'.
Proof.
  revert root; induction fs as [|f0 fs IH]; intros root Hrun f Hf;
    [by apply not_elem_of_nil in Hf|].
  cbn [py_for] in Hrun. apply res_bind_Ok_inv in Hrun as (r & Hr & Hrest).
  apply elem_of_cons in Hf as [->|Hf]; [|by eapply IH].
  eapply asl_file_done_mono; [|by eapply copy_asl_file_done].
  eapply py_for_incl; [apply copy_asl_file_incl|done].
Qed.

(** Every image of the source folder [d] needs no more work. *)
Definition asl_folder_done (src : gmap string node) (d : string) (root : gmap string node) : Prop :=
  ∀ src_folder, src !! d = Some (NDir src_folder) →
    (∃ dst, root !! d = Some (NDir dst)) ∧
    ∀ f, f ∈ asl_image_files src_folder → asl_file_done src_folder d f root.

Lemma asl_folder_done_mono src d r r' :
  tree_incl r r' → asl_folder_done src d r → asl_folder_done src d r'.
Proof.
  intros Hi Hdone sf Hsf. destruct (Hdone sf Hsf) as ([dst Hdst] & Hfiles). split.
  - destruct (Hi d dst Hdst) as (dst' & ? & _). eauto.
  - intros f Hf. eapply asl_file_done_mono; [done|]. by apply Hfiles.
Qed.

Lemma copy_asl_folder_done src root d root' :
  copy_asl_folder src root d = Ok root' → asl_folder_done src d root'.
Proof.
  intros Hrun sf Hsf. unfold copy_asl_folder in Hrun. rewrite Hsf in Hrun.
  apply res_bind_Ok_inv in Hrun as (r & Hmk & Hrun).
  apply makedirs_incl in Hmk as [_ [dst Hdst]]. split.
  - destruct (py_for_incl _ _ _ _ (copy_asl_file_incl sf d) Hrun d dst Hdst) as (dst' & ? & _).
    eauto.
  - by eapply copy_asl_files_done.
Qed.

Lemma extract_loop_done src xs root root' :
  py_for (copy_asl_folder src) xs root = Ok root' → ∀ d, d ∈ xs → asl_folder_done src d root'.
Proof.
  revert root; induction xs as [|d0 xs IH]; intros root Hrun d Hd;
    [by apply not_elem_of_nil in Hd|].
  cbn [py_for] in Hrun. apply res_bind_Ok_inv in Hrun as (r & Hr & Hrest).
  apply elem_of_cons in Hd as [->|Hd]; [|by eapply IH].
  eapply asl_folder_done_mono; [|by eapply copy_asl_folder_done].
  eapply py_for_incl; [apply copy_asl_folder_incl|done].
Qed.

Lemma copy_asl_file_stable src_folder d root f :
  asl_file_done src_folder d f root → copy_asl_file src_folder d root f = Ok root.
Proof.
  intros (dst & Hd & Hf). unfold copy_asl_file. rewrite Hd.
  destruct (file_exists dst f) eqn:Ef; [done|]. destruct Hf as [Hf|Hc]; [congruence|].
  by rewrite Hc.
Qed.

Lemma copy_asl_folder_stable src root d :
  asl_folder_done src d root → copy_asl_folder src root d = Ok root.
Proof.
  unfold copy_asl_folder. destruct (src !! d) as [[c|sf]|] eqn:E; try done.
  intros Hdone. destruct (Hdone sf E) as ([dst Hdst] & Hfiles).
  unfold makedirs_exist_ok. rewrite Hdst, res_bind_Ok. apply py_for_fixed.
  intros f Hf. by apply copy_asl_file_stable, Hfiles.
Qed.

(** C20: running the alphabet copy a second time changes nothing: after a
    run every image of the source is in the output or fails to convert,
    and the [os.path.exists] test skips what is there. *)
Theorem extract_asl_idempotent src root root' :
  extract_asl src root = Ok root' → extract_asl src root' = Ok root'.
Proof.
  unfold extract_asl. intros Hrun. apply py_for_fixed. intros d Hd.
  apply copy_asl_folder_stable. by eapply extract_loop_done.
Qed.
End asl_facts.

(** ** [np.argmax] against a reference definition *)

(** The index [i] holds the first maximum of [row]: no element is
    greater, and every earlier one is smaller. *)
Definition first_max (row : list Q) (i : nat) : Prop :=
  ∃ x, row !! i = Some x ∧ (∀ j y, row !! j = Some y → y <= x) ∧
    (∀ j y, (j < i)%nat → row !! j = Some y → y < x).

(** The reference: test every index against every other one and take the
    first that passes. *)
Definition is_first_max (row : list Q) (i : nat) : bool :=
  match row !! i with
  | Some x =>
      forallb (λ j, match row !! j with
                    | Some y => if (j <? i)%nat then Qltb y x else Qle_bool y x
                    | None => true
                    end) (seq 0 (List.length row))
  | None => false
  end.

Definition argmax_ref (row : list Q) : option nat :=
  find (is_first_max row) (seq 0 (List.length row)).

Lemma is_first_max_spec row i : is_first_max row i = true ↔ first_max row i.
Proof.
  unfold is_first_max, first_max. destruct (row !! i) as [x|] eqn:Hi; [|naive_solver].
  rewrite forallb_forall. split.
  - intros Hall. exists x. split_and!; [done| |].
    + intros j y Hj. assert (Hin : In j (seq 0 (List.length row)))
        by (apply in_seq; apply lookup_lt_Some in Hj; lia).
      specialize (Hall j Hin). rewrite Hj in Hall.
      destruct (j <? i)%nat; [apply Qltb_spec in Hall; lra | by apply Qle_bool_iff].
    + intros j y Hlt Hj. assert (Hin : In j (seq 0 (List.length row)))
        by (apply in_seq; apply lookup_lt_Some in Hj; lia).
      specialize (Hall j Hin). rewrite Hj, (proj2 (Nat.ltb_lt j i) Hlt) in Hall.
      by apply Qltb_spec.
  - intros (x' & [= <-] & Hle & Hlt) j _. destruct (row !! j) as [y|] eqn:Hj; [|done].
    destruct (j <? i)%nat eqn:E.
    + apply Qltb_spec. apply Nat.ltb_lt in E. eauto.
    + apply Qle_bool_iff. eauto.
Qed.

(** The first maximum is unique. *)
Lemma first_max_unique row i i' : first_max row i → first_max row i' → i = i'.
Proof.
  intros (x & Hx & Hle & Hlt) (x' & Hx' & Hle' & Hlt').
  destruct (Nat.lt_total i i') as [H|[H|H]]; [|done|].
  - specialize (Hlt' i x H Hx). specialize (Hle i' x' Hx'). lra.
  - specialize (Hlt i' x' H Hx'). specialize (Hle' i x Hx). lra.
Qed.

(** The loop of [np.argmax] keeps the first maximum of the prefix it has
    read. *)
Lemma argmax_go_first_max p row' best_i best :
  p !! best_i = Some best → first_max p best_i →
  first_max (p ++ row') (argmax_go row' (List.length p) best_i best).
Proof.
  revert p best_i best. induction row' as [|x row' IH]; intros p best_i best Hb Hfm.
  { by rewrite app_nil_r. }
  simpl. rewrite cons_middle, app_assoc.
  destruct (Qltb best x) eqn:Hbx.
  - apply Qltb_spec in Hbx.
    replace (S (List.length p)) with (List.length (p ++ [x])) by (rewrite length_app; simpl; lia).
    apply IH; [by rewrite lookup_app_r, Nat.sub_diag by lia|].
    destruct Hfm as (b & Hb' & Hle & _). rewrite Hb in Hb'. injection Hb' as <-.
    exists x. split_and!; [by rewrite lookup_app_r, Nat.sub_diag by lia| |].
    + intros j y Hj. apply lookup_app_Some in Hj as [Hj|[Hl Hj]].
      * specialize (Hle j y Hj). lra.
      * apply list_lookup_singleton_Some in Hj as [_ <-]. lra.
    + intros j y Hlt Hj. rewrite lookup_app_l in Hj by done. specialize (Hle j y Hj). lra.
  - apply Qltb_false in Hbx.
    replace (S (List.length p)) with (List.length (p ++ [x])) by (rewrite length_app; simpl; lia).
    apply IH; [by apply lookup_app_l_Some|].
    destruct Hfm as (b & Hb' & Hle & Hlt). rewrite Hb in Hb'. injection Hb' as <-.
    exists best. split_and!; [by apply lookup_app_l_Some| |].
    + intros j y Hj. apply lookup_app_Some in Hj as [Hj|[Hl Hj]]; [eauto|].
      apply list_lookup_singleton_Some in Hj as [_ <-]. done.
    + intros j y Hlt' Hj. apply lookup_app_Some in Hj as [Hj|[Hl Hj]]; [eauto|].
      apply lookup_lt_Some in Hb. lia.
Qed.

Lemma py_argmax_first_max row i : py_argmax row = Ok i → first_max row i.
Proof.
  destruct row as [|x row]; simpl; [done|]. intros [= <-].
  apply (argmax_go_first_max [x] row 0 x); [done|].
  exists x. split_and!; [done| |lia].
  intros j y Hj. apply list_lookup_singleton_Some in Hj as [_ <-]. lra.
Qed.

(** [np.argmax] as the code uses it (one pass keeping the first
    maximum, [ValueError] on an empty row) is the reference definition: the
    first index whose element is at least every element and greater than
    every earlier one. *)
Theorem py_argmax_ref row :
  py_argmax row = match argmax_ref row with Some i => Ok i | None => Raise ValueError end.
Proof.
  unfold argmax_ref. destruct (find (is_first_max row) _) as [i|] eqn:Hf.
  - apply find_some in Hf as [_ Hi]. apply is_first_max_spec in Hi.
    destruct row as [|x row']; [by destruct Hi as (? & ? & _)|].
    assert (Hj := py_argmax_first_max (x :: row') _ eq_refl).
    simpl. f_equal. apply (first_max_unique (x :: row')); [exact Hj | exact Hi].
  - destruct row as [|x row']; [done|].
    assert (Hj := py_argmax_first_max (x :: row') _ eq_refl).
    assert (Hin : In (argmax_go row' 1 0 x) (seq 0 (List.length (x :: row')))).
    { apply in_seq. destruct Hj as (y & Hy & _). apply lookup_lt_Some in Hy. lia. }
    apply (find_none _ _ Hf) in Hin. apply not_true_iff_false in Hin.
    by destruct Hin; apply is_first_max_spec.
Qed.

(** ** Decidable checks and witnesses *)

Definition digit_rows_ok_b (n : nat) (Y : list (list Q)) : bool :=
  forallb (λ j, match row_label Y j with Ok d => (d <? 10)%nat | Raise _ => false end) (seq 0 n).

Lemma digit_rows_ok_b_sound n Y : digit_rows_ok_b n Y = true → digit_rows_ok n Y.
Proof.
  unfold digit_rows_ok_b. rewrite forallb_forall. intros Hall j Hj.
  assert (Hin : In j (seq 0 n)) by (apply in_seq; lia).
  specialize (Hall j Hin). destruct (row_label Y j) as [d|]; [|done].
  apply Nat.ltb_lt in Hall. eauto.
Qed.

Definition digit_dirs_free_b (root : gmap string node) : bool :=
  forallb (λ d, match root !! str_nat d with Some (NFile _) => false | _ => true end) (seq 0 10).

Lemma digit_dirs_free_b_sound root : digit_dirs_free_b root = true → digit_dirs_free root.
Proof.
  unfold digit_dirs_free_b. rewrite forallb_forall. intros Hall d c Hd E.
  assert (Hin : In d (seq 0 10)) by (apply in_seq; lia).
  specialize (Hall d Hin). by rewrite E in Hall.
Qed.

(** A digit image is a string; its saved bytes are tagged. *)
#[local] Instance string_encoder : ImageEncoder string := {| save_jpeg x := "jpeg:" ++ x |}.
(** An alphabet image converts unless it is ["broken"]. *)
#[local] Instance tag_converter : PilConverter :=
  {| pil_convert s := if String.eqb s "broken" then None else Some ("rgb:" ++ s) |}.
#[local] Existing Instance map_order_lister.

(** The one-hot row of a digit. *)
Definition one_hot (d : nat) : list Q := map (λ i, if decide (i = d) then 1 else 0) (seq 0 10).

Definition sample_X : list string := ["three"; "three again"; "seven"].
Definition sample_Y : list (list Q) := [one_hot 3; one_hot 3; one_hot 7].

Lemma extract_digits_saves_all_witness :
  ∃ root', extract_digits sample_X sample_Y ∅ = Ok root' ∧
    ∀ j x d, sample_X !! j = Some x → row_label sample_Y j = Ok d →
      ∃ folder, root' !! str_nat d = Some (NDir folder) ∧
        folder !! digit_file_name d (rank sample_Y d j) = Some (save_jpeg x).
Proof.
  apply extract_digits_saves_all.
  - apply digit_rows_ok_b_sound. vm_compute. reflexivity.
  - apply digit_dirs_free_b_sound. vm_compute. reflexivity.
Defined.


(** An alphabet source with one folder [A] of three images, one of which
    fails to convert, and an output that already holds [a1.jpg]. *)
Definition asl_src : gmap string node :=
  <["A" := NDir (<["a1.jpg" := "hand1"]> (<["a2.png" := "hand2"]>
                 (<["a3.jpg" := "broken"]> (<["notes.txt" := "x"]> ∅))))]> ∅.

Definition asl_out : gmap string node := <["A" := NDir (<["a1.jpg" := "old"]> ∅)]> ∅.

Definition asl_run : gmap string node :=
  match extract_asl asl_src asl_out with Ok r => r | Raise _ => ∅ end.

Lemma extract_asl_keeps_files_witness :
  ∃ dst', asl_run !! "A" = Some (NDir dst') ∧ dst' !! "a1.jpg" = Some "old".
Proof.
  apply (extract_asl_keeps_files asl_src asl_out asl_run)
    with (dst := <["a1.jpg" := "old"]> ∅); vm_compute; reflexivity.
Defined.

Lemma extract_asl_idempotent_witness : extract_asl asl_src asl_run = Ok asl_run.
Proof. apply (extract_asl_idempotent asl_src asl_out). vm_compute. reflexivity. Defined.
