(* ===== verification/Labeling.v ===== *)
(** * The labeling pass of the combined variant

    [src/asl+sign digits detection/project_code/bounding_box_generation.py],
    lines 31-78: for every entry of [data/yolo_images] that is a folder and
    a known class, for every image file of it (by the extension test), read
    the image, run the hand detector and, if a hand is found, write the
    label line to [<stem>.txt] in the same folder.

    - [label_image]: one iteration of the inner loop (lines 43-78);
    - [label_folder]: the inner loop over [image_files] (lines 40-78);
    - [label_class_folder]: one iteration of the outer loop (lines 31-41);
    - [label_pass]: the whole script's loop (lines 31-78).
    The collaborators are the [DirLister], [ImageCodec] and
    [HandLandmarker] of [FileSystem].

    The theorems characterise the folder the pass leaves ([label_of] is the
    abstract specification: the line each image gets), show that images
    are never touched, that unknown folders and plain files are left alone,
    that the pass always completes, and that it is idempotent when no two
    images share a stem; with a shared stem the label depends on the
    listing order. *)

From S2P Require Import Prelude PyStr Vocabulary BoxDeriver LabelWriter FileSystem.

(** ** Writing label files *)

(** Image files are never written: their label file is not an image. *)
Lemma label_file_ne_image f g : is_image_name g = true → label_file_name f ≠ g.
Proof.
  intros Hg Heq. unfold label_file_name in Heq. rewrite <- Heq, txt_not_image in Hg.
  discriminate.
Qed.

(** The inner loops of both variants write, for an image [f], the line
    [line_of folder f] (if any) to the label file of [f]; [line_of] reads
    the image file only. *)
Section label_writes.
Context (line_of : gmap string string → string → option string).

Definition write_label (folder : gmap string string) (f : string) : gmap string string :=
  match line_of folder f with
  | Some line => <[label_file_name f := line]> folder
  | None => folder
  end.

(** A step writes only the label file of its image. *)
Lemma write_label_lookup_ne s f n :
  label_file_name f ≠ n → write_label s f !! n = s !! n.
Proof.
  intros Hne. unfold write_label. destruct (line_of _ _); [|done].
  by rewrite lookup_insert_ne.
Qed.

Lemma write_label_lookup_eq s f :
  write_label s f !! label_file_name f = line_of s f ∪ s !! label_file_name f.
Proof.
  unfold write_label. destruct (line_of _ _).
  - rewrite lookup_insert_eq. by destruct (s !! label_file_name f).
  - by destruct (s !! label_file_name f).
Qed.

Lemma write_labels_lookup_other fs s n :
  (∀ f, f ∈ fs → label_file_name f ≠ n) → foldl write_label s fs !! n = s !! n.
Proof.
  revert s; induction fs as [|f fs IH]; intros s Hfs; simpl; [done|].
  rewrite IH by set_solver. apply write_label_lookup_ne. set_solver.
Qed.

(** Every entry the loop adds or changes is the label file of one of its
    images, holding a line [line_of] gave. *)
Lemma write_labels_values fs s n v :
  foldl write_label s fs !! n = Some v →
  s !! n = Some v ∨ ∃ f s', f ∈ fs ∧ n = label_file_name f ∧ line_of s' f = Some v.
Proof.
  revert s; induction fs as [|f fs IH]; intros s Hv; simpl in Hv; [by left|].
  destruct (IH _ Hv) as [H1|(g & s' & Hg & -> & Hl)]; [|right; exists g, s'; set_solver].
  unfold write_label in H1. destruct (line_of s f) as [line|] eqn:Hl; [|by left].
  destruct (decide (n = label_file_name f)) as [->|Hne].
  - rewrite lookup_insert_eq in H1. injection H1 as <-. right. exists f, s. set_solver.
  - rewrite lookup_insert_ne in H1 by done. by left.
Qed.

Lemma write_labels_lookup_image fs s g :
  is_image_name g = true → foldl write_label s fs !! g = s !! g.
Proof. intros Hg. apply write_labels_lookup_other. intros f _. by apply label_file_ne_image. Qed.

Hypothesis line_of_reads_image : ∀ s1 s2 f, s1 !! f = s2 !! f → line_of s1 f = line_of s2 f.

(** The label file of the one image [f] of [fs] it belongs to. *)
Lemma write_labels_lookup_label fs s f :
  NoDup fs → Forall (λ g, is_image_name g = true) fs → f ∈ fs →
  (∀ g, g ∈ fs → label_file_name g = label_file_name f → g = f) →
  foldl write_label s fs !! label_file_name f = line_of s f ∪ s !! label_file_name f.
Proof.
  revert s; induction fs as [|f0 fs IH]; intros s Hnd Him Hin Huniq; [set_solver|].
  apply NoDup_cons in Hnd as [Hf0 Hnd]. apply Forall_cons in Him as [Him0 Him].
  simpl. destruct (decide (f0 = f)) as [->|Hne].
  - rewrite write_labels_lookup_other.
    + apply write_label_lookup_eq.
    + intros g Hg Heq. apply Hf0. rewrite <- (Huniq g) by set_solver. done.
  - rewrite IH; [|done|done|set_solver|intros; apply Huniq; set_solver].
    rewrite (line_of_reads_image _ s); [|apply write_label_lookup_ne, label_file_ne_image;
      rewrite Forall_forall in Him; apply Him; set_solver].
    rewrite write_label_lookup_ne; [done|]. intros Heq. apply Hne, Huniq; [set_solver|done].
Qed.

(** Without a condition on stems: a file [n] ends up holding the line of
    the last image of [fs] whose label file is [n] and for which [line_of]
    gives one, or what it held before. *)
Lemma write_labels_last fs s n :
  Forall (λ g, is_image_name g = true) fs →
  foldl write_label s fs !! n =
    last (omap (line_of s) (filter (λ g, label_file_name g = n) fs)) ∪ s !! n.
Proof.
  revert s; induction fs as [|f fs IH]; intros s Him; simpl; [by destruct (s !! n)|].
  apply Forall_cons in Him as [Hf Him]. rewrite IH by done.
  set (hits := filter (λ g, label_file_name g = n) fs).
  rewrite (list_omap_ext (line_of (write_label s f)) (line_of s) hits hits).
  2:{ apply Forall_Forall2_diag, Forall_forall. intros g [_ Hg]%list_elem_of_filter.
      apply line_of_reads_image, write_label_lookup_ne, label_file_ne_image.
      by rewrite Forall_forall in Him; apply Him. }
  rewrite filter_cons. destruct (decide (label_file_name f = n)) as [<-|Hne].
  - rewrite write_label_lookup_eq. simpl. destruct (line_of s f) as [v|]; simpl.
    + rewrite last_cons. by destruct (last _), (s !! _).
    + by destruct (last _), (s !! _).
  - by rewrite write_label_lookup_ne.
Qed.
End label_writes.

Section labeling.
Context `{DirLister} {img : Type} `{ImageCodec img} `{HandLandmarker img}.

(** ** The pass *)

(** Lines 44-78 for one [image_file] of a folder with class [class_id]:
<<
    image = cv2.imread(image_path)
    if image is None: print(...); continue
    h, w, _ = image.shape
    results = hands.process(cv2.cvtColor(image, cv2.COLOR_BGR2RGB))
    if not results.multi_hand_landmarks: continue
    ... box of results.multi_hand_landmarks[0] ...
    with open(txt_path, "w") as f: f.write(yolo_line)
>> *)
Definition label_image (class_id : nat) (folder : gmap string string) (image_file : string)
    : res (gmap string string) :=
  match folder !! image_file ≫= imread with
  | None => Ok folder
  | Some image =>
      let '(h, w) := image_shape image in
      match hands_process image with
      | None | Some [] => Ok folder
      | Some (hd :: _) =>
          b ← derive_box_trunc w h hd;
          mret (<[label_file_name image_file := yolo_line class_id b]> folder)
      end
  end.

(** Lines 41-43:
<<
    image_files = [f for f in os.listdir(class_path) if f.lower().endswith(('.jpg', '.jpeg', '.png'))]
    for image_file in image_files: ...
>> *)
Definition label_folder (class_id : nat) (folder : gmap string string)
    : res (gmap string string) :=
  py_for (label_image class_id) (filter (λ f, is_image_name f = true) (listdir_folder folder))
    folder.

(** Lines 32-41 for one entry [class_folder] of [IMAGE_DIR]:
<<
    if not os.path.isdir(class_path): continue
    if class_folder not in class_map: print(...); continue
    class_id = class_map[class_folder]
>> *)
Definition label_class_folder (root : gmap string node) (class_folder : string)
    : res (gmap string node) :=
  match root !! class_folder with
  | Some (NDir folder) =>
      match Combined.class_map !! class_folder with
      | None => Ok root
      | Some class_id =>
          folder' ← label_folder class_id folder;
          mret (<[class_folder := NDir folder']> root)
      end
  | _ => Ok root
  end.

(** Line 31: [for class_folder in os.listdir(IMAGE_DIR): ...]. *)
Definition label_pass (root : gmap string node) : res (gmap string node) :=
  py_for label_class_folder (listdir_tree root) root.

(** ** The abstract specification of one image *)

(** The label line the pass writes for [image_file] of [folder], if any:
    the image decodes and a hand is found. *)
Definition label_of (class_id : nat) (folder : gmap string string) (image_file : string)
    : option string :=
  image ← folder !! image_file ≫= imread;
  let '(h, w) := image_shape image in
  match hands_process image with
  | Some (hd :: _) =>
      match derive_box_trunc w h hd with Ok b => Some (yolo_line class_id b) | Raise _ => None end
  | _ => None
  end.

(** An image file of a folder: present, and taken by the extension test. *)
Definition image_in (folder : gmap string string) (f : string) : Prop :=
  is_Some (folder !! f) ∧ is_image_name f = true.

(** No two image files of the folder share a label file. *)
Definition unique_stems (folder : gmap string string) : Prop :=
  ∀ f1 f2, image_in folder f1 → image_in folder f2 →
    label_file_name f1 = label_file_name f2 → f1 = f2.

(** One step of the inner loop, written with [label_of]. *)
Definition label_step (class_id : nat) : gmap string string → string → gmap string string :=
  write_label (label_of class_id).

(** ** One image *)

Lemma label_image_eq class_id folder f :
  label_image class_id folder f = Ok (label_step class_id folder f).
Proof.
  unfold label_image, label_step, write_label, label_of.
  destruct (folder !! f ≫= imread) as [image|]; simpl; [|done].
  destruct (image_shape image) as [h w].
  destruct (hands_process image) as [[|hd hs]|] eqn:E; try done.
  apply hands_21, Forall_cons in E as [Hlen _].
  destruct (derive_box_trunc_ok w h hd) as [b ->]; [by intros ->|done].
Qed.

Lemma label_images_foldl class_id fs folder :
  py_for (label_image class_id) fs folder = Ok (foldl (label_step class_id) folder fs).
Proof.
  revert folder; induction fs as [|f fs IH]; intros folder; simpl; [done|].
  rewrite label_image_eq. apply IH.
Qed.

(** What [label_of] reads: the image file only. *)
Lemma label_of_lookup class_id s1 s2 f :
  s1 !! f = s2 !! f → label_of class_id s1 f = label_of class_id s2 f.
Proof. unfold label_of. by intros ->. Qed.

Lemma label_steps_lookup_label class_id fs s f :
  NoDup fs → Forall (λ g, is_image_name g = true) fs → f ∈ fs →
  (∀ g, g ∈ fs → label_file_name g = label_file_name f → g = f) →
  foldl (label_step class_id) s fs !! label_file_name f
    = label_of class_id s f ∪ s !! label_file_name f.
Proof. apply write_labels_lookup_label, label_of_lookup. Qed.

(** ** One folder *)

(** [image_files] of line 41. *)
Definition image_files (folder : gmap string string) : list string :=
  filter (λ f, is_image_name f = true) (listdir_folder folder).

Lemma image_files_elem folder f : f ∈ image_files folder ↔ image_in folder f.
Proof.
  unfold image_files, image_in. rewrite list_elem_of_filter, listdir_folder_elem. tauto.
Qed.

Lemma image_files_NoDup folder : NoDup (image_files folder).
Proof. apply NoDup_filter, listdir_folder_NoDup. Qed.

Lemma image_files_images folder : Forall (λ g, is_image_name g = true) (image_files folder).
Proof. apply Forall_forall. intros f Hf. by apply image_files_elem in Hf as [_ ?]. Qed.

Lemma label_folder_eq class_id folder :
  label_folder class_id folder = Ok (foldl (label_step class_id) folder (image_files folder)).
Proof. apply label_images_foldl. Qed.

(** The folder the inner loop leaves, file by file. *)
Lemma label_folder_result class_id folder :
  unique_stems folder →
  ∃ folder', label_folder class_id folder = Ok folder' ∧
    (∀ f, image_in folder f →
       folder' !! label_file_name f = label_of class_id folder f ∪ folder !! label_file_name f) ∧
    (∀ n, (∀ f, image_in folder f → label_file_name f ≠ n) → folder' !! n = folder !! n).
Proof.
  intros Huniq. eexists; split; [apply label_folder_eq|]. split.
  - intros f Hf. apply label_steps_lookup_label.
    + apply image_files_NoDup.
    + apply image_files_images.
    + by apply image_files_elem.
    + intros g Hg Heq. apply Huniq; [by apply image_files_elem | done | done].
  - intros n Hn. apply write_labels_lookup_other.
    intros f Hf. apply Hn. by apply image_files_elem.
Qed.

(** The inner loop of the labeling script always completes, and the
    folder it leaves is specified by [label_of]: the label file of each
    image holds the line [label_of] gives for it (or what it held before,
    when the image does not decode or shows no hand), provided no two
    images share a stem; every other file, images included, is unchanged. *)
Theorem label_folder_spec class_id folder :
  unique_stems folder →
  ∃ folder', label_folder class_id folder = Ok folder' ∧
    (∀ f, image_in folder f →
       folder' !! label_file_name f = label_of class_id folder f ∪ folder !! label_file_name f) ∧
    (∀ n, (∀ f, image_in folder f → label_file_name f ≠ n) → folder' !! n = folder !! n).
Proof. apply label_folder_result. Qed.

(** C28: whatever the stems, the inner loop completes and every file [n]
    of the folder it leaves holds the line of the LAST image in
    [os.listdir] order whose label file is [n] and in which a hand is
    found, or what it held before when there is none: images sharing a
    stem overwrite each other's label in listing order. *)
Theorem label_folder_last_writer class_id folder n :
  ∃ folder', label_folder class_id folder = Ok folder' ∧
    folder' !! n = last (omap (label_of class_id folder)
                           (filter (λ g, label_file_name g = n) (image_files folder)))
                   ∪ folder !! n.
Proof.
  eexists; split; [apply label_folder_eq|].
  apply write_labels_last; [apply label_of_lookup | apply image_files_images].
Qed.

(** The images of the folder the pass leaves are those it found. *)
Lemma label_folder_images class_id folder folder' g :
  label_folder class_id folder = Ok folder' → is_image_name g = true → folder' !! g = folder !! g.
Proof.
  rewrite label_folder_eq. intros [= <-] Hg. by apply write_labels_lookup_image.
Qed.

Lemma label_folder_image_in class_id folder folder' f :
  label_folder class_id folder = Ok folder' → image_in folder' f ↔ image_in folder f.
Proof.
  intros Hl. unfold image_in. split; intros [Hs Hi];
    (split; [|done]); by rewrite (label_folder_images _ _ _ _ Hl Hi) in *.
Qed.

(** ** The whole pass *)

(** The folder the inner loop leaves (it always completes). *)
Definition label_folder_total (class_id : nat) (folder : gmap string string)
    : gmap string string :=
  foldl (label_step class_id) folder (image_files folder).

(** What the pass makes of the entry [d] of [IMAGE_DIR]. *)
Definition label_entry (d : string) (n : node) : node :=
  match n with
  | NDir folder =>
      match Combined.class_map !! d with
      | Some class_id => NDir (label_folder_total class_id folder)
      | None => n
      end
  | NFile _ => n
  end.

Definition label_class_step (root : gmap string node) (d : string) : gmap string node :=
  match root !! d with
  | Some n => <[d := label_entry d n]> root
  | None => root
  end.

Lemma label_class_folder_eq root d :
  label_class_folder root d = Ok (label_class_step root d).
Proof.
  unfold label_class_folder, label_class_step.
  destruct (root !! d) as [[c|folder]|] eqn:E.
  - cbn [label_entry]. by rewrite insert_id.
  - cbn [label_entry]. destruct (Combined.class_map !! d).
    + by rewrite label_folder_eq.
    + by rewrite insert_id.
  - done.
Qed.

Lemma label_class_steps_lookup ds root d :
  NoDup ds →
  foldl label_class_step root ds !! d = if decide (d ∈ ds) then label_entry d <$> root !! d
                                        else root !! d.
Proof.
  revert root; induction ds as [|d0 ds IH]; intros root Hnd; cbn [foldl].
  { rewrite decide_False; [done|]. apply not_elem_of_nil. }
  apply NoDup_cons in Hnd as [Hd0 Hnd]. rewrite IH by done.
  unfold label_class_step.
  destruct (decide (d = d0)) as [->|Hne].
  - rewrite (decide_False _ _ Hd0), (decide_True _ _ (list_elem_of_here d0 ds)).
    destruct (root !! d0) eqn:E; [by rewrite lookup_insert_eq | by rewrite E].
  - assert (Hlk : (match root !! d0 with Some n => <[d0 := label_entry d0 n]> root
                  | None => root end) !! d = root !! d)
      by (destruct (root !! d0); [by rewrite lookup_insert_ne | done]).
    rewrite !Hlk. destruct (decide (d ∈ ds)) as [Hin|Hnin].
    + by rewrite (decide_True _ _ (list_elem_of_further _ _ _ Hin)).
    + rewrite decide_False; [done|]. rewrite elem_of_cons. tauto.
Qed.

(** The tree the labeling script leaves, entry by entry. *)
Lemma label_pass_result root :
  ∃ root', label_pass root = Ok root' ∧ ∀ d, root' !! d = label_entry d <$> root !! d.
Proof.
  unfold label_pass. eexists. split.
  - rewrite (py_for_ext label_class_folder (λ r d, Ok (label_class_step r d)))
      by (intros; apply label_class_folder_eq).
    apply py_for_pure.
  - intros d. rewrite label_class_steps_lookup by apply listdir_tree_NoDup.
    case_decide as Hin; [done|].
    assert (root !! d = None) as -> by (apply eq_None_not_Some; by rewrite <- listdir_tree_elem).
    done.
Qed.

(** C4: the labeling script always completes, and it turns each entry of
    [IMAGE_DIR] into [label_entry] of it: known class folders are labeled
    with their class index, unknown folders and plain files are left as
    they are. *)
Theorem label_pass_spec root :
  ∃ root', label_pass root = Ok root' ∧ ∀ d, root' !! d = label_entry d <$> root !! d.
Proof. apply label_pass_result. Qed.

(** The folder the inner loop leaves is a fixed point of the loop, when no
    two images share a stem. *)
Lemma label_folder_total_idempotent class_id folder :
  unique_stems folder →
  label_folder_total class_id (label_folder_total class_id folder) = label_folder_total class_id folder.
Proof.
  intros Huniq.
  enough (Hfix : ∀ folder', label_folder class_id folder = Ok folder' →
                 label_folder class_id folder' = Ok folder').
  { pose proof (Hfix _ (label_folder_eq _ _)) as Hi. rewrite label_folder_eq in Hi.
    by injection Hi. }
  intros folder' Hl.
  destruct (label_folder_result class_id folder Huniq) as (F & HF & Hlab & Hoth).
  rewrite Hl in HF. injection HF as <-.
  assert (Huniq' : unique_stems folder').
  { intros f1 f2 Hf1 Hf2 Heq.
    apply Huniq; [by apply (label_folder_image_in _ _ _ _ Hl)
                 |by apply (label_folder_image_in _ _ _ _ Hl) | done]. }
  assert (Hread : ∀ f, image_in folder f → label_of class_id folder' f = label_of class_id folder f).
  { intros f [_ Hi]. apply label_of_lookup. by eapply label_folder_images. }
  destruct (label_folder_result class_id folder' Huniq') as (F2 & HF2 & Hlab2 & Hoth2).
  rewrite HF2. f_equal. apply map_eq. intros n.
  destruct (decide (Exists (λ f, label_file_name f = n) (image_files folder))) as [Hex|Hnex].
  - apply Exists_exists in Hex as (f & Hf & <-). apply image_files_elem in Hf.
    rewrite Hlab2 by (by apply (label_folder_image_in _ _ _ _ Hl)).
    rewrite Hread, Hlab by done.
    by destruct (label_of _ _ _), (folder !! _).
  - apply Hoth2. intros f Hf Heq. apply Hnex, Exists_exists. exists f. split; [|done].
    apply image_files_elem. by apply (label_folder_image_in _ _ _ _ Hl).
Qed.

(** Relabeling a folder the pass has labeled changes nothing, when no
    two images share a stem (the spec's idempotence property). *)
Theorem label_folder_idempotent class_id folder folder' :
  unique_stems folder → label_folder class_id folder = Ok folder' →
  label_folder class_id folder' = Ok folder'.
Proof.
  intros Huniq Hl. rewrite label_folder_eq in Hl |- *. injection Hl as <-.
  f_equal. by apply label_folder_total_idempotent.
Qed.

Lemma label_entry_idempotent d n :
  (∀ folder, n = NDir folder → unique_stems folder) →
  label_entry d (label_entry d n) = label_entry d n.
Proof.
  intros Hu. destruct n as [c|folder]; [done|]. cbn [label_entry].
  destruct (Combined.class_map !! d) as [class_id|] eqn:Ec; cbn [label_entry]; rewrite ?Ec; [|done].
  f_equal. by apply label_folder_total_idempotent, Hu.
Qed.

(** C10: running the labeling script a second time changes nothing, when
    no class folder has two images with the same stem. *)
Theorem label_pass_idempotent root root' :
  (∀ d folder, root !! d = Some (NDir folder) → unique_stems folder) →
  label_pass root = Ok root' → label_pass root' = Ok root'.
Proof.
  intros Hu Hl. destruct (label_pass_result root) as (r1 & E1 & L1).
  rewrite Hl in E1. injection E1 as <-.
  destruct (label_pass_result root') as (r2 & E2 & L2). rewrite E2. f_equal.
  apply map_eq. intros d. rewrite L2, L1.
  destruct (root !! d) as [n|] eqn:E; [|done].
  change (Some (label_entry d (label_entry d n)) = Some (label_entry d n)).
  f_equal. apply label_entry_idempotent. intros folder ->. by eapply Hu.
Qed.

(** An entry of [IMAGE_DIR] whose name is not a class (such as
    [misc]) is skipped: the script does not raise and leaves it as it
    was. *)
Theorem label_pass_unknown_folder root d n :
  d ∉ Combined.class_names → root !! d = Some n →
  ∃ root', label_pass root = Ok root' ∧ root' !! d = Some n.
Proof.
  intros Hd Hn. destruct (label_pass_result root) as (r & E & L). exists r. split; [done|].
  rewrite L, Hn. change (Some (label_entry d n) = Some n). f_equal.
  destruct n as [c|folder]; [done|]. cbn [label_entry].
  assert (Combined.class_map !! d = None) as -> by (by apply enumerate_dict_None). done.
Qed.

(** The line [label_of] gives is a YOLO line of the class. *)
Lemma label_of_line class_id folder f v :
  label_of class_id folder f = Some v → ∃ b, v = yolo_line class_id b.
Proof.
  unfold label_of. destruct (folder !! f ≫= imread) as [image|]; simpl; [|done].
  destruct (image_shape image). destruct (hands_process image) as [[|hd hs]|]; try done.
  destruct (derive_box_trunc _ _ hd) as [b|]; [|done]. intros [= <-]. eauto.
Qed.

(** C15: the labeling script's output is well-typed: every file it adds or
    changes in a folder of [IMAGE_DIR] is the [.txt] label file of one of
    the folder's images, and holds a YOLO line that parses, whose class
    index is the folder's index in the 39-class vocabulary. *)
Theorem label_pass_typed root root' d folder folder' t v :
  label_pass root = Ok root' → root !! d = Some (NDir folder) →
  root' !! d = Some (NDir folder') → folder' !! t = Some v → folder !! t ≠ Some v →
  ∃ f class_id x y w h,
    image_in folder f ∧ t = label_file_name f ∧
    Combined.class_map !! d = Some class_id ∧ (class_id < 39)%nat ∧
    parse_label_line v = Some (N.of_nat class_id, x, y, w, h).
Proof.
  intros Hl Hd Hd' Ht Hnew. destruct (label_pass_result root) as (r & E & L).
  rewrite Hl in E. injection E as <-. rewrite L, Hd in Hd'.
  change (Some (label_entry d (NDir folder)) = Some (NDir folder')) in Hd'.
  cbn [label_entry] in Hd'.
  destruct (Combined.class_map !! d) as [class_id|] eqn:Hc; injection Hd' as <-; [|done].
  unfold label_folder_total in Ht.
  destruct (write_labels_values _ _ _ _ _ Ht) as [Hold|(f & s' & Hf & -> & Hline)]; [done|].
  apply label_of_line in Hline as [b ->].
  destruct (yolo_line_parse class_id b) as (x & y & w & h & Hp & _).
  exists f, class_id, x, y, w, h. split_and!; [by apply image_files_elem|done|done| |done].
  apply enumerate_dict_lookup, lookup_lt_Some in Hc; [|apply Combined_class_names_NoDup].
  by rewrite Combined_class_names_length in Hc.
Qed.

(** The labeling script never changes an image file: every image of
    every folder reads the same afterwards. *)
Theorem label_pass_preserves_images root root' d folder g :
  label_pass root = Ok root' → root !! d = Some (NDir folder) → is_image_name g = true →
  ∃ folder', root' !! d = Some (NDir folder') ∧ folder' !! g = folder !! g.
Proof.
  intros Hl Hd Hg. destruct (label_pass_result root) as (r & E & L).
  rewrite Hl in E. injection E as <-. rewrite L, Hd.
  change (∃ folder', Some (label_entry d (NDir folder)) = Some (NDir folder') ∧ folder' !! g = folder !! g).
  cbn [label_entry]. destruct (Combined.class_map !! d) as [class_id|].
  - eexists; split; [done|]. by apply write_labels_lookup_image.
  - eauto.
Qed.

(** ** A decidable check of [unique_stems] *)

Lemma NoDup_map_inj_in {A B} (h : A → B) (l : list A) x y :
  NoDup (map h l) → x ∈ l → y ∈ l → h x = h y → x = y.
Proof.
  induction l as [|a l IH]; simpl; [set_solver|]. intros Hnd Hx Hy Hxy.
  apply NoDup_cons in Hnd as [Ha Hnd]. apply elem_of_cons in Hx, Hy.
  destruct Hx as [->|Hx], Hy as [->|Hy]; try done.
  - exfalso. apply Ha. rewrite Hxy. by apply list_elem_of_fmap_2.
  - exfalso. apply Ha. rewrite <- Hxy. by apply list_elem_of_fmap_2.
  - by apply IH.
Qed.

(** No two image files of the folder have the same label file name. *)
Definition stems_unique_b (folder : gmap string string) : bool :=
  bool_decide (NoDup (map label_file_name
    (filter (λ f, is_image_name f = true) (map_to_list folder).*1))).

Lemma stems_unique_b_sound folder : stems_unique_b folder = true → unique_stems folder.
Proof.
  unfold stems_unique_b. rewrite bool_decide_eq_true. intros Hnd f1 f2 [[v1 Hv1] I1] [[v2 Hv2] I2].
  apply (NoDup_map_inj_in _ _ _ _ Hnd); apply list_elem_of_filter; split; try done;
    apply list_elem_of_fmap; eexists (_, _); split; [done| |done|];
    by apply elem_of_map_to_list.
Qed.

Definition tree_stems_unique_b (root : gmap string node) : bool :=
  forallb (λ dn, match dn.2 with NDir folder => stems_unique_b folder | NFile _ => true end)
    (map_to_list root).

Lemma tree_stems_unique_b_sound root :
  tree_stems_unique_b root = true →
  ∀ d folder, root !! d = Some (NDir folder) → unique_stems folder.
Proof.
  unfold tree_stems_unique_b. rewrite forallb_forall. intros Hall d folder Hd.
  apply stems_unique_b_sound. apply elem_of_map_to_list, list_elem_of_In, Hall in Hd. done.
Qed.

End labeling.

(** ** A concrete detector: witnesses and the order dependence of stems *)

(** An image file decodes to its own bytes, as a 416 × 416 image. *)
Definition test_codec : ImageCodec string :=
  {| imread s := Some s; image_shape _ := (416%positive, 416%positive) |}.

(** A hand of 21 landmarks whose leftmost point is at [x]. *)
Definition test_hand (x : Q) : hand :=
  mk_landmark x (1#4) :: replicate 20 (mk_landmark (x + (1#8)) (3#4)).

(** The detector finds a hand in the images ["left"] and ["right"]. *)
Definition test_landmarker : HandLandmarker string.
Proof.
  refine {| hands_process s := if String.eqb s "left" then Some [test_hand (1#4)]
                               else if String.eqb s "right" then Some [test_hand (1#2)]
                               else None |}.
  intros im hs. destruct (String.eqb im "left"); [|destruct (String.eqb im "right")];
    intros H; try discriminate; injection H as <-; repeat constructor.
Defined.

(** A class folder [A] holding [a.jpg] and [a.png], which share the label
    file [a.txt], an unknown folder [misc] and a plain file. *)
Definition shared_stem_root : gmap string node :=
  <["A" := NDir (<["a.jpg" := "left"]> (<["a.png" := "right"]> ∅))]>
  (<["misc" := NDir (<["m.jpg" := "left"]> ∅)]> (<["notes.txt" := NFile "x"]> ∅)).

(** The same tree with a single image in [A]. *)
Definition sample_root : gmap string node :=
  <["A" := NDir (<["a.jpg" := "left"]> (<["b.png" := "right"]> ∅))]>
  (<["misc" := NDir (<["m.jpg" := "left"]> ∅)]> (<["notes.txt" := NFile "x"]> ∅)).

Definition label_file_of (root : gmap string node) (d n : string) : option string :=
  match root !! d with Some (NDir folder) => folder !! n | _ => None end.

(** When two images of a class folder share a stem, their common
    label file holds the box of whichever image [os.listdir] returns last:
    two orders of the same folder leave different labels. *)
Theorem label_pass_shared_stem_order :
  (r ← @label_pass map_order_lister string test_codec test_landmarker shared_stem_root;
   mret (label_file_of r "A" "a.txt")) = Ok (Some "10 0.562500 0.500000 0.125000 0.500000") ∧
  (r ← @label_pass reverse_order_lister string test_codec test_landmarker shared_stem_root;
   mret (label_file_of r "A" "a.txt")) = Ok (Some "10 0.312500 0.500000 0.125000 0.500000").
Proof. split; vm_compute; reflexivity. Qed.

#[local] Existing Instance map_order_lister.
#[local] Instance test_codec_inst : ImageCodec string := test_codec.
#[local] Instance test_landmarker_inst : HandLandmarker string := test_landmarker.

Definition sample_A : gmap string string := <["a.jpg" := "left"]> (<["b.png" := "right"]> ∅).

Lemma label_folder_spec_witness :
  ∃ folder', label_folder 10 sample_A = Ok folder' ∧
    (∀ f, image_in sample_A f →
       folder' !! label_file_name f = label_of 10 sample_A f ∪ sample_A !! label_file_name f) ∧
    (∀ n, (∀ f, image_in sample_A f → label_file_name f ≠ n) → folder' !! n = sample_A !! n).
Proof. apply label_folder_spec, stems_unique_b_sound. vm_compute. reflexivity. Defined.

Lemma label_folder_idempotent_witness :
  ∃ folder', label_folder 10 sample_A = Ok folder' ∧ label_folder 10 folder' = Ok folder'.
Proof.
  eexists; split; [vm_compute; reflexivity|].
  apply (label_folder_idempotent 10 sample_A);
    [apply stems_unique_b_sound; vm_compute | vm_compute]; reflexivity.
Defined.

Lemma label_pass_idempotent_witness :
  ∃ root', label_pass sample_root = Ok root' ∧ label_pass root' = Ok root'.
Proof.
  eexists; split; [vm_compute; reflexivity|].
  apply (label_pass_idempotent sample_root);
    [apply tree_stems_unique_b_sound; vm_compute | vm_compute]; reflexivity.
Defined.

Lemma label_pass_unknown_folder_witness :
  ∃ root', label_pass sample_root = Ok root' ∧
    root' !! "misc" = Some (NDir (<["m.jpg" := "left"]> ∅)).
Proof.
  apply label_pass_unknown_folder; [|vm_compute; reflexivity].
  apply (bool_decide_unpack _). vm_compute. reflexivity.
Defined.

Lemma label_pass_preserves_images_witness :
  ∃ root', label_pass sample_root = Ok root' ∧
    ∃ folder', root' !! "A" = Some (NDir folder') ∧ folder' !! "a.jpg" = Some "left".
Proof.
  eexists; split; [vm_compute; reflexivity|].
  apply (label_pass_preserves_images sample_root _ "A" sample_A "a.jpg");
    vm_compute; reflexivity.
Defined.

Lemma label_pass_typed_witness :
  ∃ f class_id x y w h,
    image_in sample_A f ∧ "a.txt" = label_file_name f ∧
    Combined.class_map !! "A" = Some class_id ∧ (class_id < 39)%nat ∧
    parse_label_line "10 0.312500 0.500000 0.125000 0.500000"
      = Some (N.of_nat class_id, x, y, w, h).
Proof.
  eapply (label_pass_typed sample_root _ "A" sample_A
            (<["a.txt" := "10 0.312500 0.500000 0.125000 0.500000"]>
              (<["b.txt" := "10 0.562500 0.500000 0.125000 0.500000"]> sample_A))).
  - vm_compute. reflexivity.
  - vm_compute. reflexivity.
  - vm_compute. reflexivity.
  - vm_compute. reflexivity.
  - intros H. vm_compute in H. discriminate.
Defined.
