(* ===== verification/LettersPass.v ===== *)
(** * The labeling pass of the letters variant, with its preview

    [src/asl_detection/project_code/bounding_box_generation.py], lines
    29-162: for every entry of [data/yolo_images] that is a folder named by
    a letter, the script first previews boxes (lines 41-104: it walks the
    image files, stops once ten boxes have been shown, and counts the
    images for which a hand was found), then, if it showed at least one,
    asks on standard input whether to generate the label files
    (lines 107-109) and, on [yes], labels [image_files[preview_count:]]
    with the padded box (lines 111-162).

    - [preview_image] and [preview_loop]: the preview (drawing and the
      window are not modelled; what remains is the count and the box
      computation, which can raise);
    - [py_input]: [input()], reading one line of the remaining standard
      input and raising [EOFError] when there is none;
    - [label_image_padded]: one image of the generation loop;
    - [letters_class_folder] and [letters_pass]: the outer loop, whose
      state is the tree and the unread standard input.

    MediaPipe's [static_image_mode=False] (line 24) makes the detector
    track across calls; [HandLandmarker] models it as a function of the
    image alone.

    The theorems give the preview count exactly, characterise what a
    [yes] writes, show that the first [preview_count] image files of a
    class are never labeled (so a class of at most ten detectable images
    gets no label at all), that any other answer leaves the tree as it
    was, and that the script raises [EOFError] when standard input is
    exhausted. *)

From S2P Require Import Prelude PyStr Vocabulary BoxDeriver LabelWriter FileSystem Labeling.

Local Open Scope string_scope.

(** [input()]: the first line of the unread input, or [EOFError]. *)
Definition py_input (stdin : list string) : res (string * list string) :=
  match stdin with
  | [] => Raise EOFError
  | line :: rest => Ok (line, rest)
  end.

(** Line 108: [input(...).strip().lower() == 'yes']. *)
Definition answers_yes (line : string) : bool := bool_decide (py_lower (py_strip line) = "yes").

Section letters.
Context `{DirLister} {img : Type} `{ImageCodec img} `{HandLandmarker img}.

(** Lines 46-104 for one [image_file]: [true] when a box was shown. *)
Definition preview_image (folder : gmap string string) (image_file : string) : res bool :=
  match folder !! image_file ≫= imread with
  | None => Ok false
  | Some image =>
      let '(h, w) := image_shape image in
      match hands_process image with
      | None | Some [] => Ok false
      | Some (hd :: _) =>
          derive_box_padded w h hd ≫= λ _, Ok true
      end
  end.

(** Lines 41-104: [preview_count], with the [break] of lines 43-44. *)
Fixpoint preview_loop (folder : gmap string string) (files : list string) (preview_count : nat)
    : res nat :=
  match files with
  | [] => Ok preview_count
  | image_file :: rest =>
      if (10 <=? preview_count)%nat then Ok preview_count
      else
        preview_image folder image_file ≫= λ shown : bool,
        preview_loop folder rest (if shown then S preview_count else preview_count)
  end.

(** Lines 112-162 for one [image_file]: the box with padding and clamping,
    written to the label file. *)
Definition label_image_padded (class_id : nat) (folder : gmap string string) (image_file : string)
    : res (gmap string string) :=
  match folder !! image_file ≫= imread with
  | None => Ok folder
  | Some image =>
      let '(h, w) := image_shape image in
      match hands_process image with
      | None | Some [] => Ok folder
      | Some (hd :: _) =>
          b ← derive_box_padded w h hd;
          mret (<[label_file_name image_file := yolo_line class_id b]> folder)
      end
  end.

(** Lines 29-162 for one entry [class_folder]: the tree and the unread
    standard input. *)
Definition letters_class_folder (st : gmap string node * list string) (class_folder : string)
    : res (gmap string node * list string) :=
  let '(root, stdin) := st in
  match root !! class_folder with
  | Some (NDir folder) =>
      match Letters.class_map !! class_folder with
      | None => Ok (root, stdin)
      | Some class_id =>
          preview_count ← preview_loop folder (image_files folder) 0;
          if (0 <? preview_count)%nat then
            input ← py_input stdin;
            let '(line, stdin') := input in
            if answers_yes line then
              folder' ← py_for (label_image_padded class_id)
                          (drop preview_count (image_files folder)) folder;
              Ok (<[class_folder := NDir folder']> root, stdin')
            else Ok (root, stdin')
          else Ok (root, stdin)
      end
  | _ => Ok (root, stdin)
  end.

(** Lines 29-164. *)
Definition letters_pass (root : gmap string node) (stdin : list string)
    : res (gmap string node * list string) :=
  py_for letters_class_folder (listdir_tree root) (root, stdin).

(** ** Specification-level notions *)

(** The image shows a detectable hand. *)
Definition previewable (folder : gmap string string) (image_file : string) : bool :=
  match folder !! image_file ≫= imread with
  | Some image => match hands_process image with Some (_ :: _) => true | _ => false end
  | None => false
  end.

(** The label line the generation loop writes for [image_file]. *)
Definition label_of_padded (class_id : nat) (folder : gmap string string) (image_file : string)
    : option string :=
  image ← folder !! image_file ≫= imread;
  let '(h, w) := image_shape image in
  match hands_process image with
  | Some (hd :: _) =>
      match derive_box_padded w h hd with Ok b => Some (yolo_line class_id b) | Raise _ => None end
  | _ => None
  end.

(** The number of boxes the preview shows. *)
Definition preview_count_of (folder : gmap string string) : nat :=
  Nat.min 10 (length (filter (λ f, previewable folder f = true) (image_files folder))).

End letters.

Section letters_facts.
Context `{DirLister} {img : Type} `{ImageCodec img} `{HandLandmarker img}.

(** ** The preview *)

(** A preview step never raises: a detected hand has 21 landmarks. *)
Lemma preview_image_eq folder f : preview_image folder f = Ok (previewable folder f).
Proof.
  unfold preview_image, previewable.
  destruct (folder !! f ≫= imread) as [image|]; [|done].
  destruct (image_shape image) as [h w].
  destruct (hands_process image) as [[|hd hs]|] eqn:E; try done.
  apply hands_21, Forall_cons in E as [Hlen _].
  destruct (derive_box_padded_ok w h hd) as [b ->]; [by intros ->|done].
Qed.

Lemma preview_loop_eq folder fs c :
  (c ≤ 10)%nat →
  preview_loop folder fs c =
    Ok (Nat.min 10 (c + length (filter (λ f, previewable folder f = true) fs))).
Proof.
  revert c; induction fs as [|f fs IH]; intros c Hc.
  { rewrite filter_nil. cbn [preview_loop length]. f_equal. lia. }
  change (preview_loop folder (f :: fs) c) with
    (if (10 <=? c)%nat then Ok c
     else preview_image folder f ≫= λ shown : bool,
          preview_loop folder fs (if shown then S c else c)).
  destruct (Nat.leb_spec 10 c); [f_equal; lia|].
  rewrite preview_image_eq, res_bind_Ok, filter_cons.
  destruct (previewable folder f); case_decide; try congruence;
    rewrite IH by lia; f_equal; cbn [length]; lia.
Qed.

(** The preview of a class folder always completes, and the number
    of boxes it shows is the number of its image files with a detectable
    hand, capped at ten by the [break]. *)
Theorem preview_loop_count folder :
  preview_loop folder (image_files folder) 0 = Ok (preview_count_of folder).
Proof. apply preview_loop_eq. lia. Qed.

(** ** The generation loop *)

Lemma label_image_padded_eq class_id folder f :
  label_image_padded class_id folder f = Ok (write_label (label_of_padded class_id) folder f).
Proof.
  unfold label_image_padded, write_label, label_of_padded.
  destruct (folder !! f ≫= imread) as [image|]; simpl; [|done].
  destruct (image_shape image) as [h w].
  destruct (hands_process image) as [[|hd hs]|] eqn:E; try done.
  apply hands_21, Forall_cons in E as [Hlen _].
  destruct (derive_box_padded_ok w h hd) as [b ->]; [by intros ->|done].
Qed.

Lemma label_of_padded_lookup class_id s1 s2 f :
  s1 !! f = s2 !! f → label_of_padded class_id s1 f = label_of_padded class_id s2 f.
Proof. unfold label_of_padded. by intros ->. Qed.

(** The folder the generation loop leaves. *)
Definition generate_labels (class_id : nat) (folder : gmap string string) : gmap string string :=
  foldl (write_label (label_of_padded class_id)) folder
    (drop (preview_count_of folder) (image_files folder)).

(** One iteration of the outer loop. *)
Lemma letters_class_folder_eq root stdin d :
  letters_class_folder (root, stdin) d =
    match root !! d with
    | Some (NDir folder) =>
        match Letters.class_map !! d with
        | Some class_id =>
            if (0 <? preview_count_of folder)%nat then
              match stdin with
              | [] => Raise EOFError
              | line :: rest =>
                  if answers_yes line
                  then Ok (<[d := NDir (generate_labels class_id folder)]> root, rest)
                  else Ok (root, rest)
              end
            else Ok (root, stdin)
        | None => Ok (root, stdin)
        end
    | _ => Ok (root, stdin)
    end.
Proof.
  unfold letters_class_folder. destruct (root !! d) as [[c|folder]|]; try done.
  destruct (Letters.class_map !! d) as [class_id|]; [|done].
  rewrite preview_loop_count, res_bind_Ok.
  destruct (0 <? preview_count_of folder)%nat; [|done].
  destruct stdin as [|line rest]; [done|]. simpl.
  destruct (answers_yes line); [|done].
  rewrite (py_for_ext _ (λ s f, Ok (write_label (label_of_padded class_id) s f)))
    by (intros; apply label_image_padded_eq).
  by rewrite py_for_pure.
Qed.
End letters_facts.

Section letters_claims.
Context `{DirLister} {img : Type} `{ImageCodec img} `{HandLandmarker img}.

Lemma filter_Forall_id {A} (P : A → Prop) `{∀ x, Decision (P x)} (l : list A) :
  Forall P l → filter P l = l.
Proof.
  induction 1 as [|x l Hx _ IH]; [done|]. rewrite filter_cons, decide_True by done.
  by rewrite IH.
Qed.

(** C12: when the user answers [yes] for a letter folder whose preview
    showed a box, the script labels exactly the image files after the
    first [preview_count] ones: the label file of such an image holds the
    padded box's line (when the image decodes and shows a hand), and the
    label file of each of the first [preview_count] images, the previewed
    ones among them, is left as it was. *)
Theorem letters_yes_labels root d folder class_id line rest f :
  root !! d = Some (NDir folder) → Letters.class_map !! d = Some class_id →
  (0 < preview_count_of folder)%nat → answers_yes line = true →
  unique_stems folder → image_in folder f →
  ∃ folder', letters_class_folder (root, line :: rest) d = Ok (<[d := NDir folder']> root, rest) ∧
    folder' !! label_file_name f =
      (if decide (f ∈ drop (preview_count_of folder) (image_files folder))
       then label_of_padded class_id folder f else None) ∪ folder !! label_file_name f.
Proof.
  intros Hd Hc Hpos Hyes Hu Hf. rewrite letters_class_folder_eq, Hd, Hc.
  apply Nat.ltb_lt in Hpos. rewrite Hpos, Hyes.
  eexists; split; [reflexivity|]. unfold generate_labels.
  assert (Hsub : ∀ g, g ∈ drop (preview_count_of folder) (image_files folder) → image_in folder g)
    by (intros g Hg; apply image_files_elem, (subseteq_drop _ _ _ Hg)).
  case_decide as Hin.
  - apply write_labels_lookup_label.
    + apply label_of_padded_lookup.
    + eapply sublist_NoDup; [apply image_files_NoDup | apply sublist_drop].
    + apply Forall_drop, image_files_images.
    + done.
    + intros g Hg Heq. apply Hu; [by apply Hsub|done|done].
  - rewrite write_labels_lookup_other; [by destruct (folder !! label_file_name f)|].
    intros g Hg Heq. apply Hin. replace f with g; [done|]. apply Hu; [by apply Hsub|done|done].
Qed.

(** C29: a letter folder whose image files are at most ten, all with a
    detectable hand, gets no label file at all, whatever the user answers:
    the preview shows every image and the generation loop starts after
    them. *)
Theorem letters_small_class_unlabeled root d folder class_id line rest :
  root !! d = Some (NDir folder) → Letters.class_map !! d = Some class_id →
  image_files folder ≠ [] → (length (image_files folder) ≤ 10)%nat →
  Forall (λ f, previewable folder f = true) (image_files folder) →
  letters_class_folder (root, line :: rest) d = Ok (root, rest).
Proof.
  intros Hd Hc Hne Hlen Hall. rewrite letters_class_folder_eq, Hd, Hc.
  assert (Hn : preview_count_of folder = length (image_files folder)).
  { unfold preview_count_of. rewrite filter_Forall_id by done. lia. }
  assert (Hpos : (0 <? preview_count_of folder)%nat = true).
  { apply Nat.ltb_lt. rewrite Hn. destruct (image_files folder); [done|simpl; lia]. }
  rewrite Hpos. destruct (answers_yes line); [|done].
  unfold generate_labels. rewrite Hn, drop_all. simpl. by rewrite insert_id.
Qed.

(** The unread input stays empty while no folder asks a question. *)
Lemma letters_loop_eof root xs d folder class_id :
  root !! d = Some (NDir folder) → Letters.class_map !! d = Some class_id →
  (0 < preview_count_of folder)%nat → d ∈ xs →
  py_for letters_class_folder xs (root, []) = Raise EOFError.
Proof.
  intros Hd Hc Hpos. induction xs as [|x xs IH]; [by intros ?%not_elem_of_nil|].
  intros Hx. cbn [py_for]. rewrite letters_class_folder_eq.
  destruct (decide (x = d)) as [->|Hne].
  { rewrite Hd, Hc. apply Nat.ltb_lt in Hpos. by rewrite Hpos. }
  assert (Hxs : d ∈ xs) by (apply elem_of_cons in Hx as [->|?]; [done|done]).
  destruct (root !! x) as [[c|folder']|]; try (by apply IH).
  destruct (Letters.class_map !! x); [|by apply IH].
  destruct (0 <? preview_count_of folder')%nat; [done|]. by apply IH.
Qed.

(** C30: run without input (standard input at its end, as in a batch job),
    the letters script raises [EOFError] at the first letter folder whose
    preview showed a box, so no label is written after it: a tree with
    such a folder makes the whole run fail. *)
Theorem letters_pass_eof root d folder class_id :
  root !! d = Some (NDir folder) → Letters.class_map !! d = Some class_id →
  (0 < preview_count_of folder)%nat →
  letters_pass root [] = Raise EOFError.
Proof.
  intros Hd Hc Hpos. eapply letters_loop_eof; [done|done|done|].
  apply listdir_tree_elem. eauto.
Qed.
End letters_claims.

(** ** Witnesses, with the detector of [Labeling] *)

#[local] Existing Instance map_order_lister.
#[local] Instance letters_codec_inst : ImageCodec string := test_codec.
#[local] Instance letters_landmarker_inst : HandLandmarker string := test_landmarker.

(** A letter folder with an image showing no hand ([c.jpg], listed first)
    and two images with a hand. *)
Definition folder_B3 : gmap string string :=
  <["a.jpg" := "left"]> (<["b.png" := "right"]> (<["c.jpg" := "noise"]> ∅)).

Definition letters_root : gmap string node := <["B" := NDir folder_B3]> ∅.

Lemma letters_yes_labels_witness :
  ∃ folder', letters_class_folder (letters_root, [" Yes "]) "B" =
               Ok (<["B" := NDir folder']> letters_root, []) ∧
    folder' !! label_file_name "a.jpg" =
      (if decide ("a.jpg" ∈ drop (preview_count_of folder_B3) (image_files folder_B3))
       then label_of_padded 1 folder_B3 "a.jpg" else None) ∪ folder_B3 !! label_file_name "a.jpg".
Proof.
  apply (letters_yes_labels letters_root "B" folder_B3 1 " Yes " [] "a.jpg").
  - vm_compute. reflexivity.
  - vm_compute. reflexivity.
  - vm_compute. lia.
  - vm_compute. reflexivity.
  - apply stems_unique_b_sound. vm_compute. reflexivity.
  - split; [exists "left"; vm_compute; reflexivity | vm_compute; reflexivity].
Defined.

Lemma letters_small_class_unlabeled_witness :
  letters_class_folder (sample_root, ["yes"]) "A" = Ok (sample_root, []).
Proof.
  apply (letters_small_class_unlabeled sample_root "A"
           (<["a.jpg" := "left"]> (<["b.png" := "right"]> ∅)) 0).
  - vm_compute. reflexivity.
  - vm_compute. reflexivity.
  - vm_compute. discriminate.
  - vm_compute. lia.
  - vm_compute. repeat constructor.
Defined.

Lemma letters_pass_eof_witness : letters_pass sample_root [] = Raise EOFError.
Proof.
  apply (letters_pass_eof sample_root "A" (<["a.jpg" := "left"]> (<["b.png" := "right"]> ∅)) 0).
  - vm_compute. reflexivity.
  - vm_compute. reflexivity.
  - vm_compute. lia.
Defined.
