(* ===== verification/Validator.v ===== *)
(** * Dataset Scanner / Validator

    [src/asl+sign digits detection/project_code/
    bounding_box_generation_validation.py], lines 17-35: for every folder
    of [data/yolo_images], in [sorted] order, count the image files (by the
    extension test) and those whose [<stem>.txt] exists, and print the
    counts and [missing = total_images - images_with_labels].

    The printed line is modelled as a [row] record of the four printed
    values (the emoji and the padding of the f-string are not modelled).
    [sorted] on folder names is stdpp's [merge_sort] for the code-point
    order [String.le]; Python's [sorted] is a stable sort for [<], and the
    two agree on lists without duplicates, which [os.listdir] returns.

    The theorems: the counts are the numbers of image files and of
    labeled image files whatever order [os.listdir] returns; a row never
    has more labeled images than images and its [missing] is their
    difference; the report lists every folder, sorted, and does not depend
    on the listing order; it also lists folders that are not classes. *)

From S2P Require Import Prelude PyStr Vocabulary LabelWriter FileSystem Labeling.
From stdpp Require Import sorting.

(** [sorted(names)] for strings. *)
Definition py_sorted (l : list string) : list string := merge_sort String.le l.

(** The values of the line printed for one folder. *)
Record row := mk_row {
  row_folder : string;
  row_total : nat;
  row_labeled : nat;
  row_missing : Z
}.

Section validator.
Context `{DirLister}.

(** Lines 25-32, one [file_name] of the folder:
<<
    if file_name.lower().endswith(image_extensions):
        total_images += 1
        base_name = os.path.splitext(file_name)[0]
        txt_file = os.path.join(subfolder_path, base_name + '.txt')
        if os.path.exists(txt_file): images_with_labels += 1
>> *)
Definition count_file (folder : gmap string string) (acc : nat * nat) (file_name : string)
    : nat * nat :=
  if is_image_name file_name then
    let '(total_images, images_with_labels) := acc in
    (S total_images,
     if file_exists folder (stem file_name ++ ".txt") then S images_with_labels
     else images_with_labels)
  else acc.

(** Lines 22-32: the two counters over [os.listdir(subfolder_path)]. *)
Definition scan_folder (folder : gmap string string) : nat * nat :=
  foldl (count_file folder) (0, 0)%nat (listdir_folder folder).

(** Lines 34-35: [missing = total_images - images_with_labels] and the
    printed values. *)
Definition report_row (subfolder : string) (folder : gmap string string) : row :=
  let '(total_images, images_with_labels) := scan_folder folder in
  mk_row subfolder total_images images_with_labels
    (Z.of_nat total_images - Z.of_nat images_with_labels).

(** Lines 17-20: [for subfolder in sorted(os.listdir(base_folder))],
    skipping what is not a directory. *)
Definition validate (root : gmap string node) : list row :=
  omap (λ d, match root !! d with
             | Some (NDir folder) => Some (report_row d folder)
             | _ => None
             end) (py_sorted (listdir_tree root)).

End validator.

(** ** Specification-level notions *)

(** The names of a folder, in the map's order. *)
Definition folder_names (folder : gmap string string) : list string := (map_to_list folder).*1.

(** The image file [f] has its label file in [folder]. *)
Definition has_label (folder : gmap string string) (f : string) : bool :=
  is_image_name f && file_exists folder (label_file_name f).

(** The folders of the tree. *)
Definition dir_names (root : gmap string node) : list string :=
  filter (λ d, is_dir root d = true) (map_to_list root).*1.

(** ** Counting *)

Lemma length_filter_impl {A} (P Q : A → Prop) `{∀ x, Decision (P x)} `{∀ x, Decision (Q x)}
    (l : list A) :
  (∀ x, P x → Q x) → length (filter P l) ≤ length (filter Q l).
Proof.
  intros HPQ. induction l as [|x l IH]; [done|]. rewrite !filter_cons.
  destruct (decide (P x)) as [Hp|Hp], (decide (Q x)) as [Hq|Hq]; simpl; try lia.
  exfalso. by apply Hq, HPQ.
Qed.

Section counts.
Context `{DirLister}.

Lemma foldl_count_file folder xs t l :
  foldl (count_file folder) (t, l) xs =
    (t + length (filter (λ f, is_image_name f = true) xs),
     l + length (filter (λ f, has_label folder f = true) xs))%nat.
Proof.
  revert t l; induction xs as [|x xs IH]; intros t l; [simpl; f_equal; lia|].
  cbn [foldl]. rewrite !filter_cons.
  assert (Hx : has_label folder x = is_image_name x && file_exists folder (stem x ++ ".txt"))
    by reflexivity.
  rewrite Hx. unfold count_file.
  destruct (is_image_name x), (file_exists folder _); simpl; rewrite ?IH; f_equal; lia.
Qed.

(** The validator counts, for a folder, its image files and its image
    files that have a label file, whatever order [os.listdir] returns the
    names in. *)
Theorem scan_folder_counts folder :
  scan_folder folder =
    (length (filter (λ f, is_image_name f = true) (folder_names folder)),
     length (filter (λ f, has_label folder f = true) (folder_names folder))).
Proof.
  unfold scan_folder. rewrite foldl_count_file. simpl.
  unfold folder_names. by rewrite (listdir_folder_perm folder).
Qed.

Lemma report_row_eq d folder :
  report_row d folder =
    let t := length (filter (λ f, is_image_name f = true) (folder_names folder)) in
    let l := length (filter (λ f, has_label folder f = true) (folder_names folder)) in
    mk_row d t l (Z.of_nat t - Z.of_nat l).
Proof.
  unfold report_row, scan_folder. rewrite foldl_count_file. simpl.
  unfold folder_names. by rewrite (listdir_folder_perm folder).
Qed.

Lemma validate_elem root r :
  r ∈ validate root ↔
    ∃ d folder, d ∈ listdir_tree root ∧ root !! d = Some (NDir folder) ∧ r = report_row d folder.
Proof.
  unfold validate. rewrite list_elem_of_omap. split.
  - intros (d & Hd & Hr). unfold py_sorted in Hd. rewrite (merge_sort_Permutation _ _) in Hd.
    destruct (root !! d) as [[c|folder]|] eqn:E; try discriminate.
    injection Hr as <-. eauto.
  - intros (d & folder & Hd & E & ->). exists d. rewrite E. split; [|done].
    unfold py_sorted. by rewrite (merge_sort_Permutation _ _).
Qed.

(** C5: every line the validator prints has at most as many labeled
    images as images, and its [missing] is their difference, never
    negative. *)
Theorem validate_row_invariant root r :
  r ∈ validate root →
  (row_labeled r ≤ row_total r)%nat ∧ row_missing r = Z.of_nat (row_total r - row_labeled r) ∧
  (0 <= row_missing r)%Z.
Proof.
  intros (d & folder & _ & _ & ->)%validate_elem. rewrite report_row_eq. simpl.
  assert (length (filter (λ f, has_label folder f = true) (folder_names folder))
          ≤ length (filter (λ f, is_image_name f = true) (folder_names folder)))%nat.
  { apply length_filter_impl. unfold has_label. intros f Hf.
    by apply andb_true_iff in Hf as [? _]. }
  split_and!; lia.
Qed.
End counts.

(** ** The folders of the report *)

Lemma StronglySorted_filter {A} (R : relation A) (P : A → Prop) `{∀ x, Decision (P x)} l :
  StronglySorted R l → StronglySorted R (filter P l).
Proof.
  induction 1 as [|x l Hs IH Hall]; [constructor|]. rewrite filter_cons.
  case_decide; [|done]. constructor; [done|].
  rewrite Forall_forall in Hall |- *. intros y Hy.
  apply list_elem_of_filter in Hy as [_ Hy]. by apply Hall.
Qed.

Section folders.
Context `{DirLister}.

Lemma map_row_folder_omap root ds :
  map row_folder (omap (λ d, match root !! d with
                             | Some (NDir folder) => Some (report_row d folder)
                             | _ => None end) ds)
  = filter (λ d, is_dir root d = true) ds.
Proof.
  induction ds as [|d ds IH]; [done|]. rewrite filter_cons.
  destruct (decide (is_dir root d = true)) as [Hd|Hd]; unfold is_dir in Hd; simpl;
    destruct (root !! d) as [[c|folder]|] eqn:E; try discriminate; try done.
  - rewrite report_row_eq. simpl. f_equal. exact IH.
Qed.

(** C16: the validator prints one line per folder of the tree, each
    folder once, in sorted order; plain files are skipped. *)
Theorem validate_folders root :
  StronglySorted String.le (map row_folder (validate root)) ∧
  NoDup (map row_folder (validate root)) ∧
  ∀ d, d ∈ map row_folder (validate root) ↔ is_dir root d = true.
Proof.
  unfold validate. rewrite map_row_folder_omap. unfold py_sorted. split_and!.
  - apply StronglySorted_filter, StronglySorted_merge_sort; apply _.
  - apply NoDup_filter. rewrite (merge_sort_Permutation _ _). apply listdir_tree_NoDup.
  - intros d. rewrite list_elem_of_filter. unfold py_sorted.
    rewrite (merge_sort_Permutation _ _), listdir_tree_elem. unfold is_dir.
    destruct (root !! d) as [[]|]; split; try naive_solver.
Qed.
End folders.

(** The report does not depend on the order in which [os.listdir]
    returns names: any two listers give the same lines. *)
Theorem validate_listing_independent (L1 L2 : DirLister) root :
  @validate L1 root = @validate L2 root.
Proof.
  unfold validate.
  assert (py_sorted (@listdir_tree L1 root) = py_sorted (@listdir_tree L2 root)) as ->.
  { apply (StronglySorted_unique String.le); try (apply StronglySorted_merge_sort; apply _).
    unfold py_sorted. rewrite !(merge_sort_Permutation _ _).
    by rewrite (@listdir_tree_perm L1), (@listdir_tree_perm L2). }
  induction (py_sorted (@listdir_tree L2 root)) as [|d ds IH]; [done|]. simpl.
  destruct (root !! d) as [[c|folder]|]; try done.
  rewrite (@report_row_eq L1), (@report_row_eq L2). simpl. f_equal. exact IH.
Qed.

(** ** The sample tree *)

(** The validator reports every folder, including one whose name is
    no class: on the sample tree it prints a line for [misc] (one image,
    one missing label) beside [A]; the spec says unknown folders are
    skipped. *)
Theorem validate_sample_report :
  @validate map_order_lister sample_root = [mk_row "A" 2 0 2; mk_row "misc" 1 0 1].
Proof. vm_compute. reflexivity. Qed.

Lemma validate_row_invariant_witness :
  (0 ≤ 2)%nat ∧ (2 - 0)%Z = Z.of_nat (2 - 0) ∧ (0 <= 2 - 0)%Z.
Proof.
  apply (@validate_row_invariant map_order_lister sample_root (mk_row "A" 2 0 2)).
  vm_compute. left.
Defined.
