(* ===== verification/Splitter.v ===== *)
(** * Dataset Splitter

    [src/asl+sign digits detection/project_code/dataset_splitting.py],
    lines 12-58: for every class folder of [data/yolo_images] (in
    [os.listdir] order), collect the base names of the image files that
    have a label file, shuffle them with [random.shuffle], send the first
    [int(len * 0.8)] to [train] and the rest to [val], and copy each image
    and its label file into [data/yolo_dataset/{images,labels}/<split>/].

    - [dataset] is the output tree: the four destination folders of lines
      15-18, as maps from file names to contents.
    - [Shuffler] is [random.shuffle] with the generator's state threaded
      explicitly: the state after one class is the state the next class
      starts from; the only law is that the result is a permutation.
    - [split_ratio] is the float [0.8], modelled as the rational [4/5]: the
      double nearest to [0.8] exceeds [4/5] by less than [2^-54], so
      [int(n * 0.8)] and [floor(4n/5)] agree for every [n] below [2^49].
    - [shutil.copy2] is [copy2]: it copies the bytes of a source file of the
      class folder into a destination folder under the same name, and
      raises [FileNotFoundError] when the source is missing; file metadata
      is not modelled.
    - [os.path.basename(img_src)] is the file name itself: the names come
      from [os.listdir] and contain no separator.

    This file holds the definitions and the facts about one class folder;
    [SplitRun] holds the facts about the whole run. *)

From S2P Require Import Prelude PyStr Vocabulary LabelWriter FileSystem Labeling Validator.

Local Open Scope string_scope.

(** ** The output tree *)

(** The two values of [split_name]. *)
Inductive split := Train | Val.

#[export] Instance split_eq_dec : EqDecision split.
Proof. solve_decision. Defined.

(** [output_dir/images/{train,val}] and [output_dir/labels/{train,val}]. *)
Record dataset := mk_dataset {
  images_train : gmap string string;
  images_val : gmap string string;
  labels_train : gmap string string;
  labels_val : gmap string string
}.

Definition images_of (sp : split) (o : dataset) : gmap string string :=
  match sp with Train => images_train o | Val => images_val o end.

Definition labels_of (sp : split) (o : dataset) : gmap string string :=
  match sp with Train => labels_train o | Val => labels_val o end.

Definition set_images (sp : split) (m : gmap string string) (o : dataset) : dataset :=
  match sp with
  | Train => mk_dataset m (images_val o) (labels_train o) (labels_val o)
  | Val => mk_dataset (images_train o) m (labels_train o) (labels_val o)
  end.

Definition set_labels (sp : split) (m : gmap string string) (o : dataset) : dataset :=
  match sp with
  | Train => mk_dataset (images_train o) (images_val o) m (labels_val o)
  | Val => mk_dataset (images_train o) (images_val o) (labels_train o) m
  end.

(** The output tree right after lines 15-18 on a fresh [output_dir]. *)
Definition empty_dataset : dataset := mk_dataset ∅ ∅ ∅ ∅.

(** ** [random.shuffle] *)

(** The generator's state is [rng]; [shuffle] returns the shuffled list and
    the next state. *)
Class Shuffler (rng : Type) := {
  shuffle : rng → list string → list string * rng;
  shuffle_perm g l : (shuffle g l).1 ≡ₚ l
}.

(** ** The script *)

(** Line 13: [split_ratio = 0.8]. *)
Definition split_ratio : Q := 4 # 5.

(** Line 38: [split_idx = int(len(valid_images) * split_ratio)]. *)
Definition split_idx (n : nat) : nat := Z.to_nat (py_int (inject_Z (Z.of_nat n) * split_ratio)).

(** Lines 45-49: the first of [base_name + ext] that exists, for [ext] in
    [image_exts] in order. *)
Fixpoint find_image (folder : gmap string string) (base_name : string) (exts : list string)
    : option string :=
  match exts with
  | [] => None
  | ext :: exts' =>
      if file_exists folder (base_name ++ ext) then Some (base_name ++ ext)
      else find_image folder base_name exts'
  end.

(** [shutil.copy2(src, dst)] for a file [name] of the class folder copied
    to the destination folder [dst] under the same name. *)
Definition copy2 (src : gmap string string) (name : string) (dst : gmap string string)
    : res (gmap string string) :=
  match src !! name with
  | Some contents => Ok (<[name := contents]> dst)
  | None => Raise FileNotFoundError
  end.

Section splitter.
Context `{DirLister} {rng : Type} `{Shuffler rng}.

(** Lines 30-35, one [file_name] of the class folder:
<<
    if file_name.lower().endswith(image_exts):
        base_name = os.path.splitext(file_name)[0]
        txt_path = os.path.join(class_path, base_name + ".txt")
        if os.path.exists(txt_path): valid_images.append(base_name)
>> *)
Definition collect_valid (folder : gmap string string) (valid : list string) (file_name : string)
    : list string :=
  if is_image_name file_name then
    let base_name := stem file_name in
    if file_exists folder (base_name ++ ".txt") then valid ++ [base_name] else valid
  else valid.

(** Lines 29-35. *)
Definition valid_images (folder : gmap string string) : list string :=
  foldl (collect_valid folder) [] (listdir_folder folder).

(** Lines 43-58, one [base_name] of [split_list]. *)
Definition copy_pair (folder : gmap string string) (split_name : split) (o : dataset)
    (base_name : string) : res dataset :=
  let label_src := base_name ++ ".txt" in
  match find_image folder base_name image_exts with
  | Some img_src =>
      if file_exists folder label_src then
        m ← copy2 folder img_src (images_of split_name o);
        let o := set_images split_name m o in
        m' ← copy2 folder label_src (labels_of split_name o);
        mret (set_labels split_name m' o)
      else mret o
  | None => mret o
  end.

(** Lines 37-40: the shuffle and the two slices. *)
Definition assign (folder : gmap string string) (g : rng) : list string * list string * rng :=
  let '(shuffled, g') := shuffle g (valid_images folder) in
  let split_idx := split_idx (length shuffled) in
  (take split_idx shuffled, drop split_idx shuffled, g').

(** Lines 29-58, the body of the outer loop for a class folder. *)
Definition split_class (folder : gmap string string) (st : dataset * rng) : res (dataset * rng) :=
  let '(train_set, val_set, g') := assign folder st.2 in
  o ← py_for (λ o '(split_name, split_list), py_for (copy_pair folder split_name) split_list o)
         [(Train, train_set); (Val, val_set)] st.1;
  mret (o, g').

(** Lines 23-58: the outer loop, skipping what is not a directory. *)
Definition split_dataset (root : gmap string node) (st : dataset * rng) : res (dataset * rng) :=
  py_for (λ st class_folder,
            match root !! class_folder with
            | Some (NDir folder) => split_class folder st
            | _ => mret st
            end) (listdir_tree root) st.

End splitter.

(** ** Specification-level notions *)

(** The files of [folder] whose names are in [ns]. *)
Definition restrict (folder : gmap string string) (ns : list string) : gmap string string :=
  filter (λ kv, kv.1 ∈ ns) folder.

(** The image file that lines 44-53 copy for [base_name], if any. *)
Definition copied_image (folder : gmap string string) (base_name : string) : option string :=
  if file_exists folder (base_name ++ ".txt") then find_image folder base_name image_exts
  else None.

(** The label file that lines 51-58 copy for [base_name], if any. *)
Definition copied_label (folder : gmap string string) (base_name : string) : option string :=
  match copied_image folder base_name with
  | Some _ => Some (base_name ++ ".txt")
  | None => None
  end.

(** The output tree after one class folder: the files copied for the base
    names of [train_set] and [val_set] laid over the previous tree. *)
Definition class_copies (folder : gmap string string) (train_set val_set : list string)
    (o : dataset) : dataset :=
  mk_dataset
    (restrict folder (omap (copied_image folder) train_set) ∪ images_train o)
    (restrict folder (omap (copied_image folder) val_set) ∪ images_val o)
    (restrict folder (omap (copied_label folder) train_set) ∪ labels_train o)
    (restrict folder (omap (copied_label folder) val_set) ∪ labels_val o).

(** The files a split receives: [restrict] of the names [copied_image] and
    [copied_label] give for its base names. *)
Definition split_part (train_set val_set : list string) (sp : split) : list string :=
  match sp with Train => train_set | Val => val_set end.

(** Every image file of the folder has one of the three lower-case
    extensions as its [splitext] extension: [splitext] cuts it into its
    stem and that extension. *)
Definition well_named (folder : gmap string string) : Prop :=
  ∀ f, image_in folder f → (splitext f).2 ∈ image_exts.

Definition other_split (sp : split) : split :=
  match sp with Train => Val | Val => Train end.

(** ** The output tree's fields *)

Lemma images_of_set_images sp sp' m o :
  images_of sp' (set_images sp m o) = if decide (sp' = sp) then m else images_of sp' o.
Proof. by destruct sp, sp'. Qed.

Lemma labels_of_set_images sp sp' m o : labels_of sp' (set_images sp m o) = labels_of sp' o.
Proof. by destruct sp, sp'. Qed.

Lemma images_of_set_labels sp sp' m o : images_of sp' (set_labels sp m o) = images_of sp' o.
Proof. by destruct sp, sp'. Qed.

Lemma labels_of_set_labels sp sp' m o :
  labels_of sp' (set_labels sp m o) = if decide (sp' = sp) then m else labels_of sp' o.
Proof. by destruct sp, sp'. Qed.

#[export] Hint Rewrite images_of_set_images labels_of_set_images images_of_set_labels
  labels_of_set_labels : cvproj_rw.

(** Two trees with the same four folders are equal. *)
Lemma dataset_eq o o' :
  (∀ sp, images_of sp o = images_of sp o') → (∀ sp, labels_of sp o = labels_of sp o') → o = o'.
Proof.
  destruct o, o'. intros Hi Hl.
  pose proof (Hi Train); pose proof (Hi Val); pose proof (Hl Train); pose proof (Hl Val).
  simpl in *. by subst.
Qed.

(** ** [restrict] *)

Lemma lookup_restrict folder ns x :
  restrict folder ns !! x = if decide (x ∈ ns) then folder !! x else None.
Proof.
  unfold restrict. rewrite map_lookup_filter.
  destruct (folder !! x); simpl; case_decide; simplify_option_eq; done.
Qed.

Lemma restrict_ext folder ns1 ns2 :
  (∀ x, x ∈ ns1 ↔ x ∈ ns2) → restrict folder ns1 = restrict folder ns2.
Proof.
  intros Hx. apply map_eq. intros x. rewrite !lookup_restrict.
  destruct (decide (x ∈ ns1)), (decide (x ∈ ns2)); naive_solver.
Qed.

Lemma restrict_app folder ns1 ns2 :
  restrict folder (ns1 ++ ns2) = restrict folder ns1 ∪ restrict folder ns2.
Proof.
  apply map_eq. intros x. rewrite lookup_union, !lookup_restrict.
  destruct (decide (x ∈ ns1)), (decide (x ∈ ns2)), (decide (x ∈ (ns1 ++ ns2)%list));
    destruct (folder !! x); set_solver.
Qed.

Lemma restrict_union_comm folder ns1 ns2 :
  restrict folder ns1 ∪ restrict folder ns2 = restrict folder ns2 ∪ restrict folder ns1.
Proof. rewrite <- !restrict_app. apply restrict_ext. set_solver. Qed.

(** Copying a file that exists is laying [restrict] of its name over the
    destination. *)
Lemma copy2_ok folder n m :
  is_Some (folder !! n) → copy2 folder n m = Ok (restrict folder [n] ∪ m).
Proof.
  intros [c Hc]. unfold copy2. rewrite Hc. f_equal. apply map_eq. intros x.
  rewrite lookup_union, lookup_restrict.
  destruct (decide (x = n)) as [->|Hne].
  - rewrite lookup_insert_eq, Hc, decide_True by set_solver. by destruct (m !! n).
  - rewrite lookup_insert_ne, decide_False by set_solver. by destruct (m !! x).
Qed.

Lemma find_image_some folder b exts n :
  find_image folder b exts = Some n → is_Some (folder !! n) ∧ ∃ e, e ∈ exts ∧ n = b ++ e.
Proof.
  induction exts as [|e exts IH]; simpl; [done|].
  destruct (file_exists folder (b ++ e)) eqn:E.
  - intros [= <-]. unfold file_exists in E. apply bool_decide_eq_true in E. split; [done|].
    exists e. split; [left|done].
  - intros (? & e' & ? & ?)%IH. split; [done|]. exists e'. split; [by right|done].
Qed.

Lemma restrict_nil folder : restrict folder [] = ∅.
Proof.
  apply map_eq. intros x. rewrite lookup_restrict, lookup_empty, decide_False; [done|].
  apply not_elem_of_nil.
Qed.

Lemma restrict_cons_union folder n ns m :
  restrict folder ns ∪ (restrict folder [n] ∪ m) = restrict folder (n :: ns) ∪ m.
Proof.
  apply map_eq. intros x. rewrite !lookup_union, !lookup_restrict.
  destruct (folder !! x), (m !! x); repeat case_decide; set_solver.
Qed.

(** ** One base name: lines 43-58 *)

(** The copy loop's body never raises: the image file [find_image] returns
    and the label file both exist. *)
Lemma copy_pair_eq folder sp o b :
  copy_pair folder sp o b =
    Ok (match copied_image folder b with
        | Some n =>
            set_labels sp (restrict folder [b ++ ".txt"] ∪ labels_of sp o)
              (set_images sp (restrict folder [n] ∪ images_of sp o) o)
        | None => o
        end).
Proof.
  unfold copy_pair, copied_image.
  destruct (find_image folder b image_exts) as [n|] eqn:Hf;
    destruct (file_exists folder (b ++ ".txt")) eqn:Hl; try done.
  apply find_image_some in Hf as [Hn _].
  unfold file_exists in Hl. apply bool_decide_eq_true in Hl.
  rewrite copy2_ok by done. simpl. rewrite labels_of_set_images, copy2_ok by done. done.
Qed.

(** The loop over one [split_list]: the files copied for its base names
    are laid over the split's two folders. *)
Lemma py_for_copy_pair folder sp bs o :
  py_for (copy_pair folder sp) bs o =
    Ok (set_labels sp (restrict folder (omap (copied_label folder) bs) ∪ labels_of sp o)
          (set_images sp (restrict folder (omap (copied_image folder) bs) ∪ images_of sp o) o)).
Proof.
  revert o; induction bs as [|b bs IH]; intros o; simpl.
  - f_equal. rewrite !restrict_nil, !(left_id_L ∅ (∪)). by destruct sp, o.
  - rewrite copy_pair_eq. simpl. rewrite IH. f_equal. unfold copied_label at 2.
    destruct (copied_image folder b) as [n|]; apply dataset_eq; intros sp';
      autorewrite with cvproj_rw; repeat case_decide; subst; try done;
      apply restrict_cons_union.
Qed.

Section class_folder.
Context `{DirLister} {rng : Type} `{Shuffler rng}.

(** One iteration of the outer loop never raises, and it lays over the
    output tree, in each split, the image and label files of the base names
    the shuffle sent there. *)
Lemma split_class_eq folder o g :
  split_class folder (o, g) =
    let '(train_set, val_set, g') := assign folder g in
    Ok (class_copies folder train_set val_set o, g').
Proof.
  unfold split_class. simpl. destruct (assign folder g) as [[tr va] g']. simpl.
  rewrite py_for_copy_pair. simpl. rewrite py_for_copy_pair. simpl. by destruct o.
Qed.
End class_folder.

(** ** The complete pairs of a folder: lines 29-35 *)

Lemma foldl_collect_valid folder (fs acc : list string) :
  foldl (collect_valid folder) acc fs =
    (acc ++ (stem <$> filter (λ f, has_label folder f = true) fs))%list.
Proof.
  revert acc; induction fs as [|f fs IH]; intros acc; simpl; [by rewrite app_nil_r|].
  rewrite IH, filter_cons. unfold collect_valid, has_label, label_file_name.
  destruct (is_image_name f), (file_exists folder (stem f ++ ".txt")); simpl;
    by rewrite <- ?app_assoc.
Qed.

Section valid.
Context `{DirLister}.

Lemma valid_images_perm folder :
  valid_images folder ≡ₚ stem <$> filter (λ f, has_label folder f = true) (folder_names folder).
Proof.
  unfold valid_images. rewrite foldl_collect_valid. simpl.
  unfold folder_names. by rewrite (listdir_folder_perm folder).
Qed.

(** A complete pair: an image file of the folder whose label file exists. *)
Lemma valid_images_elem folder b :
  b ∈ valid_images folder ↔
    ∃ f, image_in folder f ∧ file_exists folder (label_file_name f) = true ∧ b = stem f.
Proof.
  rewrite valid_images_perm, list_elem_of_fmap. unfold has_label, image_in, folder_names.
  setoid_rewrite list_elem_of_filter. setoid_rewrite andb_true_iff.
  setoid_rewrite list_elem_of_fmap. split.
  - intros (f & -> & [Hi Hl] & [[k v] [-> Hkv]]). apply elem_of_map_to_list in Hkv.
    exists k. simpl. eauto.
  - intros (f & [[v Hv] Hi] & Hl & ->). exists f. split; [done|]. split; [done|].
    exists (f, v). split; [done|]. by apply elem_of_map_to_list.
Qed.

Lemma valid_images_NoDup folder : unique_stems folder → NoDup (valid_images folder).
Proof.
  intros Huniq. rewrite valid_images_perm. apply NoDup_fmap_2_strong.
  - intros f1 f2 Hf1 Hf2 Hs. apply list_elem_of_filter in Hf1 as [Hf1 Hin1], Hf2 as [Hf2 Hin2].
    unfold has_label in *. apply andb_true_iff in Hf1 as [I1 _], Hf2 as [I2 _].
    unfold folder_names in Hin1, Hin2. apply list_elem_of_fmap in Hin1 as [[k1 v1] [-> H1]],
      Hin2 as [[k2 v2] [-> H2]]. apply elem_of_map_to_list in H1, H2.
    apply Huniq; [split; [eauto|done] .. |]. unfold label_file_name. simpl in *. by rewrite Hs.
  - apply NoDup_filter. unfold folder_names. apply NoDup_fst_map_to_list.
Qed.

(** C18: the splitter and the validator agree: the number of base names the
    splitter collects for a class folder is the number of labeled images
    the validator prints for it. *)
Theorem valid_images_count_validator d folder :
  length (valid_images folder) = row_labeled (report_row d folder).
Proof.
  rewrite valid_images_perm, length_fmap, report_row_eq. reflexivity.
Qed.
End valid.

(** ** The split point: line 38 *)

(** [int(n * 0.8)] is [⌊4n/5⌋]. *)
Lemma split_idx_eq n : split_idx n = (4 * n / 5)%nat.
Proof.
  unfold split_idx, py_int.
  rewrite (proj2 (Qle_bool_iff _ _)).
  2:{ unfold split_ratio. apply Qmult_le_0_compat; [|done]. unfold Qle. simpl. lia. }
  change (Qfloor (inject_Z (Z.of_nat n) * split_ratio)) with ((Z.of_nat n * 4) / 5)%Z.
  apply Nat2Z.inj. rewrite Z2Nat.id by (apply Z.div_pos; lia).
  rewrite Nat2Z.inj_div, Nat2Z.inj_mul. f_equal. lia.
Qed.

Lemma split_idx_le n : (split_idx n ≤ n)%nat.
Proof. rewrite split_idx_eq. apply Nat.Div0.div_le_upper_bound. lia. Qed.

(** ** The assignment: lines 37-40 *)

Section assignment.
Context `{DirLister} {rng : Type} `{Shuffler rng}.

Lemma assign_eq folder g tr va g' :
  assign folder g = (tr, va, g') →
  ∃ shuffled, shuffle g (valid_images folder) = (shuffled, g') ∧
    tr = take (split_idx (length shuffled)) shuffled ∧
    va = drop (split_idx (length shuffled)) shuffled.
Proof.
  unfold assign. destruct (shuffle g (valid_images folder)) as [sh g''].
  intros [= <- <- <-]. eauto.
Qed.

Lemma assign_perm folder g tr va g' :
  assign folder g = (tr, va, g') →
  tr ++ va ≡ₚ valid_images folder ∧ length tr = split_idx (length (valid_images folder)).
Proof.
  intros (sh & Hs & -> & ->)%assign_eq.
  pose proof (shuffle_perm g (valid_images folder)) as Hp. rewrite Hs in Hp. simpl in Hp.
  rewrite take_drop, <- (Permutation_length Hp). split; [done|].
  rewrite length_take. pose proof (split_idx_le (length sh)). lia.
Qed.

Lemma assign_NoDup folder g tr va g' :
  unique_stems folder → assign folder g = (tr, va, g') →
  NoDup tr ∧ (∀ b, b ∈ tr → b ∉ va) ∧ NoDup va.
Proof.
  intros Hu Ha. destruct (assign_perm _ _ _ _ _ Ha) as [Hp _].
  pose proof (valid_images_NoDup folder Hu) as Hnd. rewrite <- Hp in Hnd.
  by apply NoDup_app in Hnd.
Qed.

(** C6: whatever the shuffle does, the train and val lists together are
    the complete pairs of the class folder, the train list has
    [⌊4n/5⌋] of the [n] of them and the val list the rest. *)
Theorem assign_partition folder g tr va g' :
  assign folder g = (tr, va, g') →
  tr ++ va ≡ₚ valid_images folder ∧
  length tr = (4 * length (valid_images folder) / 5)%nat ∧
  length va = (length (valid_images folder) - 4 * length (valid_images folder) / 5)%nat.
Proof.
  intros Ha. destruct (assign_perm _ _ _ _ _ Ha) as [Hp Hl].
  rewrite split_idx_eq in Hl. pose proof (Permutation_length Hp) as Hn.
  rewrite length_app in Hn. split_and!; [done|done|lia].
Qed.

(** C17: when no two image files of the class folder share a stem, the
    train and val lists together hold each base name once: no base name
    is sent to both train and val, nor twice to one of them. *)
Theorem assign_disjoint folder g tr va g' :
  unique_stems folder → assign folder g = (tr, va, g') → NoDup (tr ++ va).
Proof.
  intros Hu Ha. destruct (assign_perm _ _ _ _ _ Ha) as [Hp _]. rewrite Hp.
  by apply valid_images_NoDup.
Qed.

(** The spec's boundary case: a class folder with five complete pairs
    gives four to train and one to val. *)
Theorem assign_five folder g tr va g' :
  length (valid_images folder) = 5%nat → assign folder g = (tr, va, g') →
  length tr = 4%nat ∧ length va = 1%nat.
Proof.
  intros H5 Ha. destruct (assign_perm _ _ _ _ _ Ha) as [Hp Hl].
  rewrite H5, split_idx_eq in Hl. simpl in Hl. pose proof (Permutation_length Hp) as Hn.
  rewrite length_app, H5 in Hn. split; [exact Hl|]. rewrite Hl in Hn. lia.
Qed.
End assignment.

(** ** The copied files of one class folder *)

Lemma images_of_class_copies folder tr va o sp :
  images_of sp (class_copies folder tr va o) =
    restrict folder (omap (copied_image folder) (split_part tr va sp)) ∪ images_of sp o.
Proof. by destruct sp. Qed.

Lemma labels_of_class_copies folder tr va o sp :
  labels_of sp (class_copies folder tr va o) =
    restrict folder (omap (copied_label folder) (split_part tr va sp)) ∪ labels_of sp o.
Proof. by destruct sp. Qed.

Lemma lookup_restrict_union_in folder ns m x :
  x ∈ ns → is_Some (folder !! x) → (restrict folder ns ∪ m) !! x = folder !! x.
Proof.
  intros Hx [c Hc]. rewrite lookup_union, lookup_restrict, decide_True, Hc by done.
  by destruct (m !! x).
Qed.

Lemma lookup_restrict_union_notin folder ns m x :
  x ∉ ns → (restrict folder ns ∪ m) !! x = m !! x.
Proof.
  intros Hx. rewrite lookup_union, lookup_restrict, decide_False by done.
  by destruct (m !! x).
Qed.

Lemma lookup_restrict_union_none folder ns m x :
  folder !! x = None → (restrict folder ns ∪ m) !! x = m !! x.
Proof.
  intros Hx. rewrite lookup_union, lookup_restrict. case_decide; rewrite ?Hx;
    by destruct (m !! x).
Qed.

Lemma find_image_found folder b exts e :
  e ∈ exts → file_exists folder (b ++ e) = true → is_Some (find_image folder b exts).
Proof.
  induction exts as [|e' exts IH]; simpl; [by intros ?%not_elem_of_nil|].
  intros [->|He]%elem_of_cons Hf; [by rewrite Hf|].
  destruct (file_exists folder (b ++ e')); [done|]. by apply IH.
Qed.

Section copied.
Context (folder : gmap string string) (Hnamed : well_named folder).

(** The image copied for a base name is an image file with that stem. *)
Lemma copied_image_stem b n :
  copied_image folder b = Some n → image_in folder n ∧ stem n = b.
Proof.
  unfold copied_image. destruct (file_exists folder (b ++ ".txt")); [|done].
  intros (Hn & e & He & ->)%find_image_some.
  assert (Hi : image_in folder (b ++ e)) by (split; [done|by apply image_name_app]).
  split; [done|]. pose proof (splitext_app (b ++ e)) as Hs.
  by destruct (image_ext_app_inj _ _ _ _ (Hnamed _ Hi) He Hs).
Qed.

Context (Huniq : unique_stems folder).

(** For a complete pair, the image copied for its stem is its own image. *)
Lemma copied_image_complete f :
  image_in folder f → file_exists folder (label_file_name f) = true →
  copied_image folder (stem f) = Some f.
Proof.
  intros Hi Hl. pose proof (splitext_app f) as Hs. pose proof (Hnamed f Hi) as He.
  destruct (find_image_found folder (stem f) image_exts _ He) as [n Hn].
  { unfold stem. rewrite Hs. destruct Hi as [Hf _]. by apply bool_decide_eq_true. }
  assert (Hc : copied_image folder (stem f) = Some n).
  { unfold copied_image. unfold label_file_name in Hl. by rewrite Hl. }
  rewrite Hc. apply copied_image_stem in Hc as [Hin Hst]. f_equal.
  apply Huniq; [done..|]. unfold label_file_name. by rewrite Hst.
Qed.

Lemma copied_image_omap f (bs : list string) :
  image_in folder f → file_exists folder (label_file_name f) = true →
  f ∈ omap (copied_image folder) bs ↔ stem f ∈ bs.
Proof.
  intros Hi Hl. rewrite list_elem_of_omap. split.
  - intros (b & Hb & Hc). apply copied_image_stem in Hc as [_ <-]. done.
  - intros Hb. exists (stem f). split; [done|]. by apply copied_image_complete.
Qed.

Lemma copied_label_omap f (bs : list string) :
  image_in folder f → file_exists folder (label_file_name f) = true →
  label_file_name f ∈ omap (copied_label folder) bs ↔ stem f ∈ bs.
Proof.
  intros Hi Hl. rewrite list_elem_of_omap. unfold copied_label. split.
  - intros (b & Hb & Hc). destruct (copied_image folder b); [|done].
    injection Hc as Hc. unfold label_file_name in Hc. by apply string_app_inv_r in Hc as <-.
  - intros Hb. exists (stem f). split; [done|]. by rewrite copied_image_complete.
Qed.
End copied.

Section exclusive.
Context `{DirLister} {rng : Type} `{Shuffler rng}.

(** A complete pair's stem is in exactly one of the two lists. *)
Lemma assign_one_split folder g tr va g' f :
  unique_stems folder → image_in folder f → file_exists folder (label_file_name f) = true →
  assign folder g = (tr, va, g') →
  ∃ sp, stem f ∈ split_part tr va sp ∧ stem f ∉ split_part tr va (other_split sp).
Proof.
  intros Hu Hi Hl Ha. destruct (assign_perm _ _ _ _ _ Ha) as [Hp _].
  destruct (assign_NoDup _ _ _ _ _ Hu Ha) as (_ & Hdis & _).
  assert (Hv : stem f ∈ (tr ++ va)%list) by (rewrite Hp; apply valid_images_elem; eauto).
  apply elem_of_app in Hv as [Ht|Hv]; [exists Train | exists Val]; simpl; split; try done.
  - by apply Hdis.
  - intros Ht. by apply (Hdis _ Ht).
Qed.

(** In a class folder where every image file is named
    [<stem><ext>] with [ext] one of the three lower-case extensions and no
    two images share a stem, every complete pair is copied, bytes
    unchanged, into exactly one split: its image and label file land in
    the same split, and the other split's files of those names are left as
    they were. *)
Lemma split_class_exclusive folder o g o' g' f :
  well_named folder → unique_stems folder →
  image_in folder f → file_exists folder (label_file_name f) = true →
  split_class folder (o, g) = Ok (o', g') →
  ∃ sp, images_of sp o' !! f = folder !! f ∧
    labels_of sp o' !! label_file_name f = folder !! label_file_name f ∧
    images_of (other_split sp) o' !! f = images_of (other_split sp) o !! f ∧
    labels_of (other_split sp) o' !! label_file_name f =
      labels_of (other_split sp) o !! label_file_name f.
Proof.
  intros Hn Hu Hi Hl Hrun. rewrite split_class_eq in Hrun.
  destruct (assign folder g) as [[tr va] g''] eqn:Ha. injection Hrun as <- <-.
  destruct (assign_one_split _ _ _ _ _ _ Hu Hi Hl Ha) as (sp & Hin & Hout).
  exists sp. rewrite !images_of_class_copies, !labels_of_class_copies. split_and!.
  - apply lookup_restrict_union_in; [by apply copied_image_omap | by destruct Hi].
  - apply lookup_restrict_union_in; [by apply copied_label_omap|].
    unfold file_exists in Hl. by apply bool_decide_eq_true in Hl.
  - apply lookup_restrict_union_notin. by rewrite copied_image_omap.
  - apply lookup_restrict_union_notin. by rewrite copied_label_omap.
Qed.
End exclusive.

Section totality.
Context `{DirLister} {rng : Type} `{Shuffler rng}.

(** C14: the splitting script never raises: every [shutil.copy2] it makes
    has an existing source, whatever the tree, the listing order and the
    shuffle. *)
Theorem split_dataset_total root st : ∃ st', split_dataset root st = Ok st'.
Proof.
  unfold split_dataset. apply py_for_total. intros [o g] d _.
  destruct (root !! d) as [[c|folder]|]; eauto.
  rewrite split_class_eq. destruct (assign folder g) as [[tr va] g']. eauto.
Qed.

End totality.
