(* ===== verification/SplitRun.v ===== *)
(** * The whole splitting run

    [dataset_splitting.py], lines 23-58, over all the class folders of
    [data/yolo_images]: the run never raises, every file it writes is a
    byte-identical copy of a source file of the same name, and, on a tree
    whose image files are well named, whose stems are unique in each
    folder and whose file names are unique across folders, every complete
    pair lands in exactly one split.  The concrete trees at the end show
    what happens when these conditions fail: a stem shared by two images
    is sent to both splits, an image with an upper-case extension is never
    copied, and two classes with the same file name keep only the one
    [os.listdir] lists last. *)

From S2P Require Import Prelude PyStr Vocabulary LabelWriter FileSystem Labeling Validator Splitter.

Local Open Scope string_scope.

(** No file name occurs in two class folders. *)
Definition names_disjoint (root : gmap string node) : Prop :=
  ∀ d1 d2 folder1 folder2 n,
    root !! d1 = Some (NDir folder1) → root !! d2 = Some (NDir folder2) →
    is_Some (folder1 !! n) → is_Some (folder2 !! n) → d1 = d2.

(** The conditions under which the splitter meets its contract. *)
Definition split_ready (root : gmap string node) : Prop :=
  (∀ d folder, root !! d = Some (NDir folder) → well_named folder ∧ unique_stems folder) ∧
  names_disjoint root.

Section run.
Context `{DirLister} {rng : Type} `{Shuffler rng}.

(** The body of the outer loop, lines 24-58. *)
Definition split_body (root : gmap string node) (st : dataset * rng) (class_folder : string)
    : res (dataset * rng) :=
  match root !! class_folder with
  | Some (NDir folder) => split_class folder st
  | _ => mret st
  end.

Lemma split_dataset_body root st :
  split_dataset root st = py_for (split_body root) (listdir_tree root) st.
Proof. reflexivity. Qed.

(** One iteration either skips the entry or lays a class folder's copies
    over the tree. *)
Lemma split_body_eq root o g d o' g' :
  split_body root (o, g) d = Ok (o', g') →
  (o' = o) ∨ ∃ folder tr va, root !! d = Some (NDir folder) ∧ o' = class_copies folder tr va o.
Proof.
  unfold split_body. destruct (root !! d) as [[c|folder]|]; try (intros [= <- _]; by left).
  rewrite split_class_eq. destruct (assign folder g) as [[tr va] g''].
  intros [= <- _]. right. eauto.
Qed.

(** A name that no class folder of [xs] holds is not written by the loop
    over [xs]. *)
Lemma split_loop_untouched root xs st st' n :
  (∀ d folder, d ∈ xs → root !! d = Some (NDir folder) → folder !! n = None) →
  py_for (split_body root) xs st = Ok st' →
  ∀ sp, images_of sp st'.1 !! n = images_of sp st.1 !! n ∧
        labels_of sp st'.1 !! n = labels_of sp st.1 !! n.
Proof.
  intros Hnone Hrun.
  apply (py_for_invariant (split_body root)
           (λ t, ∀ sp, images_of sp t.1 !! n = images_of sp st.1 !! n ∧
                       labels_of sp t.1 !! n = labels_of sp st.1 !! n)
           xs st st'); [|done|done].
  intros [o g] d [o' g'] Hd Hinv Hstep sp. simpl in *.
  destruct (split_body_eq _ _ _ _ _ _ Hstep) as [->|(folder & tr & va & Hf & ->)]; [done|].
  rewrite images_of_class_copies, labels_of_class_copies,
    !lookup_restrict_union_none by eauto. apply Hinv.
Qed.

Lemma lookup_restrict_union_Some folder ns m n c :
  (restrict folder ns ∪ m) !! n = Some c → folder !! n = Some c ∨ m !! n = Some c.
Proof.
  rewrite lookup_union, lookup_restrict. case_decide; [|destruct (m !! n); simpl; auto].
  destruct (folder !! n), (m !! n); simpl; intros [=]; subst; auto.
Qed.

(** The files of the tree: those of the output tree before the run, and
    copies of files of class folders. *)
Definition from_source (root : gmap string node) (o : dataset) (n c : string) : Prop :=
  (∃ sp, images_of sp o !! n = Some c ∨ labels_of sp o !! n = Some c) ∨
  ∃ d folder, root !! d = Some (NDir folder) ∧ folder !! n = Some c.

(** C13: every file the run leaves in the output tree was there before or
    is a byte-identical copy of the file of the same name in a class
    folder: copying never alters contents. *)
Theorem split_dataset_identical root o g o' g' :
  split_dataset root (o, g) = Ok (o', g') →
  ∀ sp n c, images_of sp o' !! n = Some c ∨ labels_of sp o' !! n = Some c →
  from_source root o n c.
Proof.
  intros Hrun.
  apply (py_for_invariant (split_body root)
           (λ t, ∀ sp n c, images_of sp t.1 !! n = Some c ∨ labels_of sp t.1 !! n = Some c →
                 from_source root o n c) (listdir_tree root) (o, g) (o', g'));
    [| |exact Hrun].
  - intros [o1 g1] d [o2 g2] _ Hinv Hstep sp n c Hn. simpl in *.
    destruct (split_body_eq _ _ _ _ _ _ Hstep) as [->|(folder & tr & va & Hf & ->)];
      [by apply (Hinv sp)|].
    rewrite images_of_class_copies, labels_of_class_copies in Hn.
    destruct Hn as [Hn|Hn]; apply lookup_restrict_union_Some in Hn as [Hn|Hn];
      first [by right; eauto | by apply (Hinv sp); auto].
  - intros sp n c Hn. left. eauto.
Qed.

Lemma empty_dataset_lookup sp n :
  images_of sp empty_dataset !! n = None ∧ labels_of sp empty_dataset !! n = None.
Proof. by destruct sp. Qed.

(** A file of one class folder is in no other class folder. *)
Lemma names_disjoint_other root d d' folder folder' n :
  names_disjoint root → root !! d = Some (NDir folder) → is_Some (folder !! n) →
  d' ≠ d → root !! d' = Some (NDir folder') → folder' !! n = None.
Proof.
  intros Hdis Hd Hn Hne Hd'. destruct (folder' !! n) eqn:E; [|done].
  exfalso. apply Hne. eapply Hdis; eauto.
Qed.

(** The splitter's contract, pair by pair. *)
Lemma split_dataset_exclusive_result root g o' g' d folder f :
  split_ready root →
  split_dataset root (empty_dataset, g) = Ok (o', g') →
  root !! d = Some (NDir folder) → image_in folder f →
  file_exists folder (label_file_name f) = true →
  ∃ sp, images_of sp o' !! f = folder !! f ∧
    labels_of sp o' !! label_file_name f = folder !! label_file_name f ∧
    images_of (other_split sp) o' !! f = None ∧
    labels_of (other_split sp) o' !! label_file_name f = None.
Proof.
  intros [Hwf Hdis] Hrun Hd Hi Hl.
  assert (Hlab : is_Some (folder !! label_file_name f))
    by (unfold file_exists in Hl; by apply bool_decide_eq_true in Hl).
  assert (Hin : d ∈ listdir_tree root) by (apply listdir_tree_elem; eauto).
  apply list_elem_of_split in Hin as (xs1 & xs2 & Hxs).
  pose proof (listdir_tree_NoDup root) as Hnd. rewrite Hxs in Hnd.
  apply NoDup_app in Hnd as (_ & Hd1 & Hnd2). apply NoDup_cons in Hnd2 as [Hd2 _].
  rewrite split_dataset_body, Hxs, py_for_app in Hrun.
  destruct (py_for (split_body root) xs1 (empty_dataset, g)) as [[o1 g1]|] eqn:H1;
    [|discriminate]. cbn [py_for] in Hrun. rewrite res_bind_Ok in Hrun.
  destruct (split_body root (o1, g1) d) as [[o2 g2]|] eqn:H2; [|discriminate].
  rewrite res_bind_Ok in Hrun. unfold split_body in H2. rewrite Hd in H2.
  destruct (split_class_exclusive _ _ _ _ _ f (proj1 (Hwf _ _ Hd)) (proj2 (Hwf _ _ Hd)) Hi Hl H2)
    as (sp & Hi2 & Hl2 & Ho2 & Hol2).
  (* the loops before and after [d] never write [f] nor its label file *)
  assert (Hpre : ∀ n, is_Some (folder !! n) → ∀ sp',
            images_of sp' o1 !! n = None ∧ labels_of sp' o1 !! n = None).
  { intros n Hn sp'.
    assert (Hu : ∀ d' folder', d' ∈ xs1 → root !! d' = Some (NDir folder') →
                 folder' !! n = None).
    { intros d' folder' Hd' Hf'.
      apply (names_disjoint_other root d d' folder folder' n Hdis Hd Hn); [|done].
      intros ->. apply (Hd1 d Hd'). left. }
    destruct (split_loop_untouched root xs1 _ _ n Hu H1 sp') as [E1 E2]. simpl in *.
    rewrite E1, E2. apply empty_dataset_lookup. }
  assert (Hpost : ∀ n, is_Some (folder !! n) → ∀ sp',
            images_of sp' o' !! n = images_of sp' o2 !! n ∧
            labels_of sp' o' !! n = labels_of sp' o2 !! n).
  { intros n Hn sp'. apply (split_loop_untouched root xs2 (o2, g2) (o', g') n); [|exact Hrun].
    intros d' folder' Hd' Hf'.
    apply (names_disjoint_other root d d' folder folder' n Hdis Hd Hn); [|done].
    by intros ->. }
  exists sp. destruct Hi as [Hf _].
  rewrite (proj1 (Hpost f Hf sp)), (proj2 (Hpost _ Hlab sp)),
    (proj1 (Hpost f Hf (other_split sp))), (proj2 (Hpost _ Hlab (other_split sp))),
    Ho2, Hol2.
  split_and!; [done|done|apply (Hpre f Hf)|apply (Hpre _ Hlab)].
Qed.

(** C2: on a tree where every image file is well named, stems are unique
    in each class folder and no file name occurs in two class folders, a
    run into an empty output tree copies every complete pair of every
    class, bytes unchanged, into exactly one split: its image into
    [images/<split>] and its label file into [labels/<split>], and neither
    into the other split. *)
Theorem split_dataset_exclusive root g o' g' d folder f :
  split_ready root →
  split_dataset root (empty_dataset, g) = Ok (o', g') →
  root !! d = Some (NDir folder) → image_in folder f →
  file_exists folder (label_file_name f) = true →
  ∃ sp, images_of sp o' !! f = folder !! f ∧
    labels_of sp o' !! label_file_name f = folder !! label_file_name f ∧
    images_of (other_split sp) o' !! f = None ∧
    labels_of (other_split sp) o' !! label_file_name f = None.
Proof. apply split_dataset_exclusive_result. Qed.
End run.

(** ** Decidable checks of the run's conditions *)

Definition well_named_b (folder : gmap string string) : bool :=
  forallb (λ f, negb (is_image_name f) || bool_decide ((splitext f).2 ∈ image_exts))
    (map_to_list folder).*1.

Lemma well_named_b_sound folder : well_named_b folder = true → well_named folder.
Proof.
  unfold well_named_b. rewrite forallb_forall. intros Hall f [[v Hv] Hi].
  assert (Hf : In f (map_to_list folder).*1).
  { apply list_elem_of_In, list_elem_of_fmap. exists (f, v).
    split; [done|]. by apply elem_of_map_to_list. }
  apply Hall in Hf. rewrite Hi in Hf. simpl in Hf. by apply bool_decide_eq_true in Hf.
Qed.

(** The class folders of the tree, with their names. *)
Definition class_folders (root : gmap string node) : list (string * gmap string string) :=
  omap (λ dn, match dn.2 with NDir folder => Some (dn.1, folder) | NFile _ => None end)
    (map_to_list root).

Lemma class_folders_elem root d folder :
  (d, folder) ∈ class_folders root ↔ root !! d = Some (NDir folder).
Proof.
  unfold class_folders. rewrite list_elem_of_omap. split.
  - intros ([d' [c|folder']] & Hin & Heq); simpl in Heq; simplify_eq.
    by apply elem_of_map_to_list.
  - intros Hd. exists (d, NDir folder). split; [|done]. by apply elem_of_map_to_list.
Qed.

(** Any two distinct class folders have no file name in common. *)
Definition names_disjoint_b (root : gmap string node) : bool :=
  forallb (λ c1, forallb (λ c2,
      bool_decide (c1.1 = c2.1) ||
      forallb (λ n, negb (bool_decide (is_Some (c2.2 !! n)))) (map_to_list c1.2).*1)
    (class_folders root)) (class_folders root).

Lemma names_disjoint_b_sound root : names_disjoint_b root = true → names_disjoint root.
Proof.
  unfold names_disjoint_b. intros Hall d1 d2 f1 f2 n H1 H2 [v1 Hv1] Hn2.
  apply class_folders_elem, list_elem_of_In in H1, H2.
  rewrite forallb_forall in Hall. specialize (Hall _ H1).
  rewrite forallb_forall in Hall. specialize (Hall _ H2). simpl in Hall.
  apply orb_true_iff in Hall as [Heq|Hall]; [by apply bool_decide_eq_true in Heq|].
  rewrite forallb_forall in Hall.
  assert (Hn : In n (map_to_list f1).*1).
  { apply list_elem_of_In, list_elem_of_fmap. exists (n, v1).
    split; [done|]. by apply elem_of_map_to_list. }
  apply Hall in Hn. apply negb_true_iff, bool_decide_eq_false in Hn. done.
Qed.

Definition split_ready_b (root : gmap string node) : bool :=
  forallb (λ c, well_named_b c.2 && stems_unique_b c.2) (class_folders root) &&
  names_disjoint_b root.

Lemma split_ready_b_sound root : split_ready_b root = true → split_ready root.
Proof.
  unfold split_ready_b. rewrite andb_true_iff, forallb_forall. intros [Hall Hdis].
  split; [|by apply names_disjoint_b_sound].
  intros d folder Hd. apply class_folders_elem, list_elem_of_In, Hall in Hd.
  apply andb_true_iff in Hd as [Hw Hu]. simpl in *.
  split; [by apply well_named_b_sound | by apply stems_unique_b_sound].
Qed.
