(* ===== verification/SplitExamples.v ===== *)
(** * The splitter on concrete trees

    Two lawful [random.shuffle]s ([id_shuffler], which leaves the list as
    it is, and [rotate_shuffler], whose state is a counter and which
    rotates the list by it), concrete class folders, the witnesses of the
    splitter's theorems on them, and three trees on which the splitter
    breaks the contract of the spec: a stem shared by two images, an image
    with an upper-case extension, and a file name shared by two classes. *)

From S2P Require Import Prelude PyStr Vocabulary LabelWriter FileSystem Labeling Validator Splitter SplitRun.

Local Open Scope string_scope.

(** ** Two shuffles *)

Definition id_shuffler : Shuffler unit.
Proof. refine {| shuffle g l := (l, g) |}. intros; reflexivity. Defined.

(** [l] rotated left by [k mod len(l)]. *)
Definition rotate (k : nat) (l : list string) : list string :=
  let i := (k mod length l)%nat in drop i l ++ take i l.

Definition rotate_shuffler : Shuffler nat.
Proof.
  refine {| shuffle k l := (rotate k l, S k) |}.
  intros k l. simpl. unfold rotate. rewrite Permutation_app_comm. by rewrite take_drop.
Defined.

(** ** Concrete class folders *)

(** Two labeled images, an image without label and a labeled image. *)
Definition folder_A : gmap string string :=
  <["a.jpg" := "imgA1"]> (<["a.txt" := "0 0.5 0.5 0.2 0.2"]>
  (<["b.png" := "imgA2"]> (<["b.txt" := "0 0.4 0.4 0.1 0.1"]>
  (<["c.jpeg" := "imgA3"]>
  (<["d.jpg" := "imgA4"]> (<["d.txt" := "0 0.6 0.6 0.3 0.3"]> ∅)))))).

Definition folder_B : gmap string string :=
  <["e.jpg" := "imgB1"]> (<["e.txt" := "1 0.5 0.5 0.2 0.2"]> ∅).

(** Two class folders and a plain file. *)
Definition split_root : gmap string node :=
  <["A" := NDir folder_A]> (<["B" := NDir folder_B]> (<["notes.txt" := NFile "notes"]> ∅)).

(** Five complete pairs. *)
Definition folder_five : gmap string string :=
  <["p1.jpg" := "1"]> (<["p1.txt" := "l1"]> (<["p2.jpg" := "2"]> (<["p2.txt" := "l2"]>
  (<["p3.jpg" := "3"]> (<["p3.txt" := "l3"]> (<["p4.jpg" := "4"]> (<["p4.txt" := "l4"]>
  (<["p5.jpg" := "5"]> (<["p5.txt" := "l5"]> ∅))))))))).

(** Two images sharing the stem [a], and its label file. *)
Definition folder_dup : gmap string string :=
  <["a.jpg" := "jpeg bytes"]> (<["a.png" := "png bytes"]> (<["a.txt" := "0 0.5 0.5 0.2 0.2"]> ∅)).

(** An image whose extension is upper case, and its label file. *)
Definition folder_upper : gmap string string :=
  <["B.JPG" := "jpeg bytes"]> (<["B.txt" := "1 0.5 0.5 0.2 0.2"]> ∅).

(** Two classes with a pair of the same name. *)
Definition collision_root : gmap string node :=
  <["A" := NDir (<["x.jpg" := "hand A"]> (<["x.txt" := "0 0.5 0.5 0.2 0.2"]> ∅))]>
  (<["B" := NDir (<["x.jpg" := "hand B"]> (<["x.txt" := "1 0.5 0.5 0.2 0.2"]> ∅))]> ∅).

(** ** Lists with one repeated element *)

Lemma Permutation_two_same (l : list string) x : l ≡ₚ [x; x] → l = [x; x].
Proof.
  intros Hp. pose proof (Permutation_length Hp) as Hl.
  destruct l as [|y [|z [|? ?]]]; simpl in Hl; try lia.
  assert (Hy : y ∈ [x; x]) by (rewrite <- Hp; left).
  assert (Hz : z ∈ [x; x]) by (rewrite <- Hp; right; left).
  f_equal; [|f_equal]; set_solver.
Qed.

Lemma Permutation_one (l : list string) x : l ≡ₚ [x] → l = [x].
Proof. apply Permutation_singleton_r. Qed.

(** ** Where the splitter breaks the contract *)

Section counterexamples.
Context `{DirLister} {rng : Type} `{Shuffler rng}.

Lemma valid_images_dup : valid_images folder_dup = ["a"; "a"].
Proof.
  apply Permutation_two_same. etransitivity; [apply valid_images_perm|].
  vm_compute. reflexivity.
Qed.

Lemma valid_images_upper : valid_images folder_upper = ["B"].
Proof.
  apply Permutation_one. etransitivity; [apply valid_images_perm|].
  vm_compute. reflexivity.
Qed.

(** C31: two images with the same stem ([a.jpg] and [a.png]) sharing one
    label file give the base name [a] twice; whatever the shuffle, one
    copy goes to train and one to val, so [a.jpg] and [a.txt] land in
    both splits and [a.png] in neither: the spec's [train ∩ val == ∅]
    fails. *)
Theorem split_shared_stem_both_splits g o' g' :
  split_class folder_dup (empty_dataset, g) = Ok (o', g') →
  images_train o' = {["a.jpg" := "jpeg bytes"]} ∧ images_val o' = {["a.jpg" := "jpeg bytes"]} ∧
  labels_train o' = {["a.txt" := "0 0.5 0.5 0.2 0.2"]} ∧
  labels_val o' = {["a.txt" := "0 0.5 0.5 0.2 0.2"]}.
Proof.
  rewrite split_class_eq. destruct (assign folder_dup g) as [[tr va] g''] eqn:Ha.
  intros [= <- <-]. apply assign_eq in Ha as (sh & Hs & -> & ->).
  pose proof (shuffle_perm g (valid_images folder_dup)) as Hp.
  rewrite Hs, valid_images_dup in Hp. simpl in Hp. apply Permutation_two_same in Hp as ->.
  vm_compute. split_and!; reflexivity.
Qed.

(** On a case-sensitive file system (see [file_exists]), an image named
    with an upper-case extension ([B.JPG]) and its label file form a
    complete pair for the validator and for the splitter's filter (which
    lower-cases the name), but the copy loop looks only for [B.jpg],
    [B.jpeg] and [B.png]: the pair is never copied, and the output tree is
    left as it was. *)
Theorem split_upper_case_dropped o g o' g' :
  split_class folder_upper (o, g) = Ok (o', g') →
  report_row "B" folder_upper = mk_row "B" 1 1 0 ∧ valid_images folder_upper = ["B"] ∧ o' = o.
Proof.
  rewrite split_class_eq. destruct (assign folder_upper g) as [[tr va] g''] eqn:Ha.
  intros [= <- <-]. apply assign_eq in Ha as (sh & Hs & -> & ->).
  pose proof (shuffle_perm g (valid_images folder_upper)) as Hp.
  rewrite Hs, valid_images_upper in Hp. simpl in Hp. apply Permutation_one in Hp as ->.
  split_and!; [rewrite report_row_eq; vm_compute; reflexivity | apply valid_images_upper|].
  assert (Hnone : omap (copied_image folder_upper) ["B"] = []) by (vm_compute; reflexivity).
  assert (Hnone' : omap (copied_label folder_upper) ["B"] = []) by (vm_compute; reflexivity).
  assert (Hsplit : split_idx (length ["B"]) = 0%nat) by reflexivity.
  apply dataset_eq; intros sp;
    rewrite ?images_of_class_copies, ?labels_of_class_copies, Hsplit;
    destruct sp; cbn [split_part take drop omap list_omap];
    rewrite ?Hnone, ?Hnone', restrict_nil; apply (left_id_L ∅ (∪)).
Qed.
End counterexamples.

(** Two classes holding a pair of the same name ([x.jpg], [x.txt])
    both send it to [val] (one pair gives [int(0.8) = 0] train entries),
    and the second copy overwrites the first: only the class [os.listdir]
    lists last survives, so the output depends on the listing order. *)
Theorem split_collision_listing_order :
  @split_dataset map_order_lister unit id_shuffler collision_root (empty_dataset, tt) =
    Ok (mk_dataset ∅ {["x.jpg" := "hand B"]} ∅ {["x.txt" := "1 0.5 0.5 0.2 0.2"]}, tt) ∧
  @split_dataset reverse_order_lister unit id_shuffler collision_root (empty_dataset, tt) =
    Ok (mk_dataset ∅ {["x.jpg" := "hand A"]} ∅ {["x.txt" := "0 0.5 0.5 0.2 0.2"]}, tt).
Proof. split; vm_compute; reflexivity. Qed.

(** ** Witnesses *)

#[local] Existing Instance map_order_lister.
#[local] Instance rotate_inst : Shuffler nat := rotate_shuffler.

(** The assignment of [folder_five] from the generator state [3]. *)
Definition five_assign : list string * list string * nat := assign folder_five 3%nat.

(** The run on [split_root] from the generator state [0]. *)
Definition split_root_run : dataset * nat :=
  match split_dataset split_root (empty_dataset, 0%nat) with
  | Ok st => st
  | Raise _ => (empty_dataset, 0%nat)
  end.

Lemma assign_partition_witness :
  five_assign.1.1 ++ five_assign.1.2 ≡ₚ valid_images folder_five ∧
  length five_assign.1.1 = (4 * length (valid_images folder_five) / 5)%nat ∧
  length five_assign.1.2 =
    (length (valid_images folder_five) - 4 * length (valid_images folder_five) / 5)%nat.
Proof.
  apply (assign_partition folder_five 3%nat five_assign.1.1 five_assign.1.2 five_assign.2).
  vm_compute. reflexivity.
Defined.

Lemma assign_disjoint_witness : NoDup (five_assign.1.1 ++ five_assign.1.2).
Proof.
  apply (assign_disjoint folder_five 3%nat five_assign.1.1 five_assign.1.2 five_assign.2).
  - apply stems_unique_b_sound. vm_compute. reflexivity.
  - vm_compute. reflexivity.
Defined.

Lemma assign_five_witness : length five_assign.1.1 = 4%nat ∧ length five_assign.1.2 = 1%nat.
Proof.
  apply (assign_five folder_five 3%nat five_assign.1.1 five_assign.1.2 five_assign.2).
  - vm_compute. reflexivity.
  - vm_compute. reflexivity.
Defined.

Lemma split_dataset_exclusive_witness :
  ∃ sp, images_of sp split_root_run.1 !! "d.jpg" = folder_A !! "d.jpg" ∧
    labels_of sp split_root_run.1 !! label_file_name "d.jpg" = folder_A !! label_file_name "d.jpg" ∧
    images_of (other_split sp) split_root_run.1 !! "d.jpg" = None ∧
    labels_of (other_split sp) split_root_run.1 !! label_file_name "d.jpg" = None.
Proof.
  apply (split_dataset_exclusive split_root 0%nat split_root_run.1 split_root_run.2 "A" folder_A).
  - apply split_ready_b_sound. vm_compute. reflexivity.
  - vm_compute. reflexivity.
  - vm_compute. reflexivity.
  - split; [exists "imgA4"; vm_compute; reflexivity | vm_compute; reflexivity].
  - vm_compute. reflexivity.
Defined.

Lemma split_dataset_identical_witness : from_source split_root empty_dataset "d.jpg" "imgA4".
Proof.
  apply (split_dataset_identical split_root empty_dataset 0%nat split_root_run.1 split_root_run.2)
    with (sp := Val).
  - vm_compute. reflexivity.
  - left. vm_compute. reflexivity.
Defined.

Lemma split_shared_stem_both_splits_witness :
  let o' := match @split_class map_order_lister unit id_shuffler folder_dup (empty_dataset, tt) with
            | Ok st => st.1 | Raise _ => empty_dataset end in
  images_train o' = {["a.jpg" := "jpeg bytes"]} ∧ images_val o' = {["a.jpg" := "jpeg bytes"]} ∧
  labels_train o' = {["a.txt" := "0 0.5 0.5 0.2 0.2"]} ∧
  labels_val o' = {["a.txt" := "0 0.5 0.5 0.2 0.2"]}.
Proof.
  apply (@split_shared_stem_both_splits map_order_lister unit id_shuffler tt _ tt).
  vm_compute. reflexivity.
Defined.

Lemma split_upper_case_dropped_witness :
  report_row "B" folder_upper = mk_row "B" 1 1 0 ∧ valid_images folder_upper = ["B"] ∧
  empty_dataset = empty_dataset.
Proof.
  apply (split_upper_case_dropped empty_dataset 0%nat empty_dataset 1%nat).
  vm_compute. reflexivity.
Defined.
