(* ===== verification/Realtime.v ===== *)
(** * The real-time detection loop

    [src/asl+sign digits detection/project_code/realtime_detection.py],
    lines 10-40: read webcam frames until the camera closes, a read fails or
    the user presses [q]; for each frame, run the trained detector and draw
    every box with the label [f"{class_name}: {conf:.2f}"].

    - the camera is the list of its [tick]s: whether [cap.isOpened()] holds,
      the frame [cap.read()] returns (or none), and the code [cv2.waitKey(1)]
      returns after the frame is shown ([-1] when no key is pressed);
    - the YOLO model is the [Detector] interface: its boxes for a frame
      ([results], each with its [boxes]) and its optional [names] table;
    - the drawing is the list of rectangles and labels put on the frame;
      windows are not modelled.

    The theorems: the quit test [cv2.waitKey(1) & 0xFF == ord("q")] holds
    exactly for the key codes whose low byte is 113 (so no key, [-1], never
    quits, and neither does [Q]); the loop stops at the first frame whose
    key quits and shows every frame up to it; a box whose class is missing
    from [names] makes the loop raise [KeyError]. *)

From S2P Require Import Prelude PyStr.

Local Open Scope string_scope.

(** One box of [r.boxes]: [xyxy[0]], [conf[0]], [cls[0]]. *)
Record detection := mk_detection {
  det_xyxy : Q * Q * Q * Q;
  det_conf : Q;
  det_cls : Q
}.

(** The trained detector: [model(frame)] as the boxes of each result, and
    [model.names] when the attribute exists. *)
Class Detector (frame : Type) := {
  infer : frame → list (list detection);
  model_names : option (gmap Z string)
}.

(** One turn of the camera. *)
Record tick (frame : Type) := mk_tick {
  opened : bool;
  grabbed : option frame;
  key : Z
}.
Arguments mk_tick {frame}.
Arguments opened {frame}.
Arguments grabbed {frame}.
Arguments key {frame}.

(** A rectangle in integer pixels and its text. *)
Record drawn := mk_drawn {
  rect : Z * Z * Z * Z;
  text : string
}.

(** [f"{x:.2f}"], as [f"{x:.6f}"] with two decimals. *)
Definition fmt_fixed2 (q : Q) : string :=
  let n := Z.to_N (round_half_even (Qabs q * 100)) in
  (if Qltb q 0 then "-" else "") ++ fmt_N (n / 100) ++ "." ++ fixed_digits 2 (n mod 100).

(** [f"{z}"] for an integer. *)
Definition fmt_Z (z : Z) : string :=
  if (z <? 0)%Z then "-" ++ fmt_N (Z.to_N (- z)) else fmt_N (Z.to_N z).

(** Line 39: [cv2.waitKey(1) & 0xFF == ord("q")]. *)
Definition is_quit (k : Z) : bool := Z.eqb (Z.land k 255) 113.

Section realtime.
Context {frame : Type} `{Detector frame}.

(** Line 26. *)
Definition class_name (cls : Z) : res string :=
  match model_names with
  | Some names => match names !! cls with Some n => Ok n | None => Raise KeyError end
  | None => Ok ("Class " ++ fmt_Z cls)
  end.

(** Lines 21-33 for one box. *)
Definition draw_box (shapes : list drawn) (box : detection) : res (list drawn) :=
  let '(x1, y1, x2, y2) := det_xyxy box in
  let cls := py_int (det_cls box) in
  name ← class_name cls;
  Ok (shapes ++ [mk_drawn (py_int x1, py_int y1, py_int x2, py_int y2)
                   (name ++ ": " ++ fmt_fixed2 (det_conf box))%string])%list.

(** Lines 19-33: [for r in results: for box in r.boxes: ...]. *)
Definition annotate (results : list (list detection)) : res (list drawn) :=
  py_for (λ shapes boxes, py_for draw_box boxes shapes) results [].

(** Lines 10-40: the frames shown, each with its drawing. *)
Fixpoint run_loop (ticks : list (tick frame)) (shown : list (frame * list drawn))
    : res (list (frame * list drawn)) :=
  match ticks with
  | [] => Ok shown
  | t :: ticks' =>
      if opened t then
        match grabbed t with
        | None => Ok shown
        | Some fr =>
            shapes ← annotate (infer fr);
            let shown := (shown ++ [(fr, shapes)])%list in
            if is_quit (key t) then Ok shown else run_loop ticks' shown
        end
      else Ok shown
  end.

End realtime.

(** ** The quit test *)

(** The quit test holds exactly for the key codes whose low byte is
    [ord("q") = 113]: [-1] (no key pressed) and [ord("Q") = 81] do not
    quit, a code with modifier bits above the low byte and low byte 113
    does. *)
Theorem is_quit_spec k : is_quit k = true ↔ (k mod 256 = 113)%Z.
Proof.
  unfold is_quit. rewrite Z.eqb_eq.
  change 255%Z with (Z.ones 8). rewrite Z.land_ones by lia. done.
Qed.

(** ** The loop *)

Section loop.
Context {frame : Type} `{Detector frame}.

(** Every class the detector reports has a name. *)
Definition names_complete : Prop :=
  ∀ fr boxes box, boxes ∈ infer fr → box ∈ boxes → ∃ n, class_name (py_int (det_cls box)) = Ok n.

(** A tick on which the loop shows a frame and goes on. *)
Definition tick_continues (t : tick frame) : Prop :=
  opened t = true ∧ is_Some (grabbed t) ∧ is_quit (key t) = false.

Lemma draw_boxes_ok boxes shapes :
  (∀ box, box ∈ boxes → ∃ n, class_name (py_int (det_cls box)) = Ok n) →
  ∃ shapes', py_for draw_box boxes shapes = Ok shapes'.
Proof.
  intros Hn. apply py_for_total. intros s box Hbox.
  destruct (Hn box Hbox) as [n Hc]. unfold draw_box.
  destruct (det_xyxy box) as [[[x1 y1] x2] y2]. rewrite Hc. eauto.
Qed.

Lemma annotate_ok results :
  (∀ boxes box, boxes ∈ results → box ∈ boxes → ∃ n, class_name (py_int (det_cls box)) = Ok n) →
  ∃ shapes, annotate results = Ok shapes.
Proof.
  intros Hn. unfold annotate. apply py_for_total. intros s boxes Hb.
  apply draw_boxes_ok. intros box Hbox. eauto.
Qed.

Lemma run_loop_continue pre rest shown :
  names_complete → Forall tick_continues pre →
  ∃ shown', run_loop (pre ++ rest)%list shown = run_loop rest shown' ∧
    map fst shown' = (map fst shown ++ omap grabbed pre)%list.
Proof.
  intros Hn Hpre. revert shown. induction Hpre as [|t pre (Ho & [fr Hg] & Hq) _ IH]; intros shown.
  { exists shown. by rewrite app_nil_r. }
  cbn [app run_loop]. rewrite Ho, Hg.
  destruct (annotate_ok (infer fr)) as [shapes Hs]; [intros; by eapply Hn|].
  rewrite Hs, res_bind_Ok, Hq.
  destruct (IH (shown ++ [(fr, shapes)])%list) as (shown' & Hrun & Hfst).
  exists shown'. split; [done|]. rewrite Hfst, map_app, <- app_assoc. simpl. by rewrite Hg.
Qed.

(** When every class the detector reports has a name, the loop shows
    each frame in turn until the first one after which the pressed key
    quits, shows that one too, and reads no further tick. *)
Theorem run_loop_stops_at_quit pre t post :
  names_complete → Forall tick_continues pre →
  opened t = true → is_Some (grabbed t) → is_quit (key t) = true →
  ∃ shown, run_loop (pre ++ t :: post)%list [] = Ok shown ∧
    map fst shown = omap grabbed (pre ++ [t])%list.
Proof.
  intros Hn Hpre Ho [fr Hg] Hq.
  destruct (run_loop_continue pre (t :: post) [] Hn Hpre) as (shown & Hrun & Hfst).
  rewrite Hrun. cbn [run_loop]. rewrite Ho, Hg.
  destruct (annotate_ok (infer fr)) as [shapes Hs]; [intros; by eapply Hn|].
  rewrite Hs, res_bind_Ok, Hq. eexists; split; [done|].
  rewrite map_app, Hfst, omap_app. simpl. by rewrite Hg.
Qed.
End loop.

(** ** A concrete detector *)

(** One box of class 5 with confidence 0.87 on every frame. *)
Definition test_boxes : list (list detection) := [[mk_detection (10, 20, 30, 40) (87 # 100) 5]].

Definition named_detector : Detector string :=
  {| infer _ := test_boxes; model_names := Some {[5%Z := "five"]} |}.

Definition partial_detector : Detector string :=
  {| infer _ := test_boxes; model_names := Some {[0%Z := "A"]} |}.

(** A model whose [names] table lacks a class it reports makes the
    loop raise [KeyError] at the first frame with such a box. *)
Theorem run_loop_unknown_class :
  @run_loop string partial_detector [mk_tick true (Some "frame") (-1)] [] = Raise KeyError.
Proof. vm_compute. reflexivity. Qed.

Lemma run_loop_stops_at_quit_witness :
  ∃ shown, @run_loop string named_detector
             ([mk_tick true (Some "f1") (-1)] ++ mk_tick true (Some "f2") (113 + 256) :: [])%list
             [] = Ok shown ∧
           map fst shown =
             omap grabbed ([mk_tick true (Some "f1") (-1)] ++ [mk_tick true (Some "f2") (113 + 256)])%list.
Proof.
  apply (@run_loop_stops_at_quit string named_detector).
  - intros fr boxes box Hb Hbox. simpl in Hb. apply list_elem_of_singleton in Hb as ->.
    apply list_elem_of_singleton in Hbox as ->. eexists. vm_compute. reflexivity.
  - repeat constructor; vm_compute; eauto.
  - reflexivity.
  - eexists. reflexivity.
  - vm_compute. reflexivity.
Defined.
