(* ===== verification/RealtimeLoop.v ===== *)
(** * The real-time loop as a [while] loop over an unbounded camera

    [realtime_detection.py], lines 10-40, is [while cap.isOpened(): ...]:
    it runs as long as the webcam stays open, delivers frames and no [q]
    is pressed, possibly forever.  [Realtime] models the loop on a finite
    list of ticks; here the camera is a function from the turn number to
    its tick (turn [n] is the [n]-th test of [cap.isOpened()]), and the
    loop is
    - executable: [loop_body] is one turn of lines 10-40, returning the
      next state or the loop's result, and [run_camera] runs it with
      [py_while] and a fuel bound;
    - relational: [loop_step] (a turn that shows a frame and goes on) and
      [loop_exit] (the four ways out: the camera closed, no frame, [q], an
      exception), with the code's conditions as the constructors'
      premises.

    The theorems: the two agree (the executable loop returns [r] exactly
    when a chain of steps reaches an exit with [r]); every reachable state
    has shown exactly the frames of the turns so far, in order; when every
    class has a name, the loop ends by turn [n + 1] for any turn [n] whose
    tick stops it, and it ends at all exactly when such a turn exists (a
    camera that stays open, always delivers a frame and never sees [q]
    keeps the loop running forever); on the turns it runs, the loop is the
    list model [run_loop] of [Realtime]. *)

From S2P Require Import Prelude PyStr Realtime.

Local Open Scope string_scope.
Local Open Scope nat_scope.

(** The loop's state between two turns: the turn number and the frames
    shown so far with their drawings. *)
Record loop_state (frame : Type) := mk_loop_state {
  ls_pos : nat;
  ls_shown : list (frame * list drawn)
}.
Arguments mk_loop_state {frame}.
Arguments ls_pos {frame}.
Arguments ls_shown {frame}.

(** A tick on which the loop stops: the camera is closed, the read fails
    or the key quits. *)
Definition tick_stops {frame} (t : tick frame) : bool :=
  negb (opened t) || bool_decide (grabbed t = None) || is_quit (key t).

Section camera.
Context {frame : Type} `{Detector frame} (cam : nat → tick frame).

(** One turn of lines 10-40. *)
Definition loop_body (s : loop_state frame)
    : res (loop_state frame + list (frame * list drawn)) :=
  let t := cam (ls_pos s) in
  if opened t then
    match grabbed t with
    | None => Ok (inr (ls_shown s))
    | Some fr =>
        shapes ← annotate (infer fr);
        let shown := (ls_shown s ++ [(fr, shapes)])%list in
        if is_quit (key t) then Ok (inr shown) else Ok (inl (mk_loop_state (S (ls_pos s)) shown))
    end
  else Ok (inr (ls_shown s)).

Definition loop_init : loop_state frame := mk_loop_state 0 [].

(** The loop from its start, with at most [fuel] turns. *)
Definition run_camera (fuel : nat) : option (res (list (frame * list drawn))) :=
  py_while fuel loop_body loop_init.

(** A turn that shows a frame and goes on. *)
Inductive loop_step : loop_state frame → loop_state frame → Prop :=
  | step_frame s fr shapes :
      opened (cam (ls_pos s)) = true →
      grabbed (cam (ls_pos s)) = Some fr →
      annotate (infer fr) = Ok shapes →
      is_quit (key (cam (ls_pos s))) = false →
      loop_step s (mk_loop_state (S (ls_pos s)) (ls_shown s ++ [(fr, shapes)])%list).

(** The ways out of the loop. *)
Inductive loop_exit : loop_state frame → res (list (frame * list drawn)) → Prop :=
  | exit_closed s :
      opened (cam (ls_pos s)) = false → loop_exit s (Ok (ls_shown s))
  | exit_no_frame s :
      opened (cam (ls_pos s)) = true → grabbed (cam (ls_pos s)) = None →
      loop_exit s (Ok (ls_shown s))
  | exit_quit s fr shapes :
      opened (cam (ls_pos s)) = true → grabbed (cam (ls_pos s)) = Some fr →
      annotate (infer fr) = Ok shapes → is_quit (key (cam (ls_pos s))) = true →
      loop_exit s (Ok (ls_shown s ++ [(fr, shapes)])%list)
  | exit_raise s fr e :
      opened (cam (ls_pos s)) = true → grabbed (cam (ls_pos s)) = Some fr →
      annotate (infer fr) = Raise e → loop_exit s (Raise e).

(** The frames of the turns before [n]. *)
Definition frames_before (n : nat) : list frame := omap (λ i, grabbed (cam i)) (seq 0 n).
End camera.

(** ** The executable loop and the relational loop agree *)

Section agree.
Context {frame : Type} `{Detector frame} (cam : nat → tick frame).

Lemma loop_body_step s s' : while_step (loop_body cam) s s' ↔ loop_step cam s s'.
Proof.
  unfold while_step, loop_body. split.
  - destruct (opened _) eqn:Ho; [|done]. destruct (grabbed _) as [fr|] eqn:Hg; [|done].
    destruct (annotate (infer fr)) as [shapes|e] eqn:Ha; [|done]. rewrite res_bind_Ok.
    destruct (is_quit _) eqn:Hq; [done|]. intros [= <-]. by constructor.
  - intros [s0 fr shapes Ho Hg Ha Hq]. by rewrite Ho, Hg, Ha, res_bind_Ok, Hq.
Qed.

Lemma loop_body_exit s r : while_exit (loop_body cam) s r ↔ loop_exit cam s r.
Proof.
  unfold while_exit, loop_body. split.
  - destruct (opened _) eqn:Ho; [|intros ->; by constructor].
    destruct (grabbed _) as [fr|] eqn:Hg; [|intros ->; by constructor].
    destruct (annotate (infer fr)) as [shapes|e] eqn:Ha; simpl; [|intros ->; by econstructor].
    destruct (is_quit _) eqn:Hq; [intros ->; by econstructor | done].
  - intros [s0 Ho|s0 Ho Hg|s0 fr shapes Ho Hg Ha Hq|s0 fr e Ho Hg Ha]; rewrite Ho; try done.
    + by rewrite Hg.
    + by rewrite Hg, Ha, res_bind_Ok, Hq.
    + by rewrite Hg, Ha.
Qed.

Lemma rtc_loop_step s s' : rtc (while_step (loop_body cam)) s s' ↔ rtc (loop_step cam) s s'.
Proof. split; apply rtc_subrel; intros; by apply loop_body_step. Qed.
End agree.

(** The executable loop and the relational loop are the same loop:
    [run_camera] returns [r] for some fuel exactly when a chain of
    [loop_step]s from the start reaches a state that leaves the loop by a
    [loop_exit] with [r]. *)
Theorem run_camera_iff {frame} `{Detector frame} (cam : nat → tick frame) r :
  (∃ fuel, run_camera cam fuel = Some r) ↔
  ∃ s, rtc (loop_step cam) loop_init s ∧ loop_exit cam s r.
Proof.
  split.
  - intros [fuel Hrun]. destruct (py_while_sound _ _ _ _ Hrun) as (s & Hsteps & Hexit).
    exists s. by rewrite <- rtc_loop_step, <- loop_body_exit.
  - intros (s & Hsteps & Hexit). apply (py_while_complete _ _ s).
    + by apply rtc_loop_step.
    + by apply loop_body_exit.
Qed.

(** ** What the loop has shown *)

Section reachable.
Context {frame : Type} `{Detector frame} (cam : nat → tick frame).

Lemma frames_before_S n :
  frames_before cam (S n) = (frames_before cam n ++ option_list (grabbed (cam n)))%list.
Proof.
  unfold frames_before. rewrite seq_S, omap_app. simpl. by destruct (grabbed (cam n)).
Qed.

(** C24: every state the loop reaches has gone through turns that each
    showed a frame and did not stop it, and has shown exactly the frames
    of those turns, in order: an invariant proved by induction on the
    chain of [loop_step]s. *)
Theorem loop_reachable_frames s :
  rtc (loop_step cam) loop_init s →
  map fst (ls_shown s) = frames_before cam (ls_pos s) ∧
  ∀ i, i < ls_pos s → tick_stops (cam i) = false.
Proof.
  intros Hr. pattern s. apply (rtc_ind_r (R := loop_step cam) _ loop_init); [| |exact Hr].
  - split; [done | simpl; lia].
  - intros y z _ Hstep [IHf IHs]. destruct Hstep as [y fr shapes Ho Hg Ha Hq]. simpl. split.
    + rewrite map_app, IHf, frames_before_S, Hg. done.
    + intros i Hi. destruct (decide (i = ls_pos y)) as [->|Hne]; [|apply IHs; lia].
      unfold tick_stops. by rewrite Ho, Hg, Hq.
Qed.
End reachable.

(** ** Termination and liveness *)

Section termination.
Context {frame : Type} `{Detector frame} (cam : nat → tick frame).

Lemma annotate_named fr : names_complete → ∃ shapes, annotate (infer fr) = Ok shapes.
Proof. intros Hn. apply annotate_ok. intros boxes box Hb Hbox. by eapply Hn. Qed.

(** A turn whose tick stops the loop ends it. *)
Lemma loop_body_stops s :
  names_complete → tick_stops (cam (ls_pos s)) = true → ∃ r, loop_body cam s = Ok (inr r).
Proof.
  intros Hn Hs. unfold tick_stops in Hs. unfold loop_body.
  destruct (opened _) eqn:Ho; [|eauto]. destruct (grabbed _) as [fr|] eqn:Hg; [|eauto].
  destruct (annotate_named fr Hn) as [shapes ->]. rewrite res_bind_Ok.
  rewrite bool_decide_false in Hs by done. simpl in Hs. rewrite Hs. eauto.
Qed.

(** Any other turn shows its frame and goes on to the next one. *)
Lemma loop_body_continues s :
  names_complete → tick_stops (cam (ls_pos s)) = false →
  ∃ s', loop_body cam s = Ok (inl s') ∧ ls_pos s' = S (ls_pos s).
Proof.
  intros Hn Hs. unfold tick_stops in Hs. apply orb_false_iff in Hs as [Hs Hq].
  apply orb_false_iff in Hs as [Ho Hg]. apply negb_false_iff in Ho.
  apply bool_decide_eq_false in Hg. unfold loop_body. rewrite Ho.
  destruct (grabbed _) as [fr|]; [|done].
  destruct (annotate_named fr Hn) as [shapes ->]. rewrite res_bind_Ok, Hq. eauto.
Qed.

Lemma loop_from_terminates k s :
  names_complete → tick_stops (cam (ls_pos s + k)) = true →
  ∃ r, ∀ fuel, k < fuel → py_while fuel (loop_body cam) s = Some (Ok r).
Proof.
  intros Hn. revert s. induction k as [|k IH]; intros s Hk.
  - rewrite Nat.add_0_r in Hk. destruct (loop_body_stops s Hn Hk) as [r Hr].
    exists r. intros [|fuel] Hf; [lia|]. simpl. by rewrite Hr.
  - destruct (tick_stops (cam (ls_pos s))) eqn:Hs.
    + destruct (loop_body_stops s Hn Hs) as [r Hr].
      exists r. intros [|fuel] Hf; [lia|]. simpl. by rewrite Hr.
    + destruct (loop_body_continues s Hn Hs) as (s' & Hb & Hpos).
      destruct (IH s') as [r Hr]; [by rewrite Hpos, Nat.add_succ_comm|].
      exists r. intros [|fuel] Hf; [lia|]. simpl. rewrite Hb. apply Hr. lia.
Qed.
End termination.

(** C22: when every class the detector reports has a name, the loop
    terminates: if the tick of turn [n] stops it (closed camera, failed
    read or [q]), every fuel bound above [n] gives the same result, so the
    loop ends within [n + 1] turns. *)
Theorem run_camera_terminates {frame} `{Detector frame} (cam : nat → tick frame) n :
  names_complete → tick_stops (cam n) = true →
  ∃ shown, ∀ fuel, n < fuel → run_camera cam fuel = Some (Ok shown).
Proof. intros Hn Hs. by apply (loop_from_terminates cam n loop_init). Qed.

(** C23: when every class has a name, the loop ends (for some fuel) exactly
    when some turn's tick stops it: a camera that stays open, always
    delivers a frame and never sees [q] keeps the loop running forever. *)
Theorem run_camera_ends_iff {frame} `{Detector frame} (cam : nat → tick frame) :
  names_complete →
  (∃ fuel r, run_camera cam fuel = Some r) ↔ ∃ n, tick_stops (cam n) = true.
Proof.
  intros Hn. split.
  - intros (fuel & r & Hrun).
    destruct (decide (Exists (λ n, tick_stops (cam n) = true) (seq 0 fuel))) as [Hex|Hno].
    { apply Exists_exists in Hex as (n & _ & Hs). eauto. }
    exfalso. revert Hrun. unfold run_camera.
    assert (Hgen : ∀ k s, ls_pos s + k = fuel → py_while k (loop_body cam) s = None).
    { induction k as [|k IH]; intros s Hk; [done|]. simpl.
      destruct (loop_body_continues cam s Hn) as (s' & -> & Hpos).
      - destruct (tick_stops _) eqn:Hs; [|done]. destruct Hno. apply Exists_exists.
        exists (ls_pos s). split; [apply elem_of_seq; lia | done].
      - apply IH. lia. }
    by rewrite Hgen.
  - intros [n Hs]. destruct (run_camera_terminates cam n Hn Hs) as [shown Hrun].
    exists (S n), (Ok shown). apply Hrun. lia.
Qed.

(** ** The loop on the turns it runs is the list model *)

Lemma loop_run_list {frame} `{Detector frame} (cam : nat → tick frame) fuel s r :
  py_while fuel (loop_body cam) s = Some r →
  run_loop (map cam (seq (ls_pos s) fuel)) (ls_shown s) = r.
Proof.
  revert s. induction fuel as [|fuel IH]; intros s Hrun; [done|].
  cbn [seq map run_loop]. simpl in Hrun. unfold loop_body in Hrun.
  destruct (opened (cam (ls_pos s))); [|by injection Hrun as <-].
  destruct (grabbed (cam (ls_pos s))) as [fr|]; [|by injection Hrun as <-].
  destruct (annotate (infer fr)) as [shapes|e]; rewrite ?res_bind_Ok, ?res_bind_Raise in Hrun |- *;
    [|by injection Hrun as <-].
  destruct (is_quit (key (cam (ls_pos s)))); [by injection Hrun as <-|].
  apply (IH _ Hrun).
Qed.

(** The unbounded loop refines the list model of [Realtime]: when
    [run_camera] ends within [fuel] turns with [r], [run_loop] on the
    first [fuel] ticks of the camera gives [r] too. *)
Theorem run_camera_list {frame} `{Detector frame} (cam : nat → tick frame) fuel r :
  run_camera cam fuel = Some r → run_loop (map cam (seq 0 fuel)) [] = r.
Proof. apply (loop_run_list cam fuel loop_init). Qed.

(** ** A concrete camera *)

(** Three frames with no key pressed, then a frame after which [q] is
    pressed. *)
Definition demo_cam (n : nat) : tick string :=
  if n <? 3 then mk_tick true (Some "frame") (-1)%Z else mk_tick true (Some "last") 113%Z.

Lemma named_detector_complete : @names_complete string named_detector.
Proof.
  intros fr boxes box Hb Hbox. simpl in Hb. apply list_elem_of_singleton in Hb as ->.
  apply list_elem_of_singleton in Hbox as ->. eexists. vm_compute. reflexivity.
Qed.

Lemma run_camera_terminates_witness :
  ∃ shown, ∀ fuel, 3 < fuel → @run_camera string named_detector demo_cam fuel = Some (Ok shown).
Proof.
  apply (@run_camera_terminates string named_detector demo_cam 3).
  - apply named_detector_complete.
  - reflexivity.
Defined.

Lemma run_camera_ends_iff_witness :
  (∃ fuel r, @run_camera string named_detector demo_cam fuel = Some r) ↔
  ∃ n, tick_stops (demo_cam n) = true.
Proof. apply run_camera_ends_iff, named_detector_complete. Defined.

Lemma loop_reachable_frames_witness :
  ∃ s, ls_pos s = 2 ∧
    map fst (ls_shown s) = frames_before demo_cam (ls_pos s) ∧
    ∀ i, i < ls_pos s → tick_stops (demo_cam i) = false.
Proof.
  assert (Hr : ∃ s, rtc (@loop_step string named_detector demo_cam) loop_init s ∧ ls_pos s = 2).
  { eexists. split.
    - eapply rtc_l; [econstructor; reflexivity|].
      eapply rtc_l; [econstructor; reflexivity|]. apply rtc_refl.
    - reflexivity. }
  destruct Hr as (s & Hs & Hpos). exists s. split; [done|].
  apply (@loop_reachable_frames string named_detector demo_cam s Hs).
Defined.

Lemma run_camera_list_witness :
  ∃ r, @run_camera string named_detector demo_cam 5 = Some r ∧
       @run_loop string named_detector (map demo_cam (seq 0 5)) [] = r.
Proof.
  eexists. split; [reflexivity|]. apply run_camera_list. reflexivity.
Defined.
