(* ===== verification/CombinedData.v ===== *)
(** * Merging the two raw datasets: [combined_data.py]

    [src/asl+sign digits detection/project_code/combined_data.py] copies
    the two raw datasets into one folder, [data/combined_data/images]:
    - [combine_asl_alphabet] (lines 8-23): for every folder of the ASL
      alphabet dataset, create the folder of the same name in the output
      (unless something of that name exists) and [shutil.copy] every file
      whose name ends in [.jpg] or [.png] (case-sensitive) into it;
    - [combine_digits] (lines 26-39): for every [.npy] file of the digits
      dataset, load its array and write each of its images [i], converted
      with [cv2.cvtColor(img, cv2.COLOR_GRAY2RGB)], as
      [f"{filename}_{i}.jpg"] directly into the output folder;
    - [combine_datasets] (lines 42-50): the two in turn.

    The output folder is a tree of the [FileSystem] model ([None] when it
    does not exist yet); the inputs are trees of their own.  [np.load] and
    the conversion are the interfaces [NpyLoader] and [CvConverter] (the
    bytes [cv2.imwrite] writes, or [None] when [cv2.cvtColor] raises).
    [shutil.copy(src, dst)] copies into [dst] when it is a folder and
    otherwise writes the file [dst]; [cv2.imwrite] onto a folder returns
    [False], which the code ignores.

    The theorems: when no regular file of the output has the name of an
    alphabet folder, the alphabet copy gives the same tree for every
    listing order, namely each folder's [.jpg]/[.png] files added to (and
    overriding) the output folder of its name; when a regular file is in
    the way, the images overwrite one another and the listing order picks
    the survivor; the digits step writes every image of every [.npy] file
    under its own name, in any listing order, and a single image that does
    not convert aborts the run with [cv2.error]; on the layout that
    [image_extraction.py] reads the digits from (the [.npy] files one
    folder down), the digits step writes nothing. *)

From S2P Require Import Prelude PyStr FileSystem ImageExtraction.
From Stdlib Require Import Ascii String DecimalString.

Local Open Scope string_scope.

(** ** Collaborators *)

(** [np.load(file_path)]: the images of the array, or [None] when the
    bytes are not an array ([ValueError]). *)
Class NpyLoader (A : Type) := {
  np_load : string → option (list A)
}.

(** [cv2.cvtColor(img, cv2.COLOR_GRAY2RGB)] followed by the encoding
    [cv2.imwrite] writes: [None] when [cvtColor] raises [cv2.error]. *)
Class CvConverter (A : Type) := {
  cvt_gray2rgb : A → option string
}.

(** ** The alphabet: lines 8-23 *)

(** Line 21: [filename.endswith(".jpg") or filename.endswith(".png")]. *)
Definition is_asl_image (f : string) : bool := py_endswith f ".jpg" || py_endswith f ".png".

(** Line 23: [shutil.copy(img_path, output_folder)]: into the folder when
    [output_folder] is one, otherwise onto the path [output_folder]. *)
Definition copy_into (out : gmap string node) (d f contents : string) : gmap string node :=
  match out !! d with
  | Some (NDir dst) => <[d := NDir (<[f := contents]> dst)]> out
  | _ => <[d := NFile contents]> out
  end.

Section combine.
Context `{DirLister}.

(** Lines 21-23 for one [filename] of the folder [d]. *)
Definition combine_asl_file (folder : gmap string string) (d : string)
    (out : gmap string node) (filename : string) : res (gmap string node) :=
  if is_asl_image filename then
    match folder !! filename with
    | Some contents => Ok (copy_into out d filename contents)
    | None => Raise FileNotFoundError
    end
  else Ok out.

(** Lines 13-23 for one [foldername]. *)
Definition combine_asl_folder (input : gmap string node) (out : gmap string node)
    (foldername : string) : res (gmap string node) :=
  match input !! foldername with
  | Some (NDir folder) =>
      let out := match out !! foldername with
                 | None => <[foldername := NDir ∅]> out
                 | Some _ => out
                 end in
      py_for (combine_asl_file folder foldername) (listdir_folder folder) out
  | _ => Ok out
  end.

(** Lines 8-23: [None] is an output folder that does not exist yet
    (lines 9-10 create it). *)
Definition combine_asl_alphabet (input : gmap string node) (out : option (gmap string node))
    : res (gmap string node) :=
  py_for (combine_asl_folder input) (listdir_tree input) (default ∅ out).
End combine.

(** ** The digits: lines 26-39 *)

(** Line 38: [f"{filename}_{i}.jpg"]. *)
Definition npy_image_name (filename : string) (i : nat) : string :=
  filename ++ "_" ++ str_nat i ++ ".jpg".

(** Line 39: [cv2.imwrite(output_path, img_rgb)]; onto a folder it
    returns [False] and writes nothing. *)
Definition imwrite (out : gmap string node) (path bytes : string) : gmap string node :=
  match out !! path with
  | Some (NDir _) => out
  | _ => <[path := NFile bytes]> out
  end.

(** [enumerate(data)]. *)
Definition py_enumerate {B} (l : list B) : list (nat * B) := zip (seq 0 (List.length l)) l.

Section combine_digits.
Context `{DirLister} {A : Type} `{NpyLoader A} `{CvConverter A}.

(** Lines 37-39 for one [(i, img)] of the array of [filename]. *)
Definition combine_digit_image (filename : string) (out : gmap string node) (p : nat * A)
    : res (gmap string node) :=
  let '(i, img) := p in
  match cvt_gray2rgb img with
  | Some img_rgb => Ok (imwrite out (npy_image_name filename i) img_rgb)
  | None => Raise CvError
  end.

(** Lines 31-39 for one [filename] of the input folder. *)
Definition combine_digits_file (input : gmap string node) (out : gmap string node)
    (filename : string) : res (gmap string node) :=
  if py_endswith filename ".npy" then
    match input !! filename with
    | Some (NFile bytes) =>
        match np_load bytes with
        | Some data => py_for (combine_digit_image filename) (py_enumerate data) out
        | None => Raise ValueError
        end
    | Some (NDir _) => Raise IsADirectoryError
    | None => Raise FileNotFoundError
    end
  else Ok out.

(** Lines 26-39. *)
Definition combine_digits (input : gmap string node) (out : option (gmap string node))
    : res (gmap string node) :=
  py_for (combine_digits_file input) (listdir_tree input) (default ∅ out).

(** Lines 42-50: the alphabet, then the digits, into the same folder. *)
Definition combine_datasets (asl_input digits_input : gmap string node)
    (out : option (gmap string node)) : res (gmap string node) :=
  out ← combine_asl_alphabet asl_input out;
  combine_digits digits_input (Some out).
End combine_digits.

(** ** Specification of the alphabet copy *)

(** The files of a source folder that line 21 selects. *)
Definition asl_copied (src : gmap string string) : gmap string string :=
  filter (λ kv, is_asl_image kv.1 = true) src.

(** What an output entry becomes: an alphabet folder adds its images to
    the output folder of its name, overriding files of the same name. *)
Definition asl_merge_node (i : option node) (o : option node) : option node :=
  match i, o with
  | Some (NDir src), Some (NDir dst) => Some (NDir (asl_copied src ∪ dst))
  | Some (NDir src), None => Some (NDir (asl_copied src))
  | _, o => o
  end.

Definition asl_merged (input out : gmap string node) : gmap string node :=
  merge asl_merge_node input out.

(** No regular file of the output has the name of an alphabet folder. *)
Definition asl_no_file_in_way (input out : gmap string node) : Prop :=
  ∀ d src c, input !! d = Some (NDir src) → out !! d ≠ Some (NFile c).

(** ** The alphabet copy refines its specification *)

Section asl_proofs.
Context `{DirLister}.

(** The copies of one folder into the output folder [d]: each listed
    image of the source is written over the output folder's entry. *)
Lemma combine_asl_files_eq folder d fs dst out :
  (∀ f, f ∈ fs → is_Some (folder !! f)) →
  ∃ dst', py_for (combine_asl_file folder d) fs (<[d := NDir dst]> out)
            = Ok (<[d := NDir dst']> out) ∧
    ∀ f, dst' !! f = if bool_decide (f ∈ fs) && is_asl_image f then folder !! f else dst !! f.
Proof.
  revert dst. induction fs as [|f fs IH]; intros dst Hin; cbn [py_for].
  { exists dst. split; [done|]. intros g. case_bool_decide; [set_solver|done]. }
  unfold combine_asl_file at 2. destruct (is_asl_image f) eqn:Hf.
  - destruct (Hin f) as [c Hc]; [set_solver|]. rewrite Hc, res_bind_Ok.
    unfold copy_into. rewrite lookup_insert_eq, insert_insert_eq.
    destruct (IH (<[f := c]> dst)) as (dst' & Hrun & Hlk); [intros; apply Hin; set_solver|].
    exists dst'. split; [done|]. intros g. rewrite Hlk.
    destruct (decide (g = f)) as [->|Hne].
    + rewrite Hf, lookup_insert_eq, (bool_decide_true (f ∈ f :: fs)) by constructor. simpl.
      by destruct (bool_decide (f ∈ fs)).
    + rewrite lookup_insert_ne by done.
      by rewrite (bool_decide_ext (g ∈ f :: fs) (g ∈ fs)) by set_solver.
  - rewrite res_bind_Ok.
    destruct (IH dst) as (dst' & Hrun & Hlk); [intros; apply Hin; set_solver|].
    exists dst'. split; [done|]. intros g. rewrite Hlk.
    destruct (decide (g = f)) as [->|Hne].
    + rewrite Hf. by rewrite !andb_false_r.
    + by rewrite (bool_decide_ext (g ∈ f :: fs) (g ∈ fs)) by set_solver.
Qed.

(** One alphabet folder, when no regular file is in the way. *)
Lemma combine_asl_folder_eq input out d src :
  input !! d = Some (NDir src) → (∀ c, out !! d ≠ Some (NFile c)) →
  combine_asl_folder input out d = Ok (<[d := NDir (asl_copied src ∪ default ∅
    (match out !! d with Some (NDir dst) => Some dst | _ => None end))]> out).
Proof.
  intros Hd Hnf. unfold combine_asl_folder. rewrite Hd.
  assert (∃ dst, (match out !! d with None => <[d := NDir ∅]> out | Some _ => out end)
                   = <[d := NDir dst]> out ∧
                 default ∅ (match out !! d with Some (NDir dst) => Some dst | _ => None end) = dst)
    as (dst & -> & ->).
  { destruct (out !! d) as [[c|dst]|] eqn:Ho; [by destruct (Hnf c)| |].
    - exists dst. split; [by rewrite insert_id | done].
    - by exists ∅. }
  destruct (combine_asl_files_eq src d (listdir_folder src) dst out) as (dst' & -> & Hlk).
  { intros f. apply listdir_folder_elem. }
  do 3 f_equal. apply map_eq. intros f. unfold asl_copied. rewrite Hlk, lookup_union.
  destruct (bool_decide (f ∈ listdir_folder src)) eqn:Hb.
  - apply bool_decide_eq_true, listdir_folder_elem in Hb as [c Hc].
    destruct (is_asl_image f) eqn:Hf; simpl.
    + rewrite (map_lookup_filter_Some_2 _ _ f c) by done. by destruct (dst !! f).
    + rewrite map_lookup_filter_None_2 by (right; intros ? _; simpl; congruence).
      by destruct (dst !! f).
  - apply bool_decide_eq_false in Hb. rewrite listdir_folder_elem in Hb.
    apply eq_None_not_Some in Hb. rewrite map_lookup_filter_None_2 by by left.
    by destruct (dst !! f).
Qed.

(** The loop over the listed names [xs], entry by entry. *)
Lemma combine_asl_loop input xs out :
  asl_no_file_in_way input out → NoDup xs →
  ∃ out', py_for (combine_asl_folder input) xs out = Ok out' ∧
    ∀ d, out' !! d = if bool_decide (d ∈ xs) then asl_merge_node (input !! d) (out !! d)
                     else out !! d.
Proof.
  revert out. induction xs as [|x xs IH]; intros out Hway Hnd; cbn [py_for].
  { exists out. split; [done|]. intros d. case_bool_decide; [set_solver|done]. }
  apply NoDup_cons in Hnd as [Hx Hnd].
  assert (∃ out1, combine_asl_folder input out x = Ok out1 ∧
            out1 !! x = asl_merge_node (input !! x) (out !! x) ∧
            ∀ d, d ≠ x → out1 !! d = out !! d) as (out1 & -> & Hx1 & Hne1).
  { destruct (input !! x) as [[c|src]|] eqn:Hi.
    - exists out. unfold combine_asl_folder. rewrite Hi. by split_and!.
    - eexists. split_and!; [by apply combine_asl_folder_eq; [|intros c; eapply Hway]| |].
      + rewrite lookup_insert_eq. simpl.
        destruct (out !! x) as [[c|dst]|] eqn:Ho; [by destruct (Hway x src c)| |].
        * done.
        * do 2 f_equal. apply (right_id_L ∅ (∪)).
      + intros d Hd. by rewrite lookup_insert_ne by done.
    - exists out. unfold combine_asl_folder. rewrite Hi. split_and!; [done| |done].
      simpl. by destruct (out !! x). }
  rewrite res_bind_Ok.
  destruct (IH out1) as (out' & Hrun & Hlk); [|done|].
  { intros d src c Hd. destruct (decide (d = x)) as [->|Hne].
    - rewrite Hx1, Hd. destruct (out !! x) as [[c0|]|] eqn:Ho; [by destruct (Hway x src c0)| |]; simpl; congruence.
    - rewrite Hne1 by done. by apply (Hway d src). }
  exists out'. split; [done|]. intros d. rewrite Hlk.
  destruct (decide (d = x)) as [->|Hne].
  - rewrite bool_decide_false, bool_decide_true by set_solver. done.
  - rewrite Hne1 by done.
    by rewrite (bool_decide_ext (d ∈ x :: xs) (d ∈ xs)) by set_solver.
Qed.
End asl_proofs.

Section asl_result.
Context `{DirLister}.

Lemma combine_asl_result input out :
  asl_no_file_in_way input out →
  combine_asl_alphabet input (Some out) = Ok (asl_merged input out).
Proof.
  intros Hway. unfold combine_asl_alphabet. simpl.
  destruct (combine_asl_loop input (listdir_tree input) out Hway (listdir_tree_NoDup input))
    as (out' & -> & Hlk).
  f_equal. apply map_eq. intros d. rewrite Hlk. unfold asl_merged. rewrite lookup_merge.
  case_bool_decide as Hd.
  - apply listdir_tree_elem in Hd as [n ->]. by destruct (out !! d).
  - rewrite listdir_tree_elem in Hd. apply eq_None_not_Some in Hd. rewrite Hd.
    by destruct (out !! d).
Qed.
End asl_result.

(** ** Specification of the digits step *)

(** What a run of writes does to an output entry: a file is written
    unless a folder has the name. *)
Definition imwrite_node (w : option string) (o : option node) : option node :=
  match w, o with
  | Some _, Some (NDir d) => Some (NDir d)
  | Some b, _ => Some (NFile b)
  | None, o => o
  end.

Definition imwrite_all (w : gmap string string) (out : gmap string node) : gmap string node :=
  merge imwrite_node w out.

Section digits_spec.
Context {A : Type} `{NpyLoader A} `{CvConverter A}.

(** The names and bytes the digits step writes for the entry [f]. *)
Definition npy_writes (input : gmap string node) (f : string) : list (string * string) :=
  if py_endswith f ".npy" then
    match input !! f with
    | Some (NFile bytes) =>
        match np_load bytes with
        | Some data =>
            map (λ p, (npy_image_name f p.1, from_option id "" (cvt_gray2rgb p.2)))
              (py_enumerate data)
        | None => []
        end
    | _ => []
    end
  else [].

(** All the writes of the digits step, in the order of the map: a
    specification that does not depend on [os.listdir]. *)
Definition digit_writes (input : gmap string node) : gmap string string :=
  list_to_map (flat_map (npy_writes input) (map_to_list input).*1).

(** Every [.npy] entry is a file that loads, and each of its images
    converts. *)
Definition npy_ok (input : gmap string node) : Prop :=
  ∀ f n, py_endswith f ".npy" = true → input !! f = Some n →
    ∃ bytes data, n = NFile bytes ∧ np_load bytes = Some data ∧
      Forall (λ img, is_Some (cvt_gray2rgb img)) data.
End digits_spec.

(** ** File names of the digits step *)

Lemma string_of_uint_no_underscore u :
  "_"%char ∉ list_ascii_of_string (NilEmpty.string_of_uint u).
Proof. induction u; simpl; [set_solver|..]; rewrite elem_of_cons; intros [?|?]; done. Qed.

(** Two lists split around a separator that neither tail contains split
    the same way. *)
Lemma app_sep_inj {B} (l1 l2 r1 r2 : list B) (c : B) :
  c ∉ r1 → c ∉ r2 → (l1 ++ c :: r1 = l2 ++ c :: r2)%list → l1 = l2 ∧ r1 = r2.
Proof.
  revert l2. induction l1 as [|x l1 IH]; intros [|y l2] H1 H2 Heq; simpl in Heq;
    simplify_eq; try done.
  - destruct H1. set_solver.
  - destruct H2. set_solver.
  - destruct (IH l2) as [-> ->]; done.
Qed.

(** [f"{filename}_{i}.jpg"] determines [filename] and [i]: the last
    underscore of the name is the one line 38 inserts. *)
Lemma npy_image_name_inj f1 i1 f2 i2 :
  npy_image_name f1 i1 = npy_image_name f2 i2 → f1 = f2 ∧ i1 = i2.
Proof.
  unfold npy_image_name. intros Heq. apply (f_equal list_ascii_of_string) in Heq.
  rewrite !las_app in Heq. change (list_ascii_of_string "_") with ["_"%char] in Heq.
  simpl in Heq. apply app_sep_inj in Heq as [H1 H2].
  - split; [by apply las_inj|]. apply str_nat_inj, las_inj, (app_inv_tail _ _ _ H2).
  - rewrite elem_of_app. intros [H|H]; [by apply string_of_uint_no_underscore in H|].
    vm_compute in H. set_solver.
  - rewrite elem_of_app. intros [H|H]; [by apply string_of_uint_no_underscore in H|].
    vm_compute in H. set_solver.
Qed.

(** ** The digits step refines its specification *)

(** Writes to distinct names, in any order, give [imwrite_all]. *)
Lemma py_for_imwrite (l : list (string * string)) out :
  NoDup l.*1 →
  py_for (λ m kv, Ok (imwrite m kv.1 kv.2)) l out = Ok (imwrite_all (list_to_map l) out).
Proof.
  revert out. induction l as [|[k v] l IH]; intros out Hnd; simpl.
  { f_equal. apply map_eq. intros n. unfold imwrite_all. rewrite lookup_merge, lookup_empty.
    by destruct (out !! n). }
  apply NoDup_cons in Hnd as [Hk Hnd]. rewrite IH by done. f_equal.
  apply map_eq. intros n. unfold imwrite_all. rewrite !lookup_merge.
  destruct (decide (n = k)) as [->|Hne].
  - rewrite lookup_insert_eq, (not_elem_of_list_to_map_1 l k) by done. unfold imwrite.
    destruct (out !! k) as [[]|] eqn:Ho; rewrite ?Ho, ?lookup_insert_eq; done.
  - rewrite lookup_insert_ne by done. unfold imwrite.
    destruct (out !! k) as [[]|]; rewrite ?lookup_insert_ne; done.
Qed.

Lemma elem_of_zip_snd {B C} (xs : list B) (ys : list C) p : p ∈ zip xs ys → p.2 ∈ ys.
Proof.
  revert ys. induction xs as [|x xs IH]; intros [|y ys] Hp; simpl in Hp;
    try by apply not_elem_of_nil in Hp.
  apply elem_of_cons in Hp as [->|Hp]; [by left | right; by apply IH].
Qed.

Lemma fst_map_zip {B C D E} (k : B * C → D * E) (g : B → D) (xs : list B) (ys : list C) :
  (∀ p, (k p).1 = g p.1) → List.length xs = List.length ys →
  (map k (zip xs ys)).*1 = map g xs.
Proof.
  intros Hk. revert ys. induction xs as [|x xs IH]; intros [|y ys] Hl; simpl in *; try done.
  rewrite Hk. f_equal. apply IH. lia.
Qed.

Section digits_proofs.
Context `{DirLister} {A : Type} `{NpyLoader A} `{CvConverter A}.

(** The names written for one entry are distinct and all of the form
    [npy_image_name f i]. *)
Lemma npy_writes_names input f :
  NoDup (npy_writes input f).*1 ∧ ∀ k, k ∈ (npy_writes input f).*1 → ∃ i, k = npy_image_name f i.
Proof.
  unfold npy_writes.
  destruct (py_endswith f ".npy"), (input !! f) as [[bytes|]|];
    try (split; [constructor | set_solver]).
  destruct (np_load bytes) as [data|]; [|split; [constructor | set_solver]].
  unfold py_enumerate. rewrite (fst_map_zip _ (npy_image_name f)) by (done || by rewrite length_seq).
  split.
  - apply NoDup_fmap_2_strong; [|apply NoDup_seq].
    intros i j _ _ Hij. by apply npy_image_name_inj in Hij as [_ ->].
  - intros k Hk. apply list_elem_of_fmap in Hk as [i [-> _]]. eauto.
Qed.

Lemma elem_of_flat_map_keys {B} (g : B → list (string * string)) fs k :
  k ∈ (flat_map g fs).*1 → ∃ f, f ∈ fs ∧ k ∈ (g f).*1.
Proof.
  induction fs as [|f fs IH]; simpl; [set_solver|].
  rewrite fmap_app, elem_of_app. intros [Hk|Hk]; [exists f; set_solver|].
  destruct (IH Hk) as (f' & ? & ?). exists f'. set_solver.
Qed.

(** Distinct entries write distinct names. *)
Lemma flat_map_keys_NoDup input fs :
  NoDup fs → NoDup (flat_map (npy_writes input) fs).*1.
Proof.
  induction fs as [|f fs IH]; intros Hnd; simpl; [constructor|].
  apply NoDup_cons in Hnd as [Hf Hnd]. rewrite fmap_app. apply NoDup_app.
  split_and!; [apply npy_writes_names | | by apply IH].
  intros k Hk1 Hk2. destruct (npy_writes_names input f) as [_ Hn1].
  destruct (Hn1 k Hk1) as [i ->].
  apply elem_of_flat_map_keys in Hk2 as (f' & Hf' & Hk2).
  destruct (npy_writes_names input f') as [_ Hn2]. destruct (Hn2 _ Hk2) as [i' Heq].
  apply npy_image_name_inj in Heq as [<- _]. done.
Qed.

(** One listed entry is the run of its writes. *)
Lemma combine_digits_file_writes input t f :
  npy_ok input → is_Some (input !! f) →
  combine_digits_file input t f = py_for (λ m kv, Ok (imwrite m kv.1 kv.2)) (npy_writes input f) t.
Proof.
  intros Hok [n Hn]. unfold combine_digits_file, npy_writes.
  destruct (py_endswith f ".npy") eqn:He; [|done].
  destruct (Hok f n He Hn) as (bytes & data & -> & Hl & Hc). rewrite Hn, Hl.
  apply py_for_map. intros t' [i img] Hx. apply elem_of_zip_snd in Hx. simpl in Hx.
  rewrite Forall_forall in Hc. destruct (Hc img Hx) as [rgb Hrgb]. simpl. by rewrite Hrgb.
Qed.

Lemma combine_digits_result input out :
  npy_ok input → combine_digits input (Some out) = Ok (imwrite_all (digit_writes input) out).
Proof.
  intros Hok. unfold combine_digits. change (default ∅ (Some out)) with out.
  rewrite (py_for_flat_map _ (λ m kv, Ok (imwrite m kv.1 kv.2)) (npy_writes input)).
  2: { intros t f Hf. apply combine_digits_file_writes; [done|]. by apply listdir_tree_elem. }
  rewrite py_for_imwrite by (apply flat_map_keys_NoDup, listdir_tree_NoDup).
  do 2 f_equal. unfold digit_writes. apply list_to_map_proper.
  - apply flat_map_keys_NoDup, listdir_tree_NoDup.
  - apply Permutation_flat_map, listdir_tree_perm.
Qed.
End digits_proofs.

Lemma elem_of_enumerate {B} (data : list B) i x :
  data !! i = Some x → (i, x) ∈ py_enumerate data.
Proof.
  intros Hi. apply list_elem_of_lookup_2 with i. unfold py_enumerate.
  rewrite lookup_zip_with, lookup_seq_lt by (eapply lookup_lt_Some; eauto). simpl.
  by rewrite Hi.
Qed.

Section digits_entry.
Context {A : Type} `{NpyLoader A} `{CvConverter A}.

(** The image [i] of the [.npy] file [f] is among the writes of the
    specification. *)
Lemma digit_writes_lookup input f bytes data i img rgb :
  py_endswith f ".npy" = true → input !! f = Some (NFile bytes) → np_load bytes = Some data →
  data !! i = Some img → cvt_gray2rgb img = Some rgb →
  digit_writes input !! npy_image_name f i = Some rgb.
Proof.
  intros He Hf Hl Hi Hc. unfold digit_writes. apply elem_of_list_to_map_1.
  { apply flat_map_keys_NoDup, NoDup_fst_map_to_list. }
  apply list_elem_of_In, in_flat_map. exists f. split.
  - apply list_elem_of_In, list_elem_of_fmap. exists (f, NFile bytes).
    split; [done|]. by apply elem_of_map_to_list.
  - apply list_elem_of_In. unfold npy_writes. rewrite He, Hf, Hl.
    apply list_elem_of_fmap. exists (i, img). split; [simpl; by rewrite Hc|].
    by apply elem_of_enumerate.
Qed.
End digits_entry.

(** ** The merge of the two datasets *)

Section combine_theorems.
Context `{DirLister} {A : Type} `{NpyLoader A} `{CvConverter A}.

(** C21: when no regular file of the output has the name of an alphabet
    folder and every [.npy] file of the digits folder loads and converts,
    [combine_datasets] completes and its output is the alphabet merge
    [asl_merged] (each alphabet folder's [.jpg]/[.png] files added to the
    output folder of its name) followed by the digit writes (each image of
    each array written as [f"{filename}_{i}.jpg"], unless a folder has that
    name); neither depends on the order [os.listdir] returns. *)
Theorem combine_datasets_spec asl_input digits_input out :
  asl_no_file_in_way asl_input (default ∅ out) → npy_ok digits_input →
  combine_datasets asl_input digits_input out
    = Ok (imwrite_all (digit_writes digits_input) (asl_merged asl_input (default ∅ out))).
Proof.
  intros Hway Hok. unfold combine_datasets.
  change (combine_asl_alphabet asl_input out) with (combine_asl_alphabet asl_input (Some (default ∅ out))).
  rewrite combine_asl_result by done. rewrite res_bind_Ok. by apply combine_digits_result.
Qed.

(** The image [i] of a [.npy] file [f] of the digits folder is
    written, converted, as [f"{f}_{i}.jpg"], and no other image of the run
    overwrites it, when every [.npy] file loads and converts and no folder
    has that name. *)
Theorem combine_digits_saves_image input out f bytes data i img rgb :
  npy_ok input → py_endswith f ".npy" = true → input !! f = Some (NFile bytes) →
  np_load bytes = Some data → data !! i = Some img → cvt_gray2rgb img = Some rgb →
  (∀ d, out !! npy_image_name f i ≠ Some (NDir d)) →
  ∃ out', combine_digits input (Some out) = Ok out' ∧
    out' !! npy_image_name f i = Some (NFile rgb).
Proof.
  intros Hok He Hf Hl Hi Hc Hnd. rewrite combine_digits_result by done.
  eexists; split; [done|]. unfold imwrite_all. rewrite lookup_merge.
  rewrite (digit_writes_lookup input f bytes data i img rgb) by done.
  destruct (out !! npy_image_name f i) as [[c|d]|] eqn:Ho; [done| |done].
  by destruct (Hnd d).
Qed.

(** C26: when every [.npy] entry of the digits folder is a file that
    loads, one image anywhere that [cv2.cvtColor] rejects makes the
    digits step raise [cv2.error]: the error is not caught, and the images
    already written stay. *)
Theorem combine_digits_cv_error input out f bytes data img :
  (∀ g n, py_endswith g ".npy" = true → input !! g = Some n →
     ∃ bytes' data', n = NFile bytes' ∧ np_load bytes' = Some data') →
  py_endswith f ".npy" = true → input !! f = Some (NFile bytes) →
  np_load bytes = Some data → img ∈ data → cvt_gray2rgb img = None →
  combine_digits input out = Raise CvError.
Proof.
  intros Hload He Hf Hl Himg Hc.
  apply py_for_raise.
  - intros t g Hg. unfold combine_digits_file. destruct (py_endswith g ".npy") eqn:Hge; [|eauto].
    apply listdir_tree_elem in Hg as [n Hn].
    destruct (Hload g n Hge Hn) as (b & d & -> & Hd). rewrite Hn, Hd.
    apply py_for_ok_or_raise. intros t' [i x] _. simpl. destruct (cvt_gray2rgb x); eauto.
  - exists f. split; [apply listdir_tree_elem; eauto|]. intros t.
    unfold combine_digits_file. rewrite He, Hf, Hl. apply py_for_raise.
    { intros t' [i x] _. simpl. destruct (cvt_gray2rgb x); eauto. }
    apply list_elem_of_lookup_1 in Himg as [i Hi].
    exists (i, img). split; [by apply elem_of_enumerate|]. intros t'. simpl. by rewrite Hc.
Qed.

(** C32: a digits folder none of whose entries ends in [.npy], such as
    the dataset as [image_extraction.py] reads it (the arrays one folder
    down, in [Sign-language-digits-dataset/]), makes the digits step
    leave the output as it is. *)
Theorem combine_digits_no_npy input out :
  (∀ f, is_Some (input !! f) → py_endswith f ".npy" = false) →
  combine_digits input (Some out) = Ok out.
Proof.
  intros Hno. apply py_for_fixed. intros f Hf. unfold combine_digits_file.
  by rewrite (Hno f (proj1 (listdir_tree_elem input f) Hf)).
Qed.
End combine_theorems.

(** ** Concrete runs *)

(** A loader that reads a file's bytes as an array of one image, and a
    conversion that rejects the image ["bad"]. *)
Definition one_image_npy : NpyLoader string := {| np_load bytes := Some [bytes] |}.
Definition rgb_converter : CvConverter string :=
  {| cvt_gray2rgb img := if String.eqb img "bad" then None else Some ("rgb " ++ img) |}.

(** An alphabet dataset with one folder of two images. *)
Definition asl_sample : gmap string node :=
  {["A" := NDir (<["a1.jpg" := "one"]> {["a2.png" := "two"]})]}.

(** The two arrays of the digits dataset, as [combined_data.py] expects
    them, and as [image_extraction.py] reads them (line 20). *)
Definition digits_flat : gmap string node := <["X.npy" := NFile "X"]> {["Y.npy" := NFile "Y"]}.
Definition digits_nested : gmap string node :=
  {["Sign-language-digits-dataset" := NDir (<["X.npy" := "X"]> {["Y.npy" := "Y"]})]}.

(** A regular file [A] in the output, where the alphabet has the
    folder [A], is overwritten by each image in turn: the one
    [os.listdir] returns last survives, so two listing orders leave
    different outputs. *)
Theorem combine_asl_file_in_way_order :
  @combine_asl_alphabet map_order_lister asl_sample (Some {["A" := NFile "old"]})
    = Ok {["A" := NFile "two"]} ∧
  @combine_asl_alphabet reverse_order_lister asl_sample (Some {["A" := NFile "old"]})
    = Ok {["A" := NFile "one"]}.
Proof. split; vm_compute; reflexivity. Qed.

(** [Y.npy], the one-hot labels of the digits, is taken for an array of
    images like [X.npy]: its rows are written as [Y.npy_<i>.jpg], and
    the digit images keep no trace of their label. *)
Theorem combine_digits_label_rows_as_images :
  @combine_digits map_order_lister string one_image_npy rgb_converter digits_flat None
    = Ok (<["X.npy_0.jpg" := NFile "rgb X"]> {["Y.npy_0.jpg" := NFile "rgb Y"]}).
Proof. vm_compute. reflexivity. Qed.

Lemma combine_datasets_spec_witness :
  @combine_datasets map_order_lister string one_image_npy rgb_converter asl_sample digits_flat None
    = Ok (imwrite_all (@digit_writes string one_image_npy rgb_converter digits_flat)
            (asl_merged asl_sample ∅)).
Proof.
  apply (@combine_datasets_spec map_order_lister string one_image_npy rgb_converter).
  - intros d src c _. simpl. by rewrite lookup_empty.
  - intros f n _ Hn. unfold digits_flat in Hn.
    apply lookup_insert_Some in Hn as [[<- <-]|[_ Hn]];
      [|apply lookup_singleton_Some in Hn as [<- <-]];
      do 2 eexists; (split; [reflexivity|]); (split; [reflexivity|]);
      repeat constructor; eexists; reflexivity.
Defined.

Lemma combine_digits_saves_image_witness :
  ∃ out', @combine_digits map_order_lister string one_image_npy rgb_converter digits_flat (Some ∅)
            = Ok out' ∧ out' !! npy_image_name "Y.npy" 0 = Some (NFile "rgb Y").
Proof.
  apply (@combine_digits_saves_image map_order_lister string one_image_npy rgb_converter
           digits_flat ∅ "Y.npy" "Y" ["Y"] 0 "Y" "rgb Y").
  - intros f n _ Hn. unfold digits_flat in Hn.
    apply lookup_insert_Some in Hn as [[<- <-]|[_ Hn]];
      [|apply lookup_singleton_Some in Hn as [<- <-]];
      do 2 eexists; (split; [reflexivity|]); (split; [reflexivity|]);
      repeat constructor; eexists; reflexivity.
  - reflexivity.
  - reflexivity.
  - reflexivity.
  - reflexivity.
  - reflexivity.
  - intros d. by rewrite lookup_empty.
Defined.

Lemma combine_digits_cv_error_witness :
  @combine_digits map_order_lister string one_image_npy rgb_converter
    (<["X.npy" := NFile "X"]> {["Y.npy" := NFile "bad"]}) None = Raise CvError.
Proof.
  apply (@combine_digits_cv_error map_order_lister string one_image_npy rgb_converter _ _
           "Y.npy" "bad" ["bad"] "bad").
  - intros g n _ Hn. apply lookup_insert_Some in Hn as [[<- <-]|[_ Hn]];
      [|apply lookup_singleton_Some in Hn as [<- <-]]; eauto.
  - reflexivity.
  - reflexivity.
  - reflexivity.
  - by constructor.
  - reflexivity.
Defined.

Lemma combine_digits_no_npy_witness :
  @combine_digits map_order_lister string one_image_npy rgb_converter digits_nested (Some ∅) = Ok ∅.
Proof.
  apply (@combine_digits_no_npy map_order_lister string one_image_npy rgb_converter).
  intros f [n Hn]. unfold digits_nested in Hn. apply lookup_singleton_Some in Hn as [<- _]. reflexivity.
Defined.
