(* ===== verification/Pipeline.v ===== *)
(** * The data pipeline: the scripts run one after the other

    The combined variant's scripts ([src/asl+sign digits detection/
    project_code/]) talk to each other only through the file system, at
    paths each of them computes from its own location:
    [os.path.join(os.path.abspath(os.path.dirname(__file__)), "data", ...)].
    This file models
    - the project's store: the trees of the folders the scripts read and
      write, the single files they load and the split dataset, each at its
      path relative to [project_code/] ([project_fs]);
    - each script as a function of the store, with its path constants
      (modules [image_extraction], [bounding_box_generation],
      [bounding_box_generation_validation], [dataset_splitting], named after
      the scripts): what it reads, the component it runs on that, and where
      it writes the result; [os.makedirs(..., exist_ok=True)] fails on a
      regular file at the folder or above it ([os_makedirs]), which the
      splitting script's folder creation (lines 15-18) can raise;
    - the pipeline of the spec's data flow: extraction, labeling,
      validation, splitting.

    A script that raises ends the pipeline; the writes it made before are
    not tracked (every component returns its state only on success).

    The theorems: the splitting script's folder creation succeeds exactly
    when no regular file is in the way; the four scripts agree on the folder they hand on
    ([data/yolo_images]), and a digit image of the raw dataset on which the
    detector finds a hand comes out of the pipeline in exactly one split,
    bytes unchanged, with a label line of its digit's class, when the trees
    meet the components' conditions. *)

From S2P Require Import Prelude PyStr FileSystem BoxDeriver LabelWriter Vocabulary ImageExtraction Labeling Validator Splitter SplitRun SplitExamples CombinedData.

Local Open Scope string_scope.

(** ** Paths and the store *)

(** A path relative to [project_code/]. *)
Definition path := list string.

(** [os.path.join(p, *parts)] for relative parts. *)
Definition os_path_join (p : path) (parts : list string) : path := (p ++ parts)%list.

(** [os.path.abspath(os.path.dirname(__file__))]: every script of the
    pipeline lives in [project_code/]. *)
Definition script_dir : path := [].

(** The folders as trees, the single files as bytes, and the split
    dataset at its output folder. *)
Record project_fs := mk_fs {
  fs_files : gmap path string;
  fs_dirs : gmap path (gmap string node);
  fs_datasets : gmap path dataset
}.

Definition set_dir (fs : project_fs) (p : path) (t : gmap string node) : project_fs :=
  mk_fs (fs_files fs) (<[p := t]> (fs_dirs fs)) (fs_datasets fs).

Definition set_dataset (fs : project_fs) (p : path) (o : dataset) : project_fs :=
  mk_fs (fs_files fs) (fs_dirs fs) (<[p := o]> (fs_datasets fs)).

(** [open(p, "rb").read()]. *)
Definition read_file (fs : project_fs) (p : path) : res string :=
  match fs_files fs !! p with Some b => Ok b | None => Raise FileNotFoundError end.

(** [os.listdir(p)] and the files below it. *)
Definition read_dir (fs : project_fs) (p : path) : res (gmap string node) :=
  match fs_dirs fs !! p with Some t => Ok t | None => Raise FileNotFoundError end.

(** The folders above a path, outermost first ([project_code/] itself
    excluded). *)
Definition path_parents (p : path) : list path :=
  map (λ n, take n p) (seq 1 (length p - 1)).

(** [os.makedirs(p, exist_ok=True)].  A regular file at a folder above
    [p] makes the final [mkdir] fail with NotADirectoryError (the
    recursion stops at the first existing ancestor); a regular file at [p]
    itself is re-raised as FileExistsError since it is not a folder.  The
    store keeps no empty folders, so success changes nothing. *)
Definition os_makedirs (fs : project_fs) (p : path) : res unit :=
  if existsb (λ q, bool_decide (is_Some (fs_files fs !! q))) (path_parents p)
  then Raise NotADirectoryError
  else if bool_decide (is_Some (fs_files fs !! p)) then Raise FileExistsError
  else Ok tt.

(** [np.load(p)]. *)
Definition np_load_res {B} `{NpyLoader B} (bytes : string) : res (list B) :=
  match np_load bytes with Some l => Ok l | None => Raise ValueError end.

(** ** The scripts *)

Module image_extraction.
Definition base_dir : path := script_dir.
Definition output_base : path := os_path_join base_dir ["data"; "yolo_images"].
Definition X_path : path := os_path_join base_dir
  ["data"; "raw_data"; "signlanguage_digits_dataset"; "Sign-language-digits-dataset"; "X.npy"].
Definition Y_path : path := os_path_join base_dir
  ["data"; "raw_data"; "signlanguage_digits_dataset"; "Sign-language-digits-dataset"; "Y.npy"].
Definition asl_source : path := os_path_join base_dir
  ["data"; "raw_data"; "asl_alphabet_dataset"; "asl_alphabet_train"; "asl_alphabet_train"].

Section script.
Context `{DirLister} `{PilConverter} {A : Type} `{ImageEncoder A}
  {NX : NpyLoader A} {NY : NpyLoader (list Q)}.

(** The whole script: load [X] and [Y] (lines 23-24), save the digits
    (lines 26-43), copy the alphabet (lines 49-69). *)
Definition run (fs : project_fs) : res project_fs :=
  xb ← read_file fs X_path; X ← @np_load_res A NX xb;
  yb ← read_file fs Y_path; Y ← @np_load_res (list Q) NY yb;
  root ← extract_digits X Y (default ∅ (fs_dirs fs !! output_base));
  src ← read_dir fs asl_source;
  root ← extract_asl src root;
  Ok (set_dir fs output_base root).
End script.
End image_extraction.

Module bounding_box_generation.
Definition BASE_DIR : path := script_dir.
Definition IMAGE_DIR : path := os_path_join BASE_DIR ["data"; "yolo_images"].

Section script.
Context `{DirLister} {img : Type} `{ImageCodec img} `{HandLandmarker img}.

(** Lines 31-78 on the tree at [IMAGE_DIR]. *)
Definition run (fs : project_fs) : res project_fs :=
  root ← read_dir fs IMAGE_DIR;
  root ← label_pass root;
  Ok (set_dir fs IMAGE_DIR root).
End script.
End bounding_box_generation.

Module bounding_box_generation_validation.
Definition base_folder : path := os_path_join script_dir ["data"; "yolo_images"].

Section script.
Context `{DirLister}.

(** Lines 17-35: the report, the script changes nothing. *)
Definition run (fs : project_fs) : res (list row) :=
  root ← read_dir fs base_folder;
  Ok (validate root).
End script.
End bounding_box_generation_validation.

Module dataset_splitting.
Definition source_dir : path := os_path_join script_dir ["data"; "yolo_images"].
Definition output_dir : path := os_path_join script_dir ["data"; "yolo_dataset"].

(** The folder names of [for split in ['train', 'val']] (line 16). *)
Definition split_folder (sp : split) : string :=
  match sp with Train => "train" | Val => "val" end.

(** Lines 15-18: the four output folders, created in the script's order. *)
Definition make_output_dirs (fs : project_fs) : res unit :=
  py_for (λ _ sp,
    _ ← os_makedirs fs (os_path_join output_dir ["images"; split_folder sp]);
    os_makedirs fs (os_path_join output_dir ["labels"; split_folder sp])) [Train; Val] tt.

Section script.
Context `{DirLister} {rng : Type} `{Shuffler rng}.

(** Lines 9-58: the output folders are created, then the pairs of
    [source_dir] are copied into the dataset at [output_dir], which keeps
    what it held before. *)
Definition run (fs : project_fs) (g : rng) : res (project_fs * rng) :=
  _ ← make_output_dirs fs;
  root ← read_dir fs source_dir;
  st ← split_dataset root (default empty_dataset (fs_datasets fs !! output_dir), g);
  Ok (set_dataset fs output_dir st.1, st.2).
End script.
End dataset_splitting.

(** ** The pipeline *)

Section pipeline.
Context `{DirLister} `{PilConverter} {A : Type} `{ImageEncoder A}
  {NX : NpyLoader A} {NY : NpyLoader (list Q)}
  {img : Type} `{ImageCodec img} `{HandLandmarker img} {rng : Type} `{Shuffler rng}.

(** Extraction, labeling, validation, splitting: the validator's report,
    the store at the end and the random state. *)
Definition pipeline (fs : project_fs) (g : rng) : res (list row * project_fs * rng) :=
  fs1 ← image_extraction.run fs;
  fs2 ← bounding_box_generation.run fs1;
  report ← bounding_box_generation_validation.run fs2;
  st ← dataset_splitting.run fs2 g;
  Ok (report, st.1, st.2).
End pipeline.

(** ** The scripts hand each other the same folder *)

Lemma pipeline_dirs_agree :
  image_extraction.output_base = bounding_box_generation.IMAGE_DIR ∧
  bounding_box_generation.IMAGE_DIR = bounding_box_generation_validation.base_folder ∧
  bounding_box_generation.IMAGE_DIR = dataset_splitting.source_dir.
Proof. done. Qed.

(** ** Reading the store *)

Lemma read_file_Some fs p b : fs_files fs !! p = Some b → read_file fs p = Ok b.
Proof. unfold read_file. by intros ->. Qed.

Lemma read_dir_Some fs p t : fs_dirs fs !! p = Some t → read_dir fs p = Ok t.
Proof. unfold read_dir. by intros ->. Qed.

Lemma np_load_res_Some {B} `{NpyLoader B} bytes l : np_load bytes = Some l → np_load_res bytes = Ok l.
Proof. unfold np_load_res. by intros ->. Qed.

#[local] Hint Resolve read_file_Some read_dir_Some np_load_res_Some : cvproj.

(** ** Creating the output folders *)




(** ** Facts the composition needs from the components *)

(** The digit folders are the first ten classes of the combined
    vocabulary: folder [str(d)] gets class index [d]. *)
Lemma class_map_digit d : (d < 10)%nat → Combined.class_map !! str_nat d = Some d.
Proof. intros Hd. do 10 (destruct d as [|d]; [vm_compute; reflexivity|]). lia. Qed.

(** A digit file name is an image name for the labeling and splitting
    scripts. *)
Lemma digit_file_name_image d k : is_image_name (digit_file_name d k) = true.
Proof. unfold digit_file_name. rewrite string_app_assoc. apply image_name_app. constructor. Qed.

Lemma extract_asl_incl `{DirLister} `{PilConverter} src root root' :
  extract_asl src root = Ok root' → tree_incl root root'.
Proof. apply py_for_incl, copy_asl_folder_incl. Qed.

(** An image the detector finds a hand in gets a label line of the
    folder's class. *)
Lemma label_of_detected {img} `{ImageCodec img} `{HandLandmarker img}
    class_id folder f bytes im hd hs :
  folder !! f = Some bytes → imread bytes = Some im → hands_process im = Some (hd :: hs) →
  ∃ b, label_of class_id folder f = Some (yolo_line class_id b).
Proof.
  intros Hf Hi Hh. unfold label_of. rewrite Hf. simpl. rewrite Hi. simpl.
  destruct (image_shape im) as [h w]. rewrite Hh.
  pose proof (hands_21 im _ Hh) as Hlen. apply Forall_cons in Hlen as [Hlen _].
  destruct (derive_box_trunc_ok w h hd) as [b ->]; [by intros ->|]. eauto.
Qed.

(** ** Each script's part *)

Section stages.
Context `{DirLister} `{PilConverter} {A : Type} `{ImageEncoder A}
  {NX : NpyLoader A} {NY : NpyLoader (list Q)}
  {img : Type} `{ImageCodec img} `{HandLandmarker img} {rng : Type} `{Shuffler rng}.

(** The extraction script leaves the image [X[j]] in the folder of its
    digit at [output_base], under its counter's name. *)
Lemma extraction_saves_digit fs fs1 xb yb X Y j x d :
  image_extraction.run fs = Ok fs1 →
  fs_files fs !! image_extraction.X_path = Some xb → @np_load A NX xb = Some X →
  fs_files fs !! image_extraction.Y_path = Some yb → @np_load (list Q) NY yb = Some Y →
  digit_rows_ok (List.length X) Y →
  digit_dirs_free (default ∅ (fs_dirs fs !! image_extraction.output_base)) →
  X !! j = Some x → row_label Y j = Ok d →
  ∃ root folder, fs_dirs fs1 !! image_extraction.output_base = Some root ∧
    root !! str_nat d = Some (NDir folder) ∧
    folder !! digit_file_name d (rank Y d j) = Some (save_jpeg x) ∧
    fs_datasets fs1 = fs_datasets fs.
Proof.
  intros Hrun HX HlX HY HlY Hok Hfree Hx Hd. unfold image_extraction.run in Hrun.
  rewrite (read_file_Some _ _ _ HX), res_bind_Ok, (np_load_res_Some _ _ HlX), res_bind_Ok,
    (read_file_Some _ _ _ HY), res_bind_Ok, (np_load_res_Some _ _ HlY), res_bind_Ok in Hrun.
  destruct (extract_digits_result X Y _ Hok Hfree) as (root1 & Hed & Hsaved).
  rewrite Hed, res_bind_Ok in Hrun.
  destruct (read_dir fs _) as [src|]; [rewrite res_bind_Ok in Hrun|discriminate].
  destruct (extract_asl src root1) as [root2|] eqn:Ha; [|discriminate].
  rewrite res_bind_Ok in Hrun. injection Hrun as <-.
  destruct (Hsaved j x d Hx Hd) as (folder1 & Hf1 & Himg).
  destruct (extract_asl_incl _ _ _ Ha _ _ Hf1) as (folder2 & Hf2 & Hsub).
  exists root2, folder2. split_and!; [apply lookup_insert_eq|done| |done].
  by eapply lookup_weaken.
Qed.

(** The labeling script turns a class folder [d] at [IMAGE_DIR] into the
    labeled folder. *)
Lemma labeling_folder fs1 fs2 root d folder class_id :
  bounding_box_generation.run fs1 = Ok fs2 →
  fs_dirs fs1 !! bounding_box_generation.IMAGE_DIR = Some root →
  root !! d = Some (NDir folder) → Combined.class_map !! d = Some class_id →
  ∃ root', fs_dirs fs2 !! bounding_box_generation.IMAGE_DIR = Some root' ∧
    root' !! d = Some (NDir (label_folder_total class_id folder)) ∧
    fs_datasets fs2 = fs_datasets fs1.
Proof.
  intros Hrun Hroot Hd Hc. unfold bounding_box_generation.run in Hrun.
  rewrite (read_dir_Some _ _ _ Hroot), res_bind_Ok in Hrun.
  destruct (label_pass_result root) as (root' & E & L). rewrite E, res_bind_Ok in Hrun.
  injection Hrun as <-. exists root'. split_and!; [apply lookup_insert_eq| |done].
  rewrite L, Hd. change (Some (label_entry d (NDir folder))
                         = Some (NDir (label_folder_total class_id folder))).
  cbn [label_entry]. by rewrite Hc.
Qed.

(** The splitting script puts a complete pair of [source_dir] into
    exactly one split of an output that was empty. *)
Lemma splitting_pair fs2 g fs3 g' root d folder f :
  dataset_splitting.run fs2 g = Ok (fs3, g') →
  fs_dirs fs2 !! dataset_splitting.source_dir = Some root →
  fs_datasets fs2 !! dataset_splitting.output_dir = None →
  split_ready root → root !! d = Some (NDir folder) → image_in folder f →
  file_exists folder (label_file_name f) = true →
  ∃ o sp, fs_datasets fs3 !! dataset_splitting.output_dir = Some o ∧
    images_of sp o !! f = folder !! f ∧
    labels_of sp o !! label_file_name f = folder !! label_file_name f ∧
    images_of (other_split sp) o !! f = None ∧
    labels_of (other_split sp) o !! label_file_name f = None.
Proof.
  intros Hrun Hroot Hout Hready Hd Hi Hl. unfold dataset_splitting.run in Hrun.
  apply res_bind_Ok_inv in Hrun as (_ & _ & Hrun).
  rewrite (read_dir_Some _ _ _ Hroot), res_bind_Ok, Hout in Hrun.
  change (default empty_dataset None) with empty_dataset in Hrun.
  destruct (split_dataset root (empty_dataset, g)) as [[o g1]|] eqn:Hs; [|discriminate].
  rewrite res_bind_Ok in Hrun. injection Hrun as <- _.
  destruct (split_dataset_exclusive_result root g o g1 d folder f Hready Hs Hd Hi Hl)
    as (sp & E1 & E2 & E3 & E4).
  exists o, sp. split_and!; [apply lookup_insert_eq|done..].
Qed.
Lemma splitting_dirs fs2 g fs3 g' :
  dataset_splitting.run fs2 g = Ok (fs3, g') → fs_dirs fs3 = fs_dirs fs2.
Proof.
  unfold dataset_splitting.run. intros (_ & _ & Hrun)%res_bind_Ok_inv.
  apply res_bind_Ok_inv in Hrun as (root & _ & Hrun).
  apply res_bind_Ok_inv in Hrun as (st & _ & Hrun). by injection Hrun as <- _.
Qed.

(** A detected image of a class folder, after the labeling pass: the
    image is unchanged and its label file holds a line of the folder's
    class, when stems are unique. *)
Lemma labeled_detected class_id folder f bytes im hd hs :
  unique_stems folder → is_image_name f = true → folder !! f = Some bytes →
  imread bytes = Some im → hands_process im = Some (hd :: hs) →
  ∃ b, label_folder_total class_id folder !! f = Some bytes ∧
    label_folder_total class_id folder !! label_file_name f = Some (yolo_line class_id b) ∧
    image_in (label_folder_total class_id folder) f.
Proof.
  intros Hu Himg Hf Hi Hh.
  destruct (label_folder_result class_id folder Hu) as (folder' & Hl & Hlab & _).
  rewrite label_folder_eq in Hl. injection Hl as Hl. unfold label_folder_total. rewrite Hl.
  destruct (label_of_detected class_id folder f bytes im hd hs Hf Hi Hh) as [b Hb].
  exists b. rewrite Hlab, Hb by (split; [eauto|done]).
  assert (Hkeep : folder' !! f = Some bytes).
  { rewrite <- Hl. unfold label_step. by rewrite write_labels_lookup_image. }
  split_and!; [done | by destruct (folder !! label_file_name f) | split; [eauto | done]].
Qed.
End stages.

(** ** End to end *)

Section end_to_end.
Context `{DirLister} `{PilConverter} {A : Type} `{ImageEncoder A}
  {NX : NpyLoader A} {NY : NpyLoader (list Q)}
  {img : Type} `{ImageCodec img} `{HandLandmarker img} {rng : Type} `{Shuffler rng}.

(** C11: the pipeline carries a digit image from the raw arrays to the
    training data.  When [X.npy] and [Y.npy] load, every label row is a
    digit, no plain file of [data/yolo_images] is named after a digit, the
    dataset folder is new and the labeled tree meets the splitter's
    conditions, an image [X[j]] of digit [d] on which the detector finds a
    hand ends up in exactly one split: its bytes under its extraction name
    in [images/<split>], a YOLO line of class [d] in [labels/<split>], and
    neither in the other split. *)
Theorem pipeline_digit_split fs g report fs3 g' xb yb X Y j x d im hd hs root :
  pipeline fs g = Ok (report, fs3, g') →
  fs_files fs !! image_extraction.X_path = Some xb → @np_load A NX xb = Some X →
  fs_files fs !! image_extraction.Y_path = Some yb → @np_load (list Q) NY yb = Some Y →
  digit_rows_ok (List.length X) Y →
  digit_dirs_free (default ∅ (fs_dirs fs !! image_extraction.output_base)) →
  fs_datasets fs !! dataset_splitting.output_dir = None →
  fs_dirs fs3 !! bounding_box_generation.IMAGE_DIR = Some root → split_ready root →
  X !! j = Some x → row_label Y j = Ok d →
  imread (save_jpeg x) = Some im → hands_process im = Some (hd :: hs) →
  let f := digit_file_name d (rank Y d j) in
  ∃ o sp b, fs_datasets fs3 !! dataset_splitting.output_dir = Some o ∧
    images_of sp o !! f = Some (save_jpeg x) ∧
    labels_of sp o !! label_file_name f = Some (yolo_line d b) ∧
    images_of (other_split sp) o !! f = None ∧
    labels_of (other_split sp) o !! label_file_name f = None.
Proof.
  intros Hrun HX HlX HY HlY Hok Hfree Hout Hroot Hready Hx Hd Hi Hh f.
  unfold pipeline in Hrun.
  apply res_bind_Ok_inv in Hrun as (fs1 & Hr1 & Hrun).
  apply res_bind_Ok_inv in Hrun as (fs2 & Hr2 & Hrun).
  apply res_bind_Ok_inv in Hrun as (rep & _ & Hrun).
  apply res_bind_Ok_inv in Hrun as ([fs3' g3] & Hr3 & Hrun). injection Hrun as _ -> ->.
  destruct (extraction_saves_digit fs fs1 xb yb X Y j x d Hr1 HX HlX HY HlY Hok Hfree Hx Hd)
    as (root_e & folder_e & He & Hfe & Himg & Hds1).
  assert (Hd10 : (d < 10)%nat).
  { destruct (Hok j) as (d' & Hd' & Hlt); [by eapply lookup_lt_Some|].
    rewrite Hd in Hd'. by injection Hd' as <-. }
  destruct (labeling_folder fs1 fs2 root_e (str_nat d) folder_e d Hr2 He Hfe (class_map_digit d Hd10))
    as (root_l & Hl & Hfl & Hds2).
  rewrite (splitting_dirs _ _ _ _ Hr3), Hl in Hroot. injection Hroot as <-.
  assert (Hu : unique_stems folder_e).
  { destruct (proj1 Hready _ _ Hfl) as [_ Hu]. intros f1 f2 Hg1 Hg2 Heq.
    apply Hu; [| |done]; by apply (label_folder_image_in d folder_e _ _ (label_folder_eq d folder_e)). }
  destruct (labeled_detected d folder_e f (save_jpeg x) im hd hs Hu (digit_file_name_image _ _)
              Himg Hi Hh) as (b & Hkeep & Hlab & Hin).
  destruct (splitting_pair fs2 g fs3 g' root_l (str_nat d) _ f Hr3 Hl
              ltac:(by rewrite Hds2, Hds1) Hready Hfl Hin
              ltac:(unfold file_exists; rewrite Hlab; by apply bool_decide_eq_true))
    as (o & sp & Ho & E1 & E2 & E3 & E4).
  exists o, sp, b. rewrite E1, E2. by rewrite Hkeep, Hlab.
Qed.
End end_to_end.

(** ** A concrete run *)

#[local] Existing Instance map_order_lister.
#[local] Instance demo_converter : PilConverter := {| pil_convert s := Some s |}.
#[local] Instance demo_encoder : ImageEncoder string := {| save_jpeg x := x |}.
#[local] Instance demo_npy_X : NpyLoader string :=
  {| np_load b := if String.eqb b "X" then Some ["left"] else None |}.
#[local] Instance demo_npy_Y : NpyLoader (list Q) :=
  {| np_load b := if String.eqb b "Y" then Some [one_hot 3] else None |}.
#[local] Instance demo_codec : ImageCodec string := test_codec.
#[local] Instance demo_landmarker : HandLandmarker string := test_landmarker.
#[local] Instance demo_shuffler : Shuffler unit := id_shuffler.

(** The raw arrays hold one image of the digit 3, on which the detector
    finds a hand; the alphabet folder is empty. *)
Definition demo_fs : project_fs :=
  mk_fs (<[image_extraction.X_path := "X"]> {[image_extraction.Y_path := "Y"]})
        {[image_extraction.asl_source := ∅]} ∅.

(** Its outcome, computed once. *)
Definition demo_outcome : list row * project_fs * unit :=
  match pipeline demo_fs tt with Ok r => r | Raise _ => ([], demo_fs, tt) end.

Definition demo_labeled_tree : gmap string node :=
  default ∅ (fs_dirs demo_outcome.1.2 !! bounding_box_generation.IMAGE_DIR).

Lemma pipeline_digit_split_witness :
  pipeline demo_fs tt = Ok demo_outcome ∧
    let f := digit_file_name 3 (rank [one_hot 3] 3 0) in
    ∃ o sp b, fs_datasets demo_outcome.1.2 !! dataset_splitting.output_dir = Some o ∧
      images_of sp o !! f = Some (save_jpeg "left") ∧
      labels_of sp o !! label_file_name f = Some (yolo_line 3 b) ∧
      images_of (other_split sp) o !! f = None ∧
      labels_of (other_split sp) o !! label_file_name f = None.
Proof.
  split; [vm_compute; reflexivity|].
  apply (pipeline_digit_split demo_fs tt demo_outcome.1.1 demo_outcome.1.2 tt "X" "Y" ["left"]
           [one_hot 3] 0 "left" 3 "left" (test_hand (1#4)) [] demo_labeled_tree).
  - vm_compute. reflexivity.
  - reflexivity.
  - reflexivity.
  - reflexivity.
  - reflexivity.
  - apply digit_rows_ok_b_sound. vm_compute. reflexivity.
  - apply digit_dirs_free_b_sound. vm_compute. reflexivity.
  - reflexivity.
  - vm_compute. reflexivity.
  - apply split_ready_b_sound. vm_compute. reflexivity.
  - reflexivity.
  - vm_compute. reflexivity.
  - reflexivity.
  - reflexivity.
Defined.
